(** * Stair Trek: a shallow embedding of [stair_track.py]

    The program keeps a table of (date, flights) records in a CSV file, and
    derives averages and a projected completion date from it.  The embedding
    follows the source function by function:

    - [Calendar]   the parts of Python's [datetime] the program calls;
    - [Text]       the text operations behind [to_csv] and [read_csv];
    - [Pandas]     data frames, [groupby(..).sum()], [mean], [concat];
    - [StairTrack] the functions and button handlers of [stair_track.py].

    Python floats are kept abstract behind the class [Number]; it is
    instantiated with exact rationals and with IEEE binary64.  A call that
    raises in Python returns [Raised] here. *)

From Stdlib Require Import ZArith QArith Qround Qpower List String Ascii Bool Lia.
From Stdlib Require Import Decimal DecimalString DecimalZ DecimalPos SpecFloat.
Import ListNotations.

Local Open Scope Z_scope.

(** ** Outcomes: a Python call returns a value or raises *)

Inductive exn : Type :=
| AttributeError   (* [.dt] on a column that is not datetime-like *)
| ValueError       (* unparsable date or number, NaN to int *)
| OutOfBoundsDatetime   (* a date no [datetime64[ns]] timestamp holds *)
| OverflowError    (* date or timedelta out of range, infinity to int *)
| ParserError      (* a table [read_csv] cannot tokenise *)
| KeyError         (* a column that is not there *)
| StreamlitAPIException.   (* a progress value outside [0.0, 1.0] *)

Inductive outcome (A : Type) : Type :=
| Returned (a : A)
| Raised (e : exn).

Arguments Returned {A} a.
Arguments Raised {A} e.

Definition bind {A B : Type} (c : outcome A) (k : A -> outcome B) : outcome B :=
  match c with
  | Returned a => k a
  | Raised e => Raised e
  end.

Declare Scope outcome_scope.
Delimit Scope outcome_scope with outcome.
Notation "x <- c ;; k" := (bind c (fun x => k))
  (at level 61, c at next level, right associativity) : outcome_scope.
Notation "' p <- c ;; k" := (bind c (fun x => let p := x in k))
  (at level 61, p pattern, c at next level, right associativity) : outcome_scope.

Definition of_option {A : Type} (e : exn) (o : option A) : outcome A :=
  match o with
  | Some a => Returned a
  | None => Raised e
  end.

Fixpoint traverse {A B : Type} (f : A -> outcome B) (l : list A) : outcome (list B) :=
  match l with
  | [] => Returned []
  | a :: l' =>
      match f a with
      | Returned b =>
          match traverse f l' with
          | Returned bs => Returned (b :: bs)
          | Raised e => Raised e
          end
      | Raised e => Raised e
      end
  end.

(** ** Calendar: [datetime.date], [datetime.datetime], [timedelta] *)

Module Calendar.

(** A [datetime.date]: year, month, day. *)
Record date : Type := mkdate { year : Z; month : Z; day : Z }.

Definition date_eqb (a b : date) : bool :=
  (year a =? year b) && (month a =? month b) && (day a =? day b).

Definition MINYEAR : Z := 1.
Definition MAXYEAR : Z := 9999.
Definition MAXORDINAL : Z := 3652059.   (* date.max.toordinal() *)

(** [_is_leap(year)] *)
Definition is_leap (y : Z) : bool :=
  (y mod 4 =? 0) && (negb (y mod 100 =? 0) || (y mod 400 =? 0)).

(** [_DAYS_IN_MONTH] and [_days_in_month(year, month)] *)
Definition DAYS_IN_MONTH (m : Z) : Z :=
  match m with
  | 1 => 31 | 2 => 28 | 3 => 31 | 4 => 30 | 5 => 31 | 6 => 30
  | 7 => 31 | 8 => 31 | 9 => 30 | 10 => 31 | 11 => 30 | 12 => 31
  | _ => 0
  end.

Definition days_in_month (y m : Z) : Z :=
  if (m =? 2) && is_leap y then 29 else DAYS_IN_MONTH m.

(** [_DAYS_BEFORE_MONTH]: days of the year before the first of month [m]. *)
Definition DAYS_BEFORE_MONTH (m : Z) : Z :=
  match m with
  | 1 => 0 | 2 => 31 | 3 => 59 | 4 => 90 | 5 => 120 | 6 => 151
  | 7 => 181 | 8 => 212 | 9 => 243 | 10 => 273 | 11 => 304 | 12 => 334
  | _ => 0
  end.

(** [_days_before_year(year)]: days before January 1st of [year]. *)
Definition days_before_year (y : Z) : Z :=
  let y := y - 1 in y * 365 + y / 4 - y / 100 + y / 400.

(** [_days_before_month(year, month)] *)
Definition days_before_month (y m : Z) : Z :=
  DAYS_BEFORE_MONTH m + (if (2 <? m) && is_leap y then 1 else 0).

(** [_ymd2ord]: 0001-01-01 is day 1. *)
Definition ymd2ord (y m d : Z) : Z :=
  days_before_year y + days_before_month y m + d.

Definition toordinal (d : date) : Z := ymd2ord (year d) (month d) (day d).

Definition DI400Y : Z := 146097.
Definition DI100Y : Z := 36524.
Definition DI4Y : Z := 1461.

(** [_ord2ymd(n)], the inverse of [_ymd2ord]. *)
Definition ord2ymd (n : Z) : date :=
  let n := n - 1 in
  let n400 := n / DI400Y in
  let n := n mod DI400Y in
  let y := n400 * 400 + 1 in
  let n100 := n / DI100Y in
  let n := n mod DI100Y in
  let n4 := n / DI4Y in
  let n := n mod DI4Y in
  let n1 := n / 365 in
  let n := n mod 365 in
  let y := y + n100 * 100 + n4 * 4 + n1 in
  if (n1 =? 4) || (n100 =? 4) then mkdate (y - 1) 12 31
  else
    let leapyear := (n1 =? 3) && (negb (n4 =? 24) || (n100 =? 3)) in
    let m := Z.shiftr (n + 50) 5 in
    let preceding := DAYS_BEFORE_MONTH m + (if (2 <? m) && leapyear then 1 else 0) in
    if n <? preceding then
      let m' := m - 1 in
      let preceding' :=
        preceding - (DAYS_IN_MONTH m' + (if (m' =? 2) && leapyear then 1 else 0)) in
      mkdate y m' (n - preceding' + 1)
    else mkdate y m (n - preceding + 1).

Definition fromordinal (n : Z) : date := ord2ymd n.

(** A date the constructor [date(y, m, d)] accepts. *)
Definition valid_date (d : date) : bool :=
  (MINYEAR <=? year d) && (year d <=? MAXYEAR)
  && (1 <=? month d) && (month d <=? 12)
  && (1 <=? day d) && (day d <=? days_in_month (year d) (month d)).

(** [_isoweek1monday(year)]: ordinal of the Monday that starts ISO week 1. *)
Definition isoweek1monday (y : Z) : Z :=
  let firstday := ymd2ord y 1 1 in
  let firstweekday := (firstday + 6) mod 7 in
  let week1monday := firstday - firstweekday in
  if 3 <? firstweekday then week1monday + 7 else week1monday.

(** [date.isocalendar()]: ISO year, week (1..53) and weekday (1..7). *)
Definition isocalendar (d : date) : Z * Z * Z :=
  let y := year d in
  let week1monday := isoweek1monday y in
  let today := toordinal d in
  let week := (today - week1monday) / 7 in
  let wday := (today - week1monday) mod 7 in
  if week <? 0 then
    let y := y - 1 in
    let week1monday := isoweek1monday y in
    (y, (today - week1monday) / 7 + 1, (today - week1monday) mod 7 + 1)
  else if (52 <=? week) && (isoweek1monday (y + 1) <=? today) then
    (y + 1, 1, wday + 1)
  else (y, week + 1, wday + 1).

Definition isoweek (d : date) : Z := snd (fst (isocalendar d)).

(** Decimal digits, as [%02d] and [%04d] print them. *)
Definition digit (n : Z) : ascii := ascii_of_nat (48 + Z.to_nat n).

Definition digit_val (c : ascii) : option Z :=
  let n := Z.of_nat (nat_of_ascii c) in
  if (48 <=? n) && (n <=? 57) then Some (n - 48) else None.

Definition pad2 (n : Z) : string :=
  String (digit (n / 10)) (String (digit (n mod 10)) EmptyString).

Definition pad4 (n : Z) : string :=
  String (digit (n / 1000)) (String (digit (n / 100 mod 10)) (pad2 (n mod 100))).

(** [date.isoformat()], which is also [str(date)] and
    [strftime('%Y-%m-%d')]: YYYY-MM-DD. *)
Definition isoformat (d : date) : string :=
  (pad4 (year d) ++ "-" ++ pad2 (month d) ++ "-" ++ pad2 (day d))%string.

Definition strftime_Ymd (d : date) : string := isoformat d.

Definition num2 (a b : ascii) : option Z :=
  match digit_val a, digit_val b with
  | Some x, Some y => Some (10 * x + y)
  | _, _ => None
  end.

Definition num4 (a b c d : ascii) : option Z :=
  match num2 a b, num2 c d with
  | Some x, Some y => Some (100 * x + y)
  | _, _ => None
  end.

(** Reading a date back from its YYYY-MM-DD text; [None] for any other text
    and for a day that is not in the calendar. *)
Definition fromisoformat (s : string) : option date :=
  match s with
  | String y1 (String y2 (String y3 (String y4 (String sep1
      (String m1 (String m2 (String sep2 (String d1 (String d2 EmptyString))))))))) =>
      if Ascii.eqb sep1 "-" && Ascii.eqb sep2 "-" then
        match num4 y1 y2 y3 y4, num2 m1 m2, num2 d1 d2 with
        | Some y, Some m, Some d =>
            let r := mkdate y m d in
            if valid_date r then Some r else None
        | _, _, _ => None
        end
      else None
  | _ => None
  end.

(** A [datetime.datetime]: the day's ordinal and the microsecond of the day. *)
Record datetime : Type := mkdatetime { ordinal : Z; micro : Z }.

Definition US_PER_DAY : Z := 86400000000.
Definition MAX_DELTA_DAYS : Z := 999999999.

Definition valid_datetime (t : datetime) : bool :=
  (1 <=? ordinal t) && (ordinal t <=? MAXORDINAL)
  && (0 <=? micro t) && (micro t <? US_PER_DAY).

(** [round(x)] on a real: to the nearest integer, ties to the even one. *)
Definition round_half_even (q : Q) : Z :=
  let f := Qfloor q in
  let r := (q - inject_Z f)%Q in
  match (r ?= 1 # 2)%Q with
  | Lt => f
  | Gt => f + 1
  | Eq => if Z.even f then f else f + 1
  end.

(** A [timedelta] is a duration in whole microseconds; the constructor
    refuses more than 999999999 days either way. *)
Definition microseconds_to_delta (us : Z) : outcome Z :=
  if Z.abs (us / US_PER_DAY) <=? MAX_DELTA_DAYS then Returned us
  else Raised OverflowError.

(** [datetime + timedelta]: the sum must fall in 0001-01-01 .. 9999-12-31. *)
Definition datetime_add (t : datetime) (us : Z) : outcome datetime :=
  let total := ordinal t * US_PER_DAY + micro t + us in
  let days := total / US_PER_DAY in
  if (0 <? days) && (days <=? MAXORDINAL)
  then Returned (mkdatetime days (total mod US_PER_DAY))
  else Raised OverflowError.

(** [datetime.strftime('%Y-%m-%d')], the year on four digits. *)
Definition strftime (t : datetime) : string := strftime_Ymd (fromordinal (ordinal t)).

End Calendar.

Import Calendar.

(** ** Text: what [to_csv] writes and [read_csv] reads *)

Module Text.

Local Open Scope string_scope.

Definition LF : ascii := ascii_of_nat 10.
Definition COMMA : ascii := ","%char.

Fixpoint contains (c : ascii) (s : string) : bool :=
  match s with
  | EmptyString => false
  | String a s' => Ascii.eqb a c || contains c s'
  end.

(** [s.split(c)]: the pieces of [s] between occurrences of [c]. *)
Fixpoint split_on (c : ascii) (s : string) : list string :=
  match s with
  | EmptyString => [EmptyString]
  | String a s' =>
      if Ascii.eqb a c then EmptyString :: split_on c s'
      else match split_on c s' with
           | [] => [String a EmptyString]
           | w :: ws => String a w :: ws
           end
  end.

(** [sep.join(l)] for a one-character separator. *)
Fixpoint join (c : ascii) (l : list string) : string :=
  match l with
  | [] => EmptyString
  | [w] => w
  | w :: l' => w ++ String c (join c l')
  end.

(** Each line followed by a newline, as a CSV writer ends its rows. *)
Fixpoint unlines (l : list string) : string :=
  match l with
  | [] => EmptyString
  | w :: l' => w ++ String LF (unlines l')
  end.

Definition nonblank (s : string) : bool :=
  match s with
  | EmptyString => false
  | _ => true
  end.

(** The rows of a text: split at newlines, blank lines skipped
    ([skip_blank_lines=True]). *)
Definition lines (s : string) : list string := filter nonblank (split_on LF s).

(** [str(n)] for an integer. *)
Definition str_int (z : Z) : string := NilZero.string_of_int (Z.to_int z).

(** An integer cell: an optional minus sign and decimal digits. *)
Definition parse_int (s : string) : option Z :=
  option_map Z.of_int (NilZero.int_of_string s).

End Text.

Import Text.

(** ** Numbers: Python floats, abstractly

    [calculate_averages] and [predict_completion_date] compute with floats:
    [/], [-], [> 0], [int(x)] and [timedelta(days=x)].  [value x] is the real
    number a finite [x] stands for; NaN and the infinities have none.
    [fraction x] is the fractional part that C's [modf] splits off, a float
    of the sign of [x]. *)

(** A real with its fraction dropped, as [int(x)] and [modf] cut. *)
Definition Qtruncate (q : Q) : Z := Z.quot (Qnum q) (Zpos (Qden q)).

Class Number (F : Type) : Type := {
  of_Z : Z -> F;            (* int to float *)
  fsub : F -> F -> F;       (* [x - y] *)
  fmul : F -> F -> F;       (* [x * y] *)
  fdiv : F -> F -> F;       (* [x / y] *)
  gt0 : F -> bool;          (* [x > 0] *)
  feqb : F -> F -> bool;    (* [x == y] *)
  fraction : F -> F;        (* the fractional part of [modf(x)] *)
  value : F -> outcome Q    (* the real value of a finite number *)
}.

(** Exact arithmetic: every operation returns the real result.  It is what
    the specification computes with; the program computes in [Float64]. *)
#[export] Instance Exact : Number Q := {
  of_Z := inject_Z;
  fsub := Qminus;
  fmul := Qmult;
  fdiv := Qdiv;
  gt0 := fun x => negb (Qle_bool x 0);
  feqb := Qeq_bool;
  fraction := fun x => (x - inject_Z (Qtruncate x))%Q;
  value := fun x => Returned x
}.

(** IEEE 754 binary64, the format of a Python [float] and of numpy's
    [float64]: every operation rounds to nearest, ties to even. *)
Module Binary64.

Definition prec : Z := 53.
Definition emax : Z := 1024.

Definition of_int (z : Z) : spec_float := binary_normalize prec emax z 0 false.

Definition to_Q (x : spec_float) : outcome Q :=
  match x with
  | S754_zero _ => Returned 0%Q
  | S754_finite s m e =>
      let mag := (inject_Z (Zpos m) * Qpower 2 e)%Q in
      Returned (if s then Qopp mag else mag)
  | S754_infinity _ => Raised OverflowError
  | S754_nan => Raised ValueError
  end.

(** The fractional part of [modf]: the bits of the mantissa below the
    binary point, under the sign of [x]; it is exact. *)
Definition modf_fraction (x : spec_float) : spec_float :=
  match x with
  | S754_finite s m (Zneg k) =>
      match Zpos m mod 2 ^ Zpos k with
      | Zpos r => S754_finite s r (Zneg k)
      | _ => S754_zero s
      end
  | S754_finite s _ _ => S754_zero s
  | S754_zero s => S754_zero s
  | S754_infinity s => S754_zero s
  | S754_nan => S754_nan
  end.

End Binary64.

#[export] Instance Float64 : Number spec_float := {
  of_Z := Binary64.of_int;
  fsub := SFsub Binary64.prec Binary64.emax;
  fmul := SFmul Binary64.prec Binary64.emax;
  fdiv := SFdiv Binary64.prec Binary64.emax;
  gt0 := fun x => SFltb (S754_zero false) x;
  feqb := SFeqb;
  fraction := Binary64.modf_fraction;
  value := Binary64.to_Q
}.

(** ** Notions for the proofs about binary64

    How [SpecFloat] rounds, in integers: the real [M / D * 2^e] is rounded
    from the integer part [m] of [M / D] and two bits that say what lies
    below. *)

(** [located M D n mrs]: the record [mrs] holds, [n] bits above the
    starting exponent, the integer part of [M / D] and whether anything was
    dropped: [m * 2^n <= M / D < (m + 1) * 2^n], and the bits [r] and [s]
    are both clear exactly when [M / D = m * 2^n]. *)
Definition located (M D n : Z) (mrs : shr_record) : Prop :=
  0 <= shr_m mrs
  /\ shr_m mrs * (2 ^ n * D) <= M < (shr_m mrs + 1) * (2 ^ n * D)
  /\ ((shr_r mrs = false /\ shr_s mrs = false) <-> M = shr_m mrs * (2 ^ n * D)).

(** [shr_fexp] shifts by [max 0 (fexp (digits m + e) - e)] bits. *)
Definition shift (m e : Z) : Z := Z.max 0 (SpecFloat.fexp Binary64.prec Binary64.emax (Zdigits2 m + e) - e).

(** What [binary_round_aux] makes of a mantissa [R] at the exponent [e1]. *)
Definition rounded (s : bool) (R e1 : Z) (x : spec_float) : Prop :=
  match x with
  | S754_zero s' => s' = s /\ R = 0
  | S754_finite s' p e2 =>
      s' = s /\ e2 <= 971
      /\ ((shift R e1 = 0 /\ e2 = e1 /\ Zpos p = R)
          \/ (shift R e1 = 1 /\ e2 = e1 + 1 /\ 2 * Zpos p = R))
  | S754_infinity s' => s' = s /\ 0 < R /\ 971 <= e1
  | S754_nan => False
  end.

(** [int(x)] for a float: the value with its fraction dropped. *)
Definition py_int {F : Type} `{Number F} (x : F) : outcome Z :=
  match value x with
  | Returned q => Returned (Qtruncate q)
  | Raised e => Raised e
  end.

(** [timedelta(days=x)] for a float [x], as CPython builds it: [modf]
    splits [x]; the whole days count 86400000000 microseconds each; the
    fraction is multiplied by 86400000000.0 in floating point, and that
    product is rounded to a whole microsecond, ties to the even one. *)
Definition timedelta {F : Type} `{Number F} (x : F) : outcome Z :=
  (days <- py_int x ;;
   us <- value (fmul (of_Z US_PER_DAY) (fraction x)) ;;
   microseconds_to_delta (days * US_PER_DAY + round_half_even us))%outcome.

(** ** Pandas: the data frame operations the program calls *)

Module Pandas.

Local Open Scope string_scope.

(** A value of the [Date] column: a [Timestamp] (a [datetime64] column), a
    [datetime.date] object or a [str] (an [object] column). *)
Inductive cell : Type :=
| Timestamp (d : date)
| PyDate (d : date)
| PyStr (s : string).

Definition cell_eqb (a b : cell) : bool :=
  match a, b with
  | Timestamp x, Timestamp y => date_eqb x y
  | PyDate x, PyDate y => date_eqb x y
  | PyStr x, PyStr y => String.eqb x y
  | _, _ => false
  end.

(** A frame with the columns [Date] and [Flights], kept row by row, and any
    further integer columns ([Week], [Month]), kept by name. *)
Record DataFrame : Type := mkframe {
  rows : list (cell * Z);
  others : list (string * list Z)
}.

Definition Date (df : DataFrame) : list cell := map fst (rows df).
Definition Flights (df : DataFrame) : list Z := map snd (rows df).
Definition columns (df : DataFrame) : list string :=
  "Date" :: "Flights" :: map fst (others df).

(** [pd.DataFrame(columns=["Date", "Flights"])] *)
Definition new_frame : DataFrame := mkframe [] [].

(** [df.empty] *)
Definition empty (df : DataFrame) : bool :=
  match rows df with
  | [] => true
  | _ => false
  end.

(** [df['Date'] = col], for a column as long as the frame. *)
Definition set_Date (df : DataFrame) (col : list cell) : DataFrame :=
  mkframe (combine col (Flights df)) (others df).

Fixpoint assign (name : string) (col : list Z) (cols : list (string * list Z))
  : list (string * list Z) :=
  match cols with
  | [] => [(name, col)]
  | (n, c) :: cols' =>
      if String.eqb n name then (n, col) :: cols'
      else (n, c) :: assign name col cols'
  end.

(** [df[name] = col] for a further column: replaced where it exists, added
    as the last column where it does not. *)
Definition set_column (name : string) (col : list Z) (df : DataFrame) : DataFrame :=
  mkframe (rows df) (assign name col (others df)).

Fixpoint lookup (name : string) (cols : list (string * list Z)) : option (list Z) :=
  match cols with
  | [] => None
  | (n, c) :: cols' => if String.eqb n name then Some c else lookup name cols'
  end.

(** [df[name]] for an integer column. *)
Definition get_column (name : string) (df : DataFrame) : outcome (list Z) :=
  if String.eqb name "Flights" then Returned (Flights df)
  else of_option KeyError (lookup name (others df)).

(** [Series.sum()].  Integer sums are exact here: the counts of flights
    and their sums stay far below 2^53, up to where the [int64] and the
    [float64] sums of pandas are exact too. *)
Definition sum (l : list Z) : Z := fold_right Z.add 0 l.

(** [Series.mean()] of an integer series: the sum over the count. *)
Definition mean {F : Type} `{Number F} (l : list Z) : F :=
  fdiv (of_Z (sum l)) (of_Z (Z.of_nat (List.length l))).

Section GroupBy.
Context {K : Type} (eqb : K -> K -> bool).

(** The distinct keys of a column, each once, in the order they first
    occur. *)
Fixpoint distinct (keys : list K) : list K :=
  match keys with
  | [] => []
  | k :: keys' => k :: filter (fun k' => negb (eqb k k')) (distinct keys')
  end.

(** The values on the rows whose key is [k]. *)
Definition values_of (k : K) (keys : list K) (vals : list Z) : list Z :=
  map snd (filter (fun kv => eqb k (fst kv)) (combine keys vals)).

(** [df.groupby(key)[col].sum()]: one entry per distinct key, holding the
    sum of the values on the rows of that key.  Pandas returns the entries
    sorted by key; here they stand in the order the keys first occur, which
    no sum or mean over them can tell apart. *)
Definition groupby_sum (keys : list K) (vals : list Z) : list (K * Z) :=
  map (fun k => (k, sum (values_of k keys vals))) (distinct keys).
End GroupBy.

Definition is_timestamp (c : cell) : bool :=
  match c with
  | Timestamp _ => true
  | _ => false
  end.

Definition stamp_date (c : cell) : date :=
  match c with
  | Timestamp d => d
  | PyDate d => d
  | PyStr _ => mkdate 1 1 1
  end.

(** [Series.dt]: the accessor exists on [datetime64] columns only; on an
    [object] column (dates, strings) pandas raises [AttributeError: Can only
    use .dt accessor with datetimelike values]. *)
Definition dt (col : list cell) : outcome (list date) :=
  if forallb is_timestamp col then Returned (map stamp_date col)
  else Raised AttributeError.

(** [.dt.date]: a column of [datetime.date] objects, of dtype [object]. *)
Definition dt_date (col : list date) : list cell := map PyDate col.

(** The first and the last day a [datetime64[ns]] timestamp holds, the
    timestamp of pandas 2; a pandas that picks a coarser unit holds
    more. *)
Definition TIMESTAMP_MIN : date := mkdate 1677 9 22.
Definition TIMESTAMP_MAX : date := mkdate 2262 4 11.

Definition in_bounds (d : date) : bool :=
  ((toordinal TIMESTAMP_MIN <=? toordinal d)%Z
   && (toordinal d <=? toordinal TIMESTAMP_MAX)%Z)%bool.

(** A date as a timestamp. *)
Definition to_timestamp (d : date) : outcome date :=
  if in_bounds d then Returned d else Raised OutOfBoundsDatetime.

(** A string as a timestamp: YYYY-MM-DD is the one format the program
    writes, and the one read here.  pandas reads other formats too; for
    those this answers [Raised] without following pandas. *)
Definition parse_timestamp (s : string) : outcome date :=
  match fromisoformat s with
  | Some d => to_timestamp d
  | None => Raised ValueError
  end.

(** [pd.to_datetime] on one value: a timestamp as it is, a date or a
    string as the timestamp of that day. *)
Definition to_datetime1 (c : cell) : outcome date :=
  match c with
  | Timestamp d => Returned d
  | PyDate d => to_timestamp d
  | PyStr s => parse_timestamp s
  end.

(** [pd.to_datetime(col)] *)
Definition to_datetime (col : list cell) : outcome (list date) :=
  traverse to_datetime1 col.

(** [col.astype(str)] on one value. *)
Definition astype_str (c : cell) : string :=
  match c with
  | Timestamp d => isoformat d
  | PyDate d => isoformat d
  | PyStr s => s
  end.

(** [pd.concat([a, b], ignore_index=True)]: the rows of [b] after those of
    [a].  (A further column of [a] gets no value for the rows of [b]; no
    path of the program concatenates such a frame.) *)
Definition concat (a b : DataFrame) : DataFrame :=
  mkframe (rows a ++ rows b) (others a).

(** One row of [to_csv]: the date, the flights and the row's value in each
    further column. *)
Definition csv_row (cols : list (string * list Z)) (i : nat) (r : cell * Z) : string :=
  join COMMA (astype_str (fst r) :: str_int (snd r)
              :: map (fun c => str_int (nth i (snd c) 0)) cols).

Fixpoint csv_rows (cols : list (string * list Z)) (i : nat) (rs : list (cell * Z))
  : list string :=
  match rs with
  | [] => []
  | r :: rs' => csv_row cols i r :: csv_rows cols (S i) rs'
  end.

(** [df.to_csv(index=False)]: a header row, then one row per record. *)
Definition to_csv (df : DataFrame) : string :=
  unlines (join COMMA (columns df) :: csv_rows (others df) 0 (rows df)).

(** One row of [read_csv] under a header with [n] further columns. *)
Definition parse_row (n : nat) (line : string) : outcome (string * Z * list Z) :=
  match split_on COMMA line with
  | d :: f :: rest =>
      if Nat.eqb (List.length rest) n then
        match parse_int f with
        | Some z =>
            match traverse (fun x => of_option ValueError (parse_int x)) rest with
            | Returned zs => Returned (d, z, zs)
            | Raised e => Raised e
            end
        | None => Raised ValueError
        end
      else Raised ParserError
  | _ => Raised ParserError
  end.

(** [parse_dates=["Date"]]: the column becomes [datetime64] when every cell
    reads as a date, and stays a column of strings otherwise. *)
Definition parse_dates (col : list string) : list cell :=
  match traverse parse_timestamp col with
  | Returned ds => map Timestamp ds
  | Raised _ => map PyStr col
  end.

Fixpoint number_from (i : nat) (names : list string) : list (nat * string) :=
  match names with
  | [] => []
  | n :: names' => (i, n) :: number_from (S i) names'
  end.

(** [pd.read_csv(text, parse_dates=["Date"])] on the tables the program
    writes: a header of [Date], [Flights] and further names, then rows of
    a date and integers.  pandas reads more than these, counts with a
    fraction for one, and is not followed there: for every other table
    this answers [Raised], whether pandas raises or not, and no property
    below concludes anything from such an answer. *)
Definition read_csv (text : string) : outcome DataFrame :=
  match lines text with
  | [] => Raised ParserError
  | header :: body =>
      match split_on COMMA header with
      | d :: f :: names =>
          if String.eqb d "Date" && String.eqb f "Flights" then
            match traverse (parse_row (List.length names)) body with
            | Returned recs =>
                let dates := parse_dates (map (fun r => fst (fst r)) recs) in
                let flights := map (fun r => snd (fst r)) recs in
                let extra :=
                  map (fun jn => (snd jn, map (fun r => nth (fst jn) (snd r) 0) recs))
                      (number_from 0 names) in
                Returned (mkframe (combine dates flights) extra)
            | Raised e => Raised e
            end
          else Raised ValueError
      | _ => Raised ValueError
      end
  end.

End Pandas.

Import Pandas.

(** ** The program: [stair_track.py] *)

Module StairTrack.

Local Open Scope string_scope.

(** The files on disk: a path has contents or does not exist. *)
Definition files : Type := string -> option string.

Definition write (fs : files) (path content : string) : files :=
  fun p => if String.eqb p path then Some content else fs p.

Definition no_files : files := fun _ => None.

(** What a handler shows: [st.warning] or [st.success]. *)
Inductive feedback : Type :=
| warning (msg : string)
| success (msg : string).

Definition TOTAL_HEIGHT_KINABALU : Z := 13435.
Definition HEIGHT_PER_FLIGHT : Z := 8.
Definition DATA_FILE : string := "stairs_data.csv".

(** [load_data()] *)
Definition load_data (fs : files) : outcome DataFrame :=
  match fs DATA_FILE with
  | Some text =>
      (data <- read_csv text ;;
       dates <- to_datetime (Date data) ;;
       Returned (set_Date data (dt_date dates)))%outcome
  | None => Returned new_frame
  end.

(** [save_data(data)]: the frame's [Date] column is overwritten in place, so
    the caller's frame comes back with the files. *)
Definition save_data (data : DataFrame) (fs : files) : outcome (DataFrame * files) :=
  (dates <- to_datetime (Date data) ;;
   let data := set_Date data (dt_date dates) in
   Returned (data, write fs DATA_FILE (to_csv data)))%outcome.

Section Floats.
Context {F : Type} `{Number F}.

Definition TOTAL_FLIGHTS_KINABALU : F :=
  fdiv (of_Z TOTAL_HEIGHT_KINABALU) (of_Z HEIGHT_PER_FLIGHT).

(** [calculate_averages(data)].  The frame is the caller's object: the
    function returns it as the call leaves it, whether the call returns the
    averages or raises, and a column assigned before a later line raises
    stays assigned. *)
Definition calculate_averages (data : DataFrame) : DataFrame * outcome (F * F * F) :=
  if negb (empty data) then
    match dt (Date data) with
    | Raised e => (data, Raised e)
    | Returned d =>
        let data := set_column "Week" (map isoweek d) data in
        match dt (Date data) with
        | Raised e => (data, Raised e)
        | Returned d =>
            let data := set_column "Month" (map month d) data in
            (data,
             (let daily_avg :=
                mean (map snd (groupby_sum cell_eqb (Date data) (Flights data))) in
              week <- get_column "Week" data ;;
              let weekly_avg := mean (map snd (groupby_sum Z.eqb week (Flights data))) in
              mon <- get_column "Month" data ;;
              let monthly_avg := mean (map snd (groupby_sum Z.eqb mon (Flights data))) in
              Returned (daily_avg, weekly_avg, monthly_avg))%outcome)
        end
    end
  else (data, Returned (of_Z 0, of_Z 0, of_Z 0)).

(** [predict_completion_date(data)], at the time [now] that
    [datetime.today()] returns.  The pair [(None, None)] is [None]. *)
Definition predict_completion_date (data : DataFrame) (now : datetime)
  : outcome (option (string * Z)) :=
  if negb (empty data) then
    let total_flights_climbed := sum (Flights data) in
    let daily_avg := mean (map snd (groupby_sum cell_eqb (Date data) (Flights data))) in
    if gt0 daily_avg then
      let remaining_flights := fsub TOTAL_FLIGHTS_KINABALU (of_Z total_flights_climbed) in
      let days_to_completion := fdiv remaining_flights daily_avg in
      (delta <- timedelta days_to_completion ;;
       completion_date <- datetime_add now delta ;;
       days <- py_int days_to_completion ;;
       Returned (Some (strftime completion_date, days)))%outcome
    else Returned None
  else Returned None.
End Floats.

(** The [Add Entry] button: [picked] is the date of [st.date_input],
    [flights] the count of [st.number_input]. *)
Definition add_entry (data : DataFrame) (fs : files) (picked : date) (flights : Z)
  : outcome (DataFrame * files * feedback) :=
  let today := strftime_Ymd picked in
  if existsb (String.eqb today) (map astype_str (Date data)) then
    Returned (data, fs, warning "You've already added data for today.")
  else
    let new_entry := mkframe [(PyStr today, flights)] [] in
    let data := concat data new_entry in
    (saved <- save_data data fs ;;
     Returned (fst saved, snd saved, success "Entry added!"))%outcome.

(** The [Reset Data] button. *)
Definition reset_data (fs : files) : outcome (DataFrame * files * feedback) :=
  let data := new_frame in
  (saved <- save_data data fs ;;
   Returned (fst saved, snd saved, warning "All data has been reset."))%outcome.

End StairTrack.

Import StairTrack.

(** ** Record collections, as the specification speaks of them *)

(** A date a record can bear: a day of the calendar that a timestamp
    holds. *)
Definition record_date (d : date) : bool := valid_date d && in_bounds d.

(** A record's date: a calendar date, held as a [datetime.date]. *)
Definition is_record_cell (c : cell) : bool :=
  match c with
  | PyDate d => record_date d
  | _ => false
  end.

(** A record collection: the frame [load_data] hands to the program, with
    the columns [Date] (calendar dates) and [Flights] and no other. *)
Definition well_formed (data : DataFrame) : bool :=
  forallb is_record_cell (Date data)
  && match others data with
     | [] => true
     | _ => false
     end.

(** ** The terms of the projection, as the specification names them *)

Section Projection.
Context {F : Type} `{Number F}.

(** [dailyAvg]: the mean of the flights summed per date. *)
Definition dailyAvg (data : DataFrame) : F :=
  mean (map snd (groupby_sum cell_eqb (Date data) (Flights data))).

(** [(targetFlights - totalClimbed) / dailyAvg] *)
Definition quotient (data : DataFrame) : F :=
  fdiv (fsub TOTAL_FLIGHTS_KINABALU (of_Z (sum (Flights data)))) (dailyAvg data).
End Projection.

(** The number of distinct dates of a collection. *)
Definition distinct_dates (data : DataFrame) : Z :=
  Z.of_nat (List.length (distinct cell_eqb (Date data))).

(** ** What the projection needs of the arithmetic

    Six facts about rounded operations, on integers that a float holds
    exactly (below 2^53): the fraction of [modf] is exact; a fraction of a
    day, times 86400000000.0, stays within the day; the quotient of two
    integers has the sign of the real quotient; the target less the flights
    climbed has the sign of the real difference; a quotient by a positive
    number keeps the sign of the dividend; and the quotient of the
    projection, the flights that remain over the mean of flights per date,
    is a finite number.  Binary64 has them, and so have the exact
    rationals. *)
Class Rounding (F : Type) `{Number F} : Prop := {
  fraction_value :
    forall (x : F) (q : Q),
      value x = Returned q ->
      exists f, value (fraction x) = Returned f
                /\ (f == q - inject_Z (Qtruncate q))%Q;
  day_fraction :
    forall (x : F) (f : Q),
      value x = Returned f -> (- (1) < f)%Q -> (f < 1)%Q ->
      exists us, value (fmul (of_Z US_PER_DAY) x) = Returned us
                 /\ ((0 <= f)%Q -> (0 <= us)%Q /\ (us <= inject_Z US_PER_DAY)%Q)
                 /\ ((f <= 0)%Q -> (- inject_Z US_PER_DAY <= us)%Q /\ (us <= 0)%Q);
  mean_sign :
    forall a n : Z,
      Z.abs a < 2 ^ 53 -> 0 < n < 2 ^ 53 ->
      gt0 (fdiv (of_Z a) (of_Z n)) = (0 <? a);
  remaining_sign :
    forall a : Z,
      0 <= a < 2 ^ 53 ->
      exists r, value (fsub TOTAL_FLIGHTS_KINABALU (of_Z a)) = Returned r
                /\ (a <= 1679 -> (0 < r)%Q) /\ (1680 <= a -> (r < 0)%Q);
  quotient_sign :
    forall (x y : F) (a q : Q),
      value x = Returned a -> gt0 y = true -> value (fdiv x y) = Returned q ->
      ((a <= 0)%Q -> (q <= 0)%Q) /\ ((0 <= a)%Q -> (0 <= q)%Q);
  projection_finite :
    forall a n : Z,
      0 < a < 2 ^ 53 -> 0 < n < 2 ^ 53 ->
      exists q, value (fdiv (fsub TOTAL_FLIGHTS_KINABALU (of_Z a))
                            (fdiv (of_Z a) (of_Z n))) = Returned q
}.

(** ** Sample collections and moments *)

(** Noon of a day. *)
Definition noon (d : date) : datetime := mkdatetime (toordinal d) 43200000000.

Definition june_1st : datetime := noon (mkdate 2024 6 1).

(** One day on record. *)
Definition one_day (flights : Z) : DataFrame :=
  mkframe [(PyDate (mkdate 2024 1 1), flights)] [].

(** A week of entries, 29 flights in all, as a [datetime64] frame. *)
Definition a_week : DataFrame :=
  mkframe [(Timestamp (mkdate 2024 1 1), 5); (Timestamp (mkdate 2024 1 2), 4);
           (Timestamp (mkdate 2024 1 3), 5); (Timestamp (mkdate 2024 1 4), 3);
           (Timestamp (mkdate 2024 1 5), 4); (Timestamp (mkdate 2024 1 6), 4);
           (Timestamp (mkdate 2024 1 7), 4)] [].

(** Two entries a year apart, in the same month and ISO week. *)
Definition two_februaries : DataFrame :=
  mkframe [(Timestamp (mkdate 2023 2 15), 10); (Timestamp (mkdate 2024 2 14), 30)] [].

(** The table of [two_februaries] on disk. *)
Definition two_februaries_csv : string :=
  to_csv (mkframe [(PyDate (mkdate 2023 2 15), 10); (PyDate (mkdate 2024 2 14), 30)] []).

(** Twelve days, 13435 flights in all: eight times the target. *)
Definition twelve_days : DataFrame :=
  mkframe (map (fun i => (PyDate (mkdate 2024 1 (Z.of_nat i)),
                          if Nat.eqb i 1 then 13435 - 11 * 1000 else 1000))
               (seq 1 12)) [].

(** [n] days on record from the day [first] on: [flights] on each, and
    what is left of [total] on the first. *)
Definition days_on_record (first : date) (n : nat) (total flights : Z) : DataFrame :=
  mkframe (map (fun i => (PyDate (fromordinal (toordinal first + Z.of_nat i)),
                          if Nat.eqb i 0 then total - (Z.of_nat n - 1) * flights
                          else flights))
               (seq 0 n)) [].

(** 73 days with 929 flights in all; 104 days with 13435 flights, eight
    times the target; 600 days with one flight. *)
Definition seventy_three_days : DataFrame := days_on_record (mkdate 2024 1 1) 73 929 12.
Definition hundred_and_four_days : DataFrame :=
  days_on_record (mkdate 2024 1 1) 104 13435 129.
Definition six_hundred_days : DataFrame := days_on_record (mkdate 2022 1 1) 600 1 0.

(** 2024-06-01 00:52:07.233584 *)
Definition after_midnight : datetime :=
  mkdatetime (toordinal (mkdate 2024 6 1)) 3127233584.

(** Two thousand days on record from 2018-01-01 on, one flight on the
    first day and none since. *)
Definition idle_years : DataFrame :=
  mkframe (map (fun i => (PyDate (fromordinal (toordinal (mkdate 2018 1 1) + Z.of_nat i)),
                          if Nat.eqb i 0 then 1 else 0))
               (seq 0 2000)) [].

(** ** The rest of the program: Edit and Delete, the Dashboard cards *)

(** [col[mask]]: the entries of a column where the mask holds. *)
Fixpoint select {A : Type} (mask : list bool) (col : list A) : list A :=
  match mask, col with
  | true :: mask', x :: col' => x :: select mask' col'
  | false :: mask', _ :: col' => select mask' col'
  | _, _ => []
  end.

(** [df[mask]], the mask computed row by row: the rows where it holds, in
    every column. *)
Definition frame_filter (keep : cell * Z -> bool) (df : DataFrame) : DataFrame :=
  mkframe (filter keep (rows df))
          (map (fun c => (fst c, select (map keep (rows df)) (snd c))) (others df)).

(** [df.loc[mask, "Flights"] = v]: the flights of the rows where the mask
    holds become [v]. *)
Definition loc_set_Flights (hit : cell -> bool) (v : Z) (df : DataFrame) : DataFrame :=
  mkframe (map (fun r => if hit (fst r) then (fst r, v) else r) (rows df)) (others df).

(** [data["Date"].astype(str) == date_to_modify], on one value. *)
Definition is_date (date_to_modify : string) (c : cell) : bool :=
  String.eqb (astype_str c) date_to_modify.

(** What [st.selectbox] returns: the option the user chose, by its
    position in the list of dates; outside the list, nothing. *)
Definition selectbox (options : list string) (choice : nat) : string :=
  nth choice options EmptyString.

(** [row['Flights'].values[0]], the flights shown for the chosen date and
    the default of the number input: the first record of that date. *)
Definition current_flights (data : DataFrame) (date_to_modify : string) : Z :=
  hd 0 (Flights (frame_filter (fun r => is_date date_to_modify (fst r)) data)).

(** [modify_data(data)].  [choice] is the selection of the select box,
    [edit] and [delete] say whether each button was pressed, [new_flights]
    is what the number input returned. *)
Definition modify_data (data : DataFrame) (fs : files)
           (choice : nat) (edit : bool) (new_flights : Z) (delete : bool)
  : outcome (DataFrame * files) :=
  if negb (empty data) then
    let date_to_modify := selectbox (map astype_str (Date data)) choice in
    if nonblank date_to_modify then
      (edited <-
         (if edit then
            save_data (loc_set_Flights (is_date date_to_modify) new_flights data) fs
          else Returned (data, fs)) ;;
       if delete then
         save_data (frame_filter (fun r => negb (is_date date_to_modify (fst r)))
                                 (fst edited))
                   (snd edited)
       else Returned edited)%outcome
    else Returned (data, fs)
  else Returned (data, fs).

(** [total_flights = data['Flights'].sum()] *)
Definition total_flights (data : DataFrame) : Z := sum (Flights data).

(** [height_climbed = total_flights * HEIGHT_PER_FLIGHT] *)
Definition height_climbed (data : DataFrame) : Z :=
  total_flights data * HEIGHT_PER_FLIGHT.

(** *** The page

    The script of the Dashboard runs from top to bottom; what it has shown
    stays on the page when a line raises, and the frame [data] is the one
    object all its lines see. *)

Section Dashboard.
Context {F : Type} `{Number F}.

Local Open Scope string_scope.

(** What a card prints: a string as it is, an integer as [str] prints it,
    or a number under the format [.2f]. *)
Inductive printed : Type :=
| as_text (s : string)
| as_int (z : Z)
| int_2f (z : Z)
| float_2f (x : F)
| percent_2f (x : F).

(** What the page shows, element by element; a chart is kept by its title,
    the comparison chart with its two bars. *)
Inductive element : Type :=
| st_header (s : string)
| st_subheader (s : string)
| bar_chart (title : string) (bars : list (string * Z))
| line_chart (title : string)
| card (title : string) (value : printed) (unit : option string)
| progress_bar (x : F).

(** The state of a run: the frame and the elements shown so far. *)
Record session : Type := mksession { frame : DataFrame; shown : list element }.

(** A step of the script: it changes the session, and returns or raises;
    the session outlives a raise. *)
Definition page (A : Type) : Type := session -> session * outcome A.

Definition ret {A : Type} (a : A) : page A := fun s => (s, Returned a).

Definition then_ {A B : Type} (m : page A) (k : A -> page B) : page B :=
  fun s =>
    match m s with
    | (s', Returned a) => k a s'
    | (s', Raised e) => (s', Raised e)
    end.

(** A call that only returns or raises. *)
Definition call {A : Type} (o : outcome A) : page A := fun s => (s, o).

(** [st.header], [st.subheader], [st.plotly_chart], [display_card]: one
    more element on the page. *)
Definition show (x : element) : page unit :=
  fun s => (mksession (frame s) (shown s ++ [x])%list, Returned tt).

(** The global [data]. *)
Definition the_data : page DataFrame := fun s => (s, Returned (frame s)).

(** [calculate_averages(data)] on the page's frame. *)
Definition averages : page (F * F * F) :=
  fun s =>
    let r := calculate_averages (frame s) in
    (mksession (fst r) (shown s), snd r).

(** [st.progress(x)] for a float: a value outside [0.0, 1.0], NaN
    included, is refused. *)
Definition st_progress (x : F) : page unit :=
  match value x with
  | Returned q =>
      if Qle_bool 0 q && Qle_bool q 1 then show (progress_bar x)
      else call (Raised StreamlitAPIException)
  | Raised _ => call (Raised StreamlitAPIException)
  end.

(** [completion_date if completion_date else "N/A"] *)
Definition completion_date_or_NA (prediction : option (string * Z)) : printed :=
  match prediction with
  | Some (completion_date, _) =>
      if nonblank completion_date then as_text completion_date else as_text "N/A"
  | None => as_text "N/A"
  end.

(** [days_remaining if days_remaining else "N/A"]: zero days count as
    none. *)
Definition days_remaining_or_NA (prediction : option (string * Z)) : printed :=
  match prediction with
  | Some (_, days_remaining) =>
      if (days_remaining =? 0)%Z then as_text "N/A" else as_int days_remaining
  | None => as_text "N/A"
  end.

Local Notation "x <- m ;;; k" := (then_ m (fun x => k))
  (at level 61, m at next level, right associativity).
Local Notation "m ;;; k" := (then_ m (fun _ => k))
  (at level 61, right associativity).

(** The Dashboard tab, lines 111 to 210, at the time [now]. *)
Definition dashboard (now : datetime) : page unit :=
  show (st_header "Dashboard") ;;;
  show (st_subheader "Progress") ;;;
  data <- the_data ;;;
  let total_flights := total_flights data in
  let height_climbed := height_climbed data in
  show (bar_chart "Comparison: Your Climb vs Gunung Kinabalu"
                  [("Your Progress", height_climbed);
                   ("Gunung Kinabalu", TOTAL_HEIGHT_KINABALU)]) ;;;
  show (st_subheader "Averages Over Time") ;;;
  avgs <- averages ;;;
  let '(daily_avg, weekly_avg, monthly_avg) := avgs in
  data <- the_data ;;;
  (if negb (empty data) then
     call (get_column "Week" data) ;;;
     call (get_column "Month" data) ;;;
     show (line_chart "Daily Flights Pattern") ;;;
     show (line_chart "Weekly Flights Pattern") ;;;
     show (line_chart "Monthly Flights Pattern")
   else ret tt) ;;;
  show (st_subheader "Progress") ;;;
  let progress := fmul (fdiv (of_Z total_flights) TOTAL_FLIGHTS_KINABALU) (of_Z 100) in
  show (card "Flights Climbed" (as_int total_flights) (Some "flights")) ;;;
  show (card "Height Climbed" (int_2f height_climbed) (Some "feet")) ;;;
  show (card "Progress" (percent_2f progress) None) ;;;
  st_progress (fdiv progress (of_Z 100)) ;;;
  show (st_subheader "Predictions") ;;;
  prediction <- call (predict_completion_date data now) ;;;
  show (card "Estimated Completion Date" (completion_date_or_NA prediction) None) ;;;
  show (card "Days Remaining" (days_remaining_or_NA prediction) (Some "days")) ;;;
  show (st_subheader "Averages") ;;;
  show (card "Daily Average" (float_2f daily_avg) (Some "flights")) ;;;
  show (card "Weekly Average" (float_2f weekly_avg) (Some "flights")) ;;;
  show (card "Monthly Average" (float_2f monthly_avg) (Some "flights")).

End Dashboard.

(** A week on record as [load_data] returns it, dates as objects. *)
Definition stored_week : DataFrame :=
  mkframe [(PyDate (mkdate 2024 1 1), 5); (PyDate (mkdate 2024 1 2), 4);
           (PyDate (mkdate 2024 1 3), 5); (PyDate (mkdate 2024 1 4), 3);
           (PyDate (mkdate 2024 1 5), 4); (PyDate (mkdate 2024 1 6), 4);
           (PyDate (mkdate 2024 1 7), 4)] [].

(** * Properties *)

(** ** Dates as text *)

Section DateText.

(** [lia] after the quotients and remainders are named by their equations. *)
Ltac dlia := Z.to_euclidean_division_equations; lia.

Lemma digit_val_digit (k : Z) : 0 <= k <= 9 -> digit_val (digit k) = Some k.
Proof.
  intros Hk.
  assert (Hcases : k = 0 \/ k = 1 \/ k = 2 \/ k = 3 \/ k = 4 \/ k = 5
                   \/ k = 6 \/ k = 7 \/ k = 8 \/ k = 9) by lia.
  repeat (destruct Hcases as [-> | Hcases]; [reflexivity | ]).
  subst k; reflexivity.
Qed.

Lemma num2_digits (n : Z) :
  0 <= n <= 99 -> num2 (digit (n / 10)) (digit (n mod 10)) = Some n.
Proof.
  intros Hn. unfold num2.
  rewrite !digit_val_digit by dlia.
  f_equal. dlia.
Qed.

Lemma num4_digits (n : Z) :
  0 <= n <= 9999 ->
  num4 (digit (n / 1000)) (digit (n / 100 mod 10))
       (digit (n mod 100 / 10)) (digit (n mod 100 mod 10)) = Some n.
Proof.
  intros Hn. unfold num4.
  replace (n / 1000) with (n / 100 / 10) by dlia.
  rewrite (num2_digits (n / 100)) by dlia.
  rewrite (num2_digits (n mod 100)) by dlia.
  f_equal. dlia.
Qed.

Lemma valid_date_bounds (d : date) :
  valid_date d = true ->
  1 <= year d <= 9999 /\ 1 <= month d <= 12 /\ 1 <= day d <= 31.
Proof.
  unfold valid_date, MINYEAR, MAXYEAR, days_in_month. intros Hv.
  repeat (apply andb_prop in Hv; destruct Hv as [Hv ?]).
  assert (Hm : month d = 1 \/ month d = 2 \/ month d = 3 \/ month d = 4
               \/ month d = 5 \/ month d = 6 \/ month d = 7 \/ month d = 8
               \/ month d = 9 \/ month d = 10 \/ month d = 11 \/ month d = 12) by lia.
  assert (Hdim : DAYS_IN_MONTH (month d) <= 31).
  { repeat (destruct Hm as [-> | Hm]; [simpl; lia | ]). rewrite Hm; simpl; lia. }
  destruct ((month d =? 2) && is_leap (year d)); lia.
Qed.

(** Reading back what [isoformat] wrote gives the date. *)
Lemma fromisoformat_isoformat (d : date) :
  valid_date d = true -> fromisoformat (isoformat d) = Some d.
Proof.
  intros Hv. destruct (valid_date_bounds d Hv) as (Hy & Hm & Hd).
  destruct d as [y m dd]; cbn [year month day] in Hy, Hm, Hd.
  unfold isoformat, pad4, pad2; cbn [year month day append].
  unfold fromisoformat. rewrite !Ascii.eqb_refl. cbn [andb].
  rewrite num4_digits by lia.
  rewrite !num2_digits by lia.
  rewrite Hv. reflexivity.
Qed.

Lemma isoformat_inj (a b : date) :
  valid_date a = true -> valid_date b = true ->
  isoformat a = isoformat b -> a = b.
Proof.
  intros Ha Hb Heq.
  apply fromisoformat_isoformat in Ha, Hb.
  rewrite Heq in Ha. congruence.
Qed.

Lemma date_eqb_eq (a b : date) : date_eqb a b = true <-> a = b.
Proof.
  destruct a, b; unfold date_eqb; simpl.
  rewrite !andb_true_iff, !Z.eqb_eq.
  split; [intros [[-> ->] ->]; reflexivity | intros [= -> -> ->]; auto].
Qed.

End DateText.

(** ** Splitting and joining text *)

Section TextLemmas.

Local Open Scope string_scope.

Lemma contains_app (c : ascii) (a b : string) :
  contains c (a ++ b) = contains c a || contains c b.
Proof.
  induction a as [| x a IH]; simpl; [reflexivity | ].
  rewrite IH, orb_assoc. reflexivity.
Qed.

Lemma split_on_clean (c : ascii) (w : string) :
  contains c w = false -> split_on c w = [w].
Proof.
  induction w as [| a w IH]; simpl; [reflexivity | ].
  intros Hc. apply orb_false_elim in Hc. destruct Hc as [Ha Hw].
  rewrite Ha, (IH Hw). reflexivity.
Qed.

Lemma split_on_app (c : ascii) (w rest : string) :
  contains c w = false ->
  split_on c (w ++ String c rest) = w :: split_on c rest.
Proof.
  induction w as [| a w IH]; simpl.
  - intros _. rewrite Ascii.eqb_refl. reflexivity.
  - intros Hc. apply orb_false_elim in Hc. destruct Hc as [Ha Hw].
    rewrite Ha, (IH Hw). reflexivity.
Qed.

Lemma split_on_unlines (ls : list string) :
  Forall (fun l => contains LF l = false) ls ->
  split_on LF (unlines ls) = (ls ++ [EmptyString])%list.
Proof.
  induction ls as [| l ls IH]; intros Hall; [reflexivity | ].
  inversion Hall; subst. simpl unlines.
  rewrite split_on_app by assumption. rewrite IH by assumption. reflexivity.
Qed.

(** The lines of a written table are the rows that were written. *)
Lemma lines_unlines (ls : list string) :
  Forall (fun l => contains LF l = false) ls ->
  Forall (fun l => nonblank l = true) ls ->
  lines (unlines ls) = ls.
Proof.
  intros Hlf Hnb. unfold lines. rewrite split_on_unlines by assumption.
  rewrite filter_app. simpl. rewrite app_nil_r.
  apply forallb_filter_id. apply forallb_forall.
  intros l Hl. rewrite Forall_forall in Hnb. auto.
Qed.

Lemma uint_clean (c : ascii) (u : uint) :
  c = COMMA \/ c = LF -> contains c (NilEmpty.string_of_uint u) = false.
Proof.
  intros [-> | ->]; induction u; simpl; auto.
Qed.

Lemma nilzero_uint_clean (c : ascii) (u : uint) :
  c = COMMA \/ c = LF -> contains c (NilZero.string_of_uint u) = false.
Proof.
  intros Hc.
  destruct u;
    match goal with
    | |- contains _ (NilZero.string_of_uint ?v) = _ =>
        first [exact (uint_clean c v Hc) | destruct Hc as [-> | ->]; reflexivity]
    end.
Qed.

(** A printed integer holds no comma and no newline. *)
Lemma str_int_clean (c : ascii) (z : Z) :
  c = COMMA \/ c = LF -> contains c (str_int z) = false.
Proof.
  intros Hc. unfold str_int, NilZero.string_of_int.
  destruct (Z.to_int z) as [u | u].
  - apply nilzero_uint_clean; assumption.
  - cbn [contains]. rewrite nilzero_uint_clean by assumption.
    destruct Hc as [-> | ->]; reflexivity.
Qed.

(** Reading back a printed integer gives the integer. *)
Lemma parse_int_str_int (z : Z) : parse_int (str_int z) = Some z.
Proof.
  unfold parse_int, str_int.
  rewrite NilZero.isi.
  - simpl. rewrite DecimalZ.of_to. reflexivity.
  - destruct z; simpl; try discriminate.
    intros [= Hp]. exact (DecimalPos.Unsigned.to_uint_nonnil _ Hp).
  - destruct z; simpl; try discriminate.
    intros [= Hp]. exact (DecimalPos.Unsigned.to_uint_nonnil _ Hp).
Qed.

Lemma digit_clean (c : ascii) (k : Z) :
  c = COMMA \/ c = LF -> 0 <= k <= 9 -> Ascii.eqb (digit k) c = false.
Proof.
  intros Hc Hk.
  assert (Hcases : k = 0 \/ k = 1 \/ k = 2 \/ k = 3 \/ k = 4 \/ k = 5
                   \/ k = 6 \/ k = 7 \/ k = 8 \/ k = 9) by lia.
  destruct Hc as [-> | ->];
    repeat (destruct Hcases as [-> | Hcases]; [reflexivity | ]);
    subst k; reflexivity.
Qed.

(** A printed date holds no comma and no newline. *)
Lemma isoformat_clean (c : ascii) (d : date) :
  c = COMMA \/ c = LF -> valid_date d = true -> contains c (isoformat d) = false.
Proof.
  intros Hc Hv. destruct (valid_date_bounds d Hv) as (Hy & Hm & Hd).
  assert (Hminus : Ascii.eqb "-" c = false) by (destruct Hc as [-> | ->]; reflexivity).
  unfold isoformat, pad4, pad2. cbn [append contains].
  rewrite Hminus.
  rewrite !(digit_clean c) by (assumption || (Z.to_euclidean_division_equations; lia)).
  reflexivity.
Qed.

End TextLemmas.

(** ** The table on disk *)

Section CsvLemmas.

Local Open Scope string_scope.

Lemma traverse_map {A B : Type} (f : A -> outcome B) (g : A -> B) (l : list A) :
  Forall (fun x => f x = Returned (g x)) l ->
  traverse f l = Returned (map g l).
Proof.
  induction 1 as [| x l Hx _ IH]; simpl; [reflexivity | ].
  rewrite Hx, IH. reflexivity.
Qed.

Lemma record_date_valid (d : date) :
  record_date d = true -> valid_date d = true /\ in_bounds d = true.
Proof. unfold record_date. intros Hd. apply andb_prop in Hd. exact Hd. Qed.

Lemma record_cell_inv (c : cell) :
  is_record_cell c = true ->
  exists d, c = PyDate d /\ valid_date d = true /\ in_bounds d = true.
Proof.
  destruct c as [d | d | s]; cbn [is_record_cell]; intros Hc; try discriminate.
  exists d. split; [reflexivity | apply record_date_valid; assumption].
Qed.

Lemma parse_timestamp_isoformat (d : date) :
  valid_date d = true -> in_bounds d = true ->
  parse_timestamp (isoformat d) = Returned d.
Proof.
  intros Hv Hb. unfold parse_timestamp, to_timestamp.
  rewrite fromisoformat_isoformat by assumption. rewrite Hb. reflexivity.
Qed.

Lemma csv_rows_plain (i : nat) (rs : list (cell * Z)) :
  csv_rows [] i rs
  = map (fun r => astype_str (fst r) ++ String COMMA (str_int (snd r))) rs.
Proof.
  revert i. induction rs as [| r rs IH]; intros i; cbn [csv_rows map]; [reflexivity | ].
  rewrite IH. reflexivity.
Qed.

Lemma parse_row_plain (c : cell) (z : Z) :
  is_record_cell c = true ->
  parse_row 0 (astype_str c ++ String COMMA (str_int z))
  = Returned (astype_str c, z, []).
Proof.
  intros Hc. destruct (record_cell_inv c Hc) as (d & -> & Hv & Hb).
  cbn [astype_str]. unfold parse_row.
  rewrite split_on_app by (apply isoformat_clean; [left; reflexivity | assumption]).
  rewrite split_on_clean by (apply str_int_clean; left; reflexivity).
  cbn [List.length Nat.eqb]. rewrite parse_int_str_int. reflexivity.
Qed.

Lemma parse_dates_isoformat (cs : list cell) :
  forallb is_record_cell cs = true ->
  parse_dates (map astype_str cs) = map Timestamp (map stamp_date cs).
Proof.
  intros Hall. unfold parse_dates.
  rewrite (traverse_map _ (fun s => match fromisoformat s with
                                    | Some d => d
                                    | None => mkdate 1 1 1
                                    end)).
  - f_equal. rewrite map_map. apply map_ext_in.
    intros c Hin. rewrite forallb_forall in Hall.
    destruct (record_cell_inv c (Hall c Hin)) as (d & -> & Hv & Hb).
    cbn [astype_str stamp_date]. rewrite fromisoformat_isoformat by assumption.
    reflexivity.
  - rewrite Forall_map. rewrite Forall_forall. intros c Hin.
    rewrite forallb_forall in Hall.
    destruct (record_cell_inv c (Hall c Hin)) as (d & -> & Hv & Hb).
    cbn [astype_str]. rewrite parse_timestamp_isoformat by assumption.
    rewrite fromisoformat_isoformat by assumption. reflexivity.
Qed.

Lemma combine_fst_snd {A B : Type} (l : list (A * B)) :
  combine (map fst l) (map snd l) = l.
Proof.
  induction l as [| [a b] l IH]; simpl; [reflexivity | ]. rewrite IH. reflexivity.
Qed.

Lemma fst_combine {A B : Type} (a : list A) (b : list B) :
  List.length a = List.length b -> map fst (combine a b) = a.
Proof.
  revert b. induction a as [| x a IH]; intros [| y b] Hlen; cbn in *;
    try reflexivity; try discriminate.
  rewrite IH by congruence. reflexivity.
Qed.

Lemma snd_combine {A B : Type} (a : list A) (b : list B) :
  List.length a = List.length b -> map snd (combine a b) = b.
Proof.
  revert b. induction a as [| x a IH]; intros [| y b] Hlen; cbn in *;
    try reflexivity; try discriminate.
  rewrite IH by congruence. reflexivity.
Qed.

Lemma well_formed_cells (data : DataFrame) :
  well_formed data = true ->
  forallb is_record_cell (Date data) = true /\ others data = [].
Proof.
  unfold well_formed. intros Hwf. apply andb_prop in Hwf. destruct Hwf as [Hc Ho].
  split; [assumption | ]. destruct (others data); [reflexivity | discriminate].
Qed.

Lemma record_cells_dates (cs : list cell) :
  forallb is_record_cell cs = true -> map PyDate (map stamp_date cs) = cs.
Proof.
  intros Hall. rewrite map_map. rewrite <- (map_id cs) at 2.
  apply map_ext_in. intros c Hin. rewrite forallb_forall in Hall.
  destruct (record_cell_inv c (Hall c Hin)) as (d & -> & _). reflexivity.
Qed.

Lemma to_datetime_record_cells (cs : list cell) :
  forallb is_record_cell cs = true ->
  to_datetime cs = Returned (map stamp_date cs).
Proof.
  intros Hall. apply traverse_map. rewrite Forall_forall. intros c Hin.
  rewrite forallb_forall in Hall.
  destruct (record_cell_inv c (Hall c Hin)) as (d & -> & _ & Hb).
  cbn [to_datetime1 stamp_date]. unfold to_timestamp. rewrite Hb. reflexivity.
Qed.

Lemma to_datetime_timestamps (ds : list date) :
  to_datetime (map Timestamp ds) = Returned ds.
Proof.
  unfold to_datetime. rewrite (traverse_map _ stamp_date).
  - rewrite map_map. cbn [stamp_date]. rewrite map_id. reflexivity.
  - rewrite Forall_map. rewrite Forall_forall. intros; reflexivity.
Qed.

(** What [read_csv] makes of the table [to_csv] wrote for a record
    collection: the same rows, the dates as timestamps. *)
Lemma read_csv_to_csv (data : DataFrame) :
  well_formed data = true ->
  read_csv (to_csv data)
  = Returned (mkframe (combine (map Timestamp (map stamp_date (Date data)))
                               (Flights data)) []).
Proof.
  intros Hwf. destruct (well_formed_cells data Hwf) as [Hcells Hothers].
  unfold read_csv, to_csv, columns. rewrite Hothers. cbn [map].
  rewrite csv_rows_plain.
  assert (Hrows : Forall (fun r : cell * Z => is_record_cell (fst r) = true) (rows data)).
  { rewrite Forall_forall. intros r Hin. rewrite forallb_forall in Hcells.
    apply Hcells. unfold Date. apply in_map. assumption. }
  rewrite lines_unlines.
  - change (split_on COMMA (join COMMA ["Date"; "Flights"])) with ["Date"; "Flights"].
    cbn [String.eqb Ascii.eqb Bool.eqb andb List.length].
    rewrite (traverse_map _ (fun l => match parse_row 0 l with
                                      | Returned r => r
                                      | Raised _ => (EmptyString, 0, [])
                                      end)).
    + f_equal. f_equal.
      rewrite !map_map. f_equal.
      * rewrite <- (map_map stamp_date Timestamp (Date data)).
        rewrite <- parse_dates_isoformat by assumption. f_equal.
        unfold Date. rewrite map_map. apply map_ext_in. intros r Hin.
        rewrite Forall_forall in Hrows. rewrite parse_row_plain by auto. reflexivity.
      * unfold Flights. apply map_ext_in. intros r Hin.
        rewrite Forall_forall in Hrows. rewrite parse_row_plain by auto. reflexivity.
    + rewrite Forall_map. rewrite Forall_forall. intros r Hin.
      rewrite Forall_forall in Hrows. rewrite parse_row_plain by auto. reflexivity.
  - constructor; [reflexivity | ].
    rewrite Forall_map. rewrite Forall_forall. intros r Hin.
    rewrite Forall_forall in Hrows.
    destruct (record_cell_inv (fst r) (Hrows r Hin)) as (d & -> & Hv & Hb).
    rewrite contains_app. cbn [contains astype_str].
    rewrite str_int_clean by (right; reflexivity).
    rewrite isoformat_clean by (assumption || (right; reflexivity)). reflexivity.
  - constructor; [reflexivity | ].
    rewrite Forall_map. rewrite Forall_forall. intros r Hin.
    rewrite Forall_forall in Hrows.
    destruct (record_cell_inv (fst r) (Hrows r Hin)) as (d & -> & Hv & Hb).
    reflexivity.
Qed.

End CsvLemmas.

(** ** The record store: [load_data], [save_data], the buttons *)

Section Store.

Local Open Scope string_scope.

Lemma read_written (fs : files) (path content : string) :
  write fs path content path = Some content.
Proof. unfold write. rewrite String.eqb_refl. reflexivity. Qed.

Lemma set_Date_record_cells (data : DataFrame) :
  well_formed data = true ->
  set_Date data (dt_date (map stamp_date (Date data))) = data.
Proof.
  intros Hwf. destruct (well_formed_cells data Hwf) as [Hcells Hothers].
  unfold set_Date, dt_date. rewrite record_cells_dates by assumption.
  unfold Date, Flights. rewrite combine_fst_snd. destruct data; reflexivity.
Qed.

(** Saving a record collection leaves it as it is and writes its table. *)
Lemma save_data_well_formed (data : DataFrame) (fs : files) :
  well_formed data = true ->
  save_data data fs = Returned (data, write fs DATA_FILE (to_csv data)).
Proof.
  intros Hwf. destruct (well_formed_cells data Hwf) as [Hcells Hothers].
  unfold save_data. rewrite to_datetime_record_cells by assumption.
  cbn [bind]. rewrite set_Date_record_cells by assumption. reflexivity.
Qed.

Lemma load_data_written (data : DataFrame) (fs : files) :
  well_formed data = true ->
  load_data (write fs DATA_FILE (to_csv data)) = Returned data.
Proof.
  intros Hwf. destruct (well_formed_cells data Hwf) as [Hcells Hothers].
  unfold load_data. rewrite read_written.
  rewrite read_csv_to_csv by assumption. cbn [bind].
  assert (Hlen : List.length (map stamp_date (Date data)) = List.length (Flights data)).
  { unfold Date, Flights. rewrite !length_map. reflexivity. }
  unfold Date at 1. cbn [rows].
  rewrite fst_combine.
  2:{ rewrite length_map. exact Hlen. }
  rewrite to_datetime_timestamps. cbn [bind]. f_equal.
  unfold set_Date, Flights at 1. cbn [rows others].
  rewrite snd_combine.
  2:{ rewrite length_map. exact Hlen. }
  rewrite <- Hothers.
  change (mkframe (combine (dt_date (map stamp_date (Date data))) (Flights data)) (others data))
    with (set_Date data (dt_date (map stamp_date (Date data)))).
  apply set_Date_record_cells. assumption.
Qed.

End Store.

(** ** Grouping and summing *)

Section GroupByLemmas.

Context {K : Type} (eqb : K -> K -> bool).
Hypothesis eqb_eq : forall a b, eqb a b = true <-> a = b.

Lemma In_distinct (k : K) (keys : list K) : In k (distinct eqb keys) <-> In k keys.
Proof.
  induction keys as [| k' keys IH]; cbn [distinct]; [tauto | ].
  cbn [In]. rewrite filter_In, IH.
  split.
  - intros [-> | [Hin _]]; auto.
  - intros [-> | Hin]; [auto | ].
    destruct (eqb k' k) eqn:E.
    + left. apply eqb_eq. assumption.
    + right. split; [assumption | reflexivity].
Qed.

Lemma NoDup_distinct (keys : list K) : NoDup (distinct eqb keys).
Proof.
  induction keys as [| k keys IH]; cbn [distinct]; constructor.
  - rewrite filter_In. intros [_ Hne].
    assert (Hrefl : eqb k k = true) by (apply eqb_eq; reflexivity).
    rewrite Hrefl in Hne. discriminate.
  - apply NoDup_filter. assumption.
Qed.

Lemma sum_cons (x : Z) (l : list Z) : sum (x :: l) = x + sum l.
Proof. reflexivity. Qed.

Lemma sum_filter_or (p q : K * Z -> bool) (l : list (K * Z)) :
  (forall x, In x l -> p x && q x = false) ->
  sum (map snd (filter (fun x => p x || q x) l))
  = sum (map snd (filter p l)) + sum (map snd (filter q l)).
Proof.
  induction l as [| x l IH]; intros Hdisj; [reflexivity | ].
  assert (Hx := Hdisj x (or_introl eq_refl)).
  assert (IH' := IH (fun y Hy => Hdisj y (or_intror Hy))).
  cbn [filter].
  destruct (p x), (q x); cbn [orb andb] in *; try discriminate;
    cbn [map]; rewrite ?sum_cons; lia.
Qed.

(** The sums of the groups of a duplicate-free list of keys add up to the
    sum over the rows of those keys. *)
Lemma sum_groups (ks : list K) (kvs : list (K * Z)) :
  NoDup ks ->
  sum (map (fun k => sum (map snd (filter (fun kv => eqb k (fst kv)) kvs))) ks)
  = sum (map snd (filter (fun kv => existsb (fun k => eqb k (fst kv)) ks) kvs)).
Proof.
  induction 1 as [| k ks Hnotin Hnodup IH]; cbn [map existsb].
  - replace (filter (fun _ : K * Z => false) kvs) with (@nil (K * Z)); [reflexivity | ].
    induction kvs; cbn; auto.
  - rewrite sum_cons, IH.
    symmetry. apply (sum_filter_or (fun kv => eqb k (fst kv))
                                   (fun kv => existsb (fun k' => eqb k' (fst kv)) ks)).
    intros x _. destruct (eqb k (fst x)) eqn:E; [ | reflexivity].
    apply eqb_eq in E. subst k. cbn [andb].
    destruct (existsb (fun k' => eqb k' (fst x)) ks) eqn:Ex; [ | reflexivity].
    apply existsb_exists in Ex. destruct Ex as (k' & Hin & Heq).
    apply eqb_eq in Heq. subst k'. contradiction.
Qed.

(** Group sums add up to the sum of the whole column. *)
Lemma sum_groupby_sum (keys : list K) (vals : list Z) :
  sum (map snd (groupby_sum eqb keys vals)) = sum (map snd (combine keys vals)).
Proof.
  unfold groupby_sum, values_of. rewrite map_map. cbn [snd].
  rewrite sum_groups by apply NoDup_distinct.
  f_equal. f_equal. apply forallb_filter_id. apply forallb_forall.
  intros [k v] Hin. apply existsb_exists. exists k. split.
  - apply In_distinct. apply in_combine_l in Hin. assumption.
  - apply eqb_eq. reflexivity.
Qed.

Lemma length_groupby_sum (keys : list K) (vals : list Z) :
  List.length (map snd (groupby_sum eqb keys vals)) = List.length (distinct eqb keys).
Proof. unfold groupby_sum. rewrite !length_map. reflexivity. Qed.

(** Two rows with the same key fall into one group. *)
Lemma distinct_nonempty (keys : list K) : keys <> [] -> distinct eqb keys <> [].
Proof. destruct keys; cbn [distinct]; congruence. Qed.

End GroupByLemmas.

Lemma cell_eqb_eq (a b : cell) : cell_eqb a b = true <-> a = b.
Proof.
  destruct a, b; cbn [cell_eqb]; rewrite ?date_eqb_eq, ?String.eqb_eq;
    split; intros Heq; congruence.
Qed.

(** The mean of the group sums is the sum of the column over the number of
    groups, in any arithmetic. *)
Lemma mean_groupby_sum {F : Type} `{Number F} {K : Type} (eqb : K -> K -> bool)
      (keys : list K) (vals : list Z) :
  (forall a b, eqb a b = true <-> a = b) ->
  List.length keys = List.length vals ->
  mean (map snd (groupby_sum eqb keys vals))
  = fdiv (of_Z (sum vals)) (of_Z (Z.of_nat (List.length (distinct eqb keys)))).
Proof.
  intros Heqb Hlen. unfold mean.
  rewrite sum_groupby_sum by assumption.
  rewrite length_groupby_sum.
  rewrite snd_combine by assumption. reflexivity.
Qed.

(** ** Truncation, rounding and dates *)

Section Rounding.

Local Open Scope Q_scope.

Lemma Qtruncate_nonneg (q : Q) : 0 <= q -> Qtruncate q = Qfloor q.
Proof.
  destruct q as [n d]. unfold Qle, Qtruncate, Qfloor. cbn [Qnum Qden].
  intros Hn. apply Z.quot_div_nonneg; lia.
Qed.

Lemma Qtruncate_nonpos (q : Q) : q <= 0 -> Qtruncate q = Qceiling q.
Proof.
  destruct q as [n d]. unfold Qle, Qtruncate, Qceiling, Qfloor, Qopp.
  cbn [Qnum Qden]. intros Hn.
  replace n with (- - n)%Z at 1 by lia.
  rewrite Z.quot_opp_l by lia.
  rewrite Z.quot_div_nonneg by lia. reflexivity.
Qed.

(** [int(x)] drops the fraction: it rounds towards zero. *)
Lemma Qtruncate_towards_zero (q : Q) :
  (0 <= q -> inject_Z (Qtruncate q) <= q /\ q < inject_Z (Qtruncate q + 1))
  /\ (q <= 0 -> inject_Z (Qtruncate q - 1) < q /\ q <= inject_Z (Qtruncate q)).
Proof.
  split; intros Hq.
  - rewrite Qtruncate_nonneg by assumption.
    split; [apply Qfloor_le | apply Qlt_floor].
  - rewrite Qtruncate_nonpos by assumption.
    split; [apply Qceiling_lt | apply Qle_ceiling].
Qed.

(** Below zero, [int(x)] is not the floor: a fraction rounds up. *)
Lemma Qtruncate_not_floor (q : Q) :
  q < 0 -> ~ q == inject_Z (Qfloor q) -> Qtruncate q = (Qfloor q + 1)%Z.
Proof.
  intros Hneg Hfrac.
  rewrite Qtruncate_nonpos by (apply Qlt_le_weak; assumption).
  assert (Hfl := Qfloor_le q). assert (Hlt := Qlt_floor q).
  assert (Hc1 := Qle_ceiling q). assert (Hc2 := Qceiling_lt q).
  assert (Hlow : (Qfloor q < Qceiling q)%Z).
  { rewrite Zlt_Qlt. apply Qlt_le_trans with q; [ | assumption].
    apply Qle_lteq in Hfl. destruct Hfl as [Hfl | Hfl]; [assumption | ].
    exfalso. apply Hfrac. symmetry. assumption. }
  assert (Hhigh : (Qceiling q - 1 < Qfloor q + 1)%Z).
  { rewrite Zlt_Qlt. apply Qlt_trans with q; assumption. }
  lia.
Qed.

Lemma round_half_even_near (q : Q) :
  (Qfloor q <= round_half_even q <= Qfloor q + 1)%Z.
Proof.
  unfold round_half_even.
  destruct (q - inject_Z (Qfloor q) ?= 1 # 2); [destruct (Z.even (Qfloor q)) | | ]; lia.
Qed.

(** Rounding to the nearest integer stays between integer bounds. *)
Lemma round_half_even_between (q : Q) (a b : Z) :
  inject_Z a <= q -> q <= inject_Z b -> (a <= round_half_even q <= b)%Z.
Proof.
  intros Ha Hb.
  assert (Hnear := round_half_even_near q).
  assert (Hfl := Qfloor_le q). assert (Hlt := Qlt_floor q).
  assert (Hlo : (a < Qfloor q + 1)%Z).
  { rewrite Zlt_Qlt. apply Qle_lt_trans with q; assumption. }
  assert (Hhi : (Qfloor q <= b)%Z).
  { rewrite Zle_Qle. apply Qle_trans with q; assumption. }
  split; [lia | ].
  destruct (Z.eq_dec (Qfloor q) b) as [Heq | Hne]; [ | lia].
  unfold round_half_even.
  assert (Hr : q - inject_Z (Qfloor q) <= 0).
  { rewrite Heq. apply (Qplus_le_l _ _ (inject_Z b)). ring_simplify. assumption. }
  assert (Hcmp : (q - inject_Z (Qfloor q) ?= 1 # 2) = Lt).
  { apply Qlt_alt. apply Qle_lt_trans with 0; [assumption | reflexivity]. }
  rewrite Hcmp. lia.
Qed.

End Rounding.

Section DateArithmetic.

(** Adding between [k] and [k + 1] days to a moment of day [n] lands on day
    [n + k] or [n + k + 1]. *)
Lemma datetime_add_returns (now : datetime) (us k : Z) :
  valid_datetime now = true ->
  k * US_PER_DAY <= us <= (k + 1) * US_PER_DAY ->
  1 <= ordinal now + k -> ordinal now + k + 1 <= MAXORDINAL ->
  exists t, datetime_add now us = Returned t
            /\ ordinal now + k <= ordinal t <= ordinal now + k + 1.
Proof.
  unfold valid_datetime. intros Hnow Hus Hlo Hhi.
  repeat (apply andb_prop in Hnow; destruct Hnow as [Hnow ?]).
  unfold datetime_add.
  set (total := ordinal now * US_PER_DAY + micro now + us).
  assert (Hdiv : ordinal now + k <= total / US_PER_DAY <= ordinal now + k + 1).
  { subst total. unfold US_PER_DAY in *. Z.to_euclidean_division_equations. lia. }
  assert (Hin : ((0 <? total / US_PER_DAY) && (total / US_PER_DAY <=? MAXORDINAL)) = true).
  { apply andb_true_intro. split; [apply Z.ltb_lt | apply Z.leb_le]; lia. }
  rewrite Hin. eexists. split; [reflexivity | ]. cbn [ordinal]. exact Hdiv.
Qed.

(** Going back a day or more lands before today. *)
Lemma datetime_add_earlier (now t : datetime) (us : Z) :
  valid_datetime now = true ->
  us <= - US_PER_DAY ->
  datetime_add now us = Returned t -> ordinal t < ordinal now.
Proof.
  unfold valid_datetime. intros Hnow Hus.
  repeat (apply andb_prop in Hnow; destruct Hnow as [Hnow ?]).
  unfold datetime_add.
  set (total := ordinal now * US_PER_DAY + micro now + us).
  destruct ((0 <? total / US_PER_DAY) && (total / US_PER_DAY <=? MAXORDINAL));
    [ | discriminate].
  intros [= <-]. cbn [ordinal].
  subst total. unfold US_PER_DAY in *. Z.to_euclidean_division_equations. lia.
Qed.

End DateArithmetic.

(** ** The claims about the record store *)

Section StoreClaims.

Local Open Scope string_scope.

Lemma traverse_app {A B : Type} (f : A -> outcome B) (l1 l2 : list A) (r1 r2 : list B) :
  traverse f l1 = Returned r1 -> traverse f l2 = Returned r2 ->
  traverse f (l1 ++ l2)%list = Returned (r1 ++ r2)%list.
Proof.
  revert r1. induction l1 as [| a l1 IH]; intros r1 H1 H2.
  - cbn in H1. injection H1 as <-. exact H2.
  - cbn [traverse List.app] in *.
    destruct (f a) as [b | e]; [ | discriminate].
    destruct (traverse f l1) as [bs | e]; [ | discriminate].
    injection H1 as <-. rewrite (IH bs eq_refl H2). reflexivity.
Qed.

Lemma combine_append {A B : Type} (a a' : list A) (b b' : list B) :
  List.length a = List.length b ->
  combine (a ++ a')%list (b ++ b')%list = (combine a b ++ combine a' b')%list.
Proof.
  revert b. induction a as [| x a IH]; intros [| y b] Hlen; cbn in *;
    try reflexivity; try discriminate.
  rewrite IH by congruence. reflexivity.
Qed.

(** The duplicate test of [Add Entry] compares dates as text, and finds
    the date exactly when a record of that date is in the collection. *)
Lemma date_on_record (data : DataFrame) (picked : date) :
  well_formed data = true -> record_date picked = true ->
  existsb (String.eqb (strftime_Ymd picked)) (map astype_str (Date data)) = true
  <-> exists f, In (PyDate picked, f) (rows data).
Proof.
  intros Hwf Hpicked. destruct (record_date_valid picked Hpicked) as [Hv _].
  destruct (well_formed_cells data Hwf) as [Hcells _].
  rewrite forallb_forall in Hcells.
  rewrite existsb_exists. split.
  - intros (s & Hin & Heq). apply String.eqb_eq in Heq. subst s.
    apply in_map_iff in Hin. destruct Hin as (c & Hstr & Hin).
    destruct (record_cell_inv c (Hcells c Hin)) as (d & -> & Hvd & _).
    cbn [astype_str] in Hstr. unfold strftime_Ymd in Hstr.
    apply isoformat_inj in Hstr; [ | assumption | assumption]. subst d.
    unfold Date in Hin. apply in_map_iff in Hin.
    destruct Hin as ([c f] & Hc & Hin). cbn [fst] in Hc. subst c.
    exists f. assumption.
  - intros (f & Hin). exists (strftime_Ymd picked). split.
    + apply in_map_iff. exists (PyDate picked). split; [reflexivity | ].
      unfold Date. apply in_map_iff. exists (PyDate picked, f). auto.
    + apply String.eqb_refl.
Qed.

(** C9. With no persisted table, [load_data] does not fail: it returns
    the empty collection of a first run. *)
Theorem load_data_first_run (fs : files) :
  fs DATA_FILE = None ->
  load_data fs = Returned new_frame /\ empty new_frame = true.
Proof.
  intros Hmissing. unfold load_data. rewrite Hmissing. split; reflexivity.
Qed.

Lemma load_data_first_run_witness :
  load_data no_files = Returned new_frame /\ empty new_frame = true.
Proof. apply (load_data_first_run no_files). reflexivity. Defined.

(** C8. After the reset the table on disk loads as the empty collection,
    and on an empty collection [calculate_averages] returns 0 for the
    three averages, in any arithmetic. *)
Theorem reset_then_load (fs : files) :
  exists fs',
    reset_data fs = Returned (new_frame, fs', warning "All data has been reset.")
    /\ load_data fs' = Returned new_frame
    /\ empty new_frame = true
    /\ forall (F : Type) (N : Number F) (data : DataFrame),
         empty data = true ->
         calculate_averages data = (data, Returned (of_Z 0, of_Z 0, of_Z 0)).
Proof.
  exists (write fs DATA_FILE (to_csv new_frame)).
  split; [reflexivity | ].
  split; [apply load_data_written; reflexivity | ].
  split; [reflexivity | ].
  intros F N data Hempty. unfold calculate_averages. rewrite Hempty. reflexivity.
Qed.

(** C6. Saving a record collection and loading it again gives the same
    collection: every (date, flights) pair, in the same order. *)
Theorem save_load_round_trip (R : DataFrame) (fs : files) :
  well_formed R = true ->
  exists fs',
    save_data R fs = Returned (R, fs')
    /\ fs' DATA_FILE = Some (to_csv R)
    /\ load_data fs' = Returned R.
Proof.
  intros Hwf. exists (write fs DATA_FILE (to_csv R)).
  split; [apply save_data_well_formed; assumption | ].
  split; [apply read_written | apply load_data_written; assumption].
Qed.

(** Saving the same collection a second time leaves the files as the
    first save left them. *)
Theorem save_data_idempotent (R : DataFrame) (fs : files) :
  well_formed R = true ->
  exists fs1 fs2,
    save_data R fs = Returned (R, fs1)
    /\ save_data R fs1 = Returned (R, fs2)
    /\ forall path, fs2 path = fs1 path.
Proof.
  intros Hwf.
  exists (write fs DATA_FILE (to_csv R)).
  exists (write (write fs DATA_FILE (to_csv R)) DATA_FILE (to_csv R)).
  split; [apply save_data_well_formed; assumption | ].
  split; [apply save_data_well_formed; assumption | ].
  intros path. unfold write. destruct (String.eqb path DATA_FILE); reflexivity.
Qed.

Lemma save_data_idempotent_witness :
  exists fs1 fs2,
    save_data (one_day 50) no_files = Returned (one_day 50, fs1)
    /\ save_data (one_day 50) fs1 = Returned (one_day 50, fs2)
    /\ forall path, fs2 path = fs1 path.
Proof. apply (save_data_idempotent (one_day 50) no_files). reflexivity. Defined.

Lemma save_load_round_trip_witness :
  exists fs',
    save_data twelve_days no_files = Returned (twelve_days, fs')
    /\ fs' DATA_FILE = Some (to_csv twelve_days)
    /\ load_data fs' = Returned twelve_days.
Proof. apply (save_load_round_trip twelve_days no_files). reflexivity. Defined.

(** C3. [Add Entry] on a date that is on record is refused and changes
    neither the collection nor the files; on a date that is not on record
    it appends the one new record, leaves the others as they were and saves
    the result. *)
Theorem add_entry_guard (data : DataFrame) (fs : files) (picked : date) (flights : Z) :
  well_formed data = true -> record_date picked = true ->
  ((exists f, In (PyDate picked, f) (rows data)) ->
   add_entry data fs picked flights
   = Returned (data, fs, warning "You've already added data for today."))
  /\ ((forall f, ~ In (PyDate picked, f) (rows data)) ->
      let data' := mkframe (rows data ++ [(PyDate picked, flights)]) [] in
      add_entry data fs picked flights
      = Returned (data', write fs DATA_FILE (to_csv data'), success "Entry added!")).
Proof.
  intros Hwf Hpicked. destruct (record_date_valid picked Hpicked) as [Hv Hb].
  destruct (well_formed_cells data Hwf) as [Hcells Hothers].
  split.
  - intros Hon. apply (date_on_record data picked Hwf Hpicked) in Hon. unfold add_entry. rewrite Hon. reflexivity.
  - intros Hoff data'. unfold add_entry.
    destruct (existsb (String.eqb (strftime_Ymd picked)) (map astype_str (Date data)))
      eqn:Hfound.
    + apply (date_on_record data picked Hwf Hpicked) in Hfound. destruct Hfound as (f & Hin). elim (Hoff f Hin).
    + unfold save_data, concat. cbn [rows others].
      unfold Date at 1. cbn [rows]. rewrite map_app. cbn [map fst].
      unfold to_datetime.
      rewrite (traverse_app _ _ _ (map stamp_date (Date data)) [picked]).
      * cbn [bind fst snd].
        match goal with
        | |- context [set_Date ?fr ?col] => assert (Hset : set_Date fr col = data')
        end.
        { unfold set_Date, dt_date, Flights. cbn [rows others].
          rewrite !map_app. cbn [map snd].
          rewrite record_cells_dates by assumption.
          rewrite combine_append by (unfold Date; rewrite !length_map; reflexivity).
          unfold Date. rewrite combine_fst_snd. rewrite Hothers. reflexivity. }
        rewrite Hset. reflexivity.
      * apply to_datetime_record_cells. assumption.
      * cbn [traverse to_datetime1]. unfold strftime_Ymd.
        rewrite parse_timestamp_isoformat by assumption. reflexivity.
Qed.

Lemma add_entry_guard_witness :
  add_entry (one_day 50) no_files (mkdate 2024 1 1) 7
  = Returned (one_day 50, no_files, warning "You've already added data for today.")
  /\ let data' := mkframe (rows (one_day 50) ++ [(PyDate (mkdate 2024 1 2), 7)]) [] in
     add_entry (one_day 50) no_files (mkdate 2024 1 2) 7
     = Returned (data', write no_files DATA_FILE (to_csv data'), success "Entry added!").
Proof.
  split.
  - apply (add_entry_guard (one_day 50) no_files (mkdate 2024 1 1) 7);
      [reflexivity | reflexivity | ].
    exists 50. left. reflexivity.
  - apply (add_entry_guard (one_day 50) no_files (mkdate 2024 1 2) 7);
      [reflexivity | reflexivity | ].
    intros f [Hin | []]. discriminate Hin.
Defined.

End StoreClaims.

(** ** The averages: [calculate_averages] *)

Section Averages.

Local Open Scope string_scope.

Lemma lookup_assign_same (name : string) (col : list Z) (cols : list (string * list Z)) :
  lookup name (assign name col cols) = Some col.
Proof.
  induction cols as [| [n c] cols IH]; cbn [assign lookup].
  - rewrite String.eqb_refl. reflexivity.
  - destruct (String.eqb n name) eqn:E; cbn [lookup]; rewrite E; auto.
Qed.

Lemma lookup_assign_other (name name' : string) (col : list Z)
      (cols : list (string * list Z)) :
  name' <> name -> lookup name' (assign name col cols) = lookup name' cols.
Proof.
  intros Hne.
  assert (Hneq : String.eqb name name' = false).
  { apply String.eqb_neq. congruence. }
  induction cols as [| [n c] cols IH]; cbn [assign lookup].
  - rewrite Hneq. reflexivity.
  - destruct (String.eqb n name) eqn:E; cbn [lookup].
    + apply String.eqb_eq in E. subst n. rewrite Hneq. reflexivity.
    + rewrite IH. reflexivity.
Qed.

Lemma dt_timestamps (col : list cell) :
  forallb is_timestamp col = true -> dt col = Returned (map stamp_date col).
Proof. intros Hall. unfold dt. rewrite Hall. reflexivity. Qed.

(** What [calculate_averages] returns on a frame of timestamps: the frame
    with the two columns it assigned, and the three means. *)
Lemma calculate_averages_returns {F : Type} `{Number F} (data : DataFrame) :
  empty data = false ->
  forallb is_timestamp (Date data) = true ->
  let d := map stamp_date (Date data) in
  calculate_averages data
  = (mkframe (rows data)
             (assign "Month" (map month d) (assign "Week" (map isoweek d) (others data))),
     Returned
       (mean (map snd (groupby_sum cell_eqb (Date data) (Flights data))),
        mean (map snd (groupby_sum Z.eqb (map isoweek d) (Flights data))),
        mean (map snd (groupby_sum Z.eqb (map month d) (Flights data))))).
Proof.
  intros Hempty Hstamps d. unfold calculate_averages.
  rewrite Hempty. cbn [negb].
  rewrite dt_timestamps by assumption.
  change (Date (set_column "Week" (map isoweek (map stamp_date (Date data))) data))
    with (Date data).
  rewrite dt_timestamps by assumption.
  unfold get_column.
  change (String.eqb "Week" "Flights") with false.
  change (String.eqb "Month" "Flights") with false.
  cbv iota. unfold set_column. cbn [others rows].
  rewrite lookup_assign_other by discriminate.
  rewrite lookup_assign_same. cbn [of_option bind].
  rewrite lookup_assign_same. cbn [of_option bind].
  reflexivity.
Qed.

Lemma rows_nonempty (data : DataFrame) : empty data = false -> Date data <> [].
Proof.
  unfold empty, Date. destruct (rows data); [discriminate | ]. cbn. congruence.
Qed.

Lemma length_Date_Flights (data : DataFrame) :
  List.length (Date data) = List.length (Flights data).
Proof. unfold Date, Flights. rewrite !length_map. reflexivity. Qed.

(** The daily average is the sum of all flights over the number of
    distinct dates, in any arithmetic. *)
Lemma dailyAvg_quotient {F : Type} `{Number F} (data : DataFrame) :
  dailyAvg data = fdiv (of_Z (sum (Flights data))) (of_Z (distinct_dates data)).
Proof.
  unfold dailyAvg, distinct_dates.
  apply mean_groupby_sum; [exact cell_eqb_eq | apply length_Date_Flights].
Qed.

Lemma distinct_dates_positive (data : DataFrame) :
  empty data = false -> 0 < distinct_dates data.
Proof.
  intros Hempty. unfold distinct_dates.
  assert (Hne := distinct_nonempty cell_eqb (Date data) (rows_nonempty data Hempty)).
  destruct (distinct cell_eqb (Date data)); [congruence | cbn; lia].
Qed.

(** A frame [load_data] returned holds [datetime.date] objects. *)
Lemma load_data_object_dates (fs : files) (data : DataFrame) :
  load_data fs = Returned data ->
  Forall (fun c => is_timestamp c = false) (Date data).
Proof.
  unfold load_data. destruct (fs DATA_FILE) as [text | ].
  - destruct (read_csv text) as [data0 | e]; cbn [bind]; [ | discriminate].
    destruct (to_datetime (Date data0)) as [dates | e]; cbn [bind]; [ | discriminate].
    intros [= <-]. unfold set_Date, Date, dt_date. cbn [rows].
    generalize (Flights data0). induction dates as [| d dates IH]; intros [| z zs];
      cbn [map combine fst]; constructor; auto.
  - intros [= <-]. constructor.
Qed.

(** On a frame whose dates are objects, [datetime.date] or [str], the call
    assigns nothing: an empty frame gets its three zeros, any other makes
    [.dt] raise on line 32, before the first assignment. *)
Lemma calculate_averages_object_dates {F : Type} `{Number F} (data : DataFrame) :
  Forall (fun c => is_timestamp c = false) (Date data) ->
  calculate_averages data
  = (data, if empty data then Returned (of_Z 0, of_Z 0, of_Z 0) else Raised AttributeError).
Proof.
  intros Hobjects. unfold calculate_averages, empty, dt, Date in *.
  destruct (rows data) as [| [c z] rs]; [reflexivity | ].
  inversion Hobjects as [| ? ? Hc _]; subst. cbn [fst] in Hc.
  cbn [negb map forallb fst]. rewrite Hc. reflexivity.
Qed.

End Averages.

(** ** The claims about the averages *)

Section AverageClaims.

Local Open Scope string_scope.

(** C5, at the frames the program computes averages of. For a frame that
    [load_data] returned, [calculate_averages] returns a daily average
    only when the frame is empty, the average being 0; on every other it
    raises on line 32, so line 35 never computes the mean that the claim
    multiplies by the number of distinct dates. *)
Theorem daily_average_after_load (fs : files) (data : DataFrame)
        (F : Type) (N : Number F) :
  load_data fs = Returned data ->
  match snd (calculate_averages data) with
  | Returned (daily_avg, _, _) => empty data = true /\ daily_avg = of_Z 0
  | Raised e => empty data = false /\ e = AttributeError
  end.
Proof.
  intros Hload.
  rewrite (calculate_averages_object_dates data (load_data_object_dates fs data Hload)).
  cbn [snd]. destruct (empty data); split; reflexivity.
Qed.

(** A week on record, 29 flights on 7 dates: no daily average comes
    back. *)
Lemma daily_average_after_load_witness :
  load_data (write no_files DATA_FILE (to_csv stored_week)) = Returned stored_week
  /\ distinct_dates stored_week = 7
  /\ sum (Flights stored_week) = 29
  /\ @calculate_averages spec_float Float64 stored_week = (stored_week, Raised AttributeError)
  /\ match snd (@calculate_averages spec_float Float64 stored_week) with
     | Returned (daily_avg, _, _) => empty stored_week = true /\ daily_avg = of_Z 0
     | Raised e => empty stored_week = false /\ e = AttributeError
     end.
Proof.
  do 4 (split; [reflexivity | ]).
  apply (daily_average_after_load (write no_files DATA_FILE (to_csv stored_week))).
  reflexivity.
Defined.



(** C2, at the frames the program computes averages of. Every non-empty
    frame that [load_data] returns makes [calculate_averages] raise: its
    dates are [datetime.date] objects, on which [.dt] does not exist. *)
Theorem calculate_averages_after_load (fs : files) (data : DataFrame) :
  load_data fs = Returned data ->
  empty data = false ->
  forall (F : Type) (N : Number F),
    calculate_averages data = (data, Raised AttributeError).
Proof.
  intros Hload Hempty F N.
  rewrite (calculate_averages_object_dates data (load_data_object_dates fs data Hload)).
  rewrite Hempty. reflexivity.
Qed.

Lemma calculate_averages_after_load_witness :
  load_data (write no_files DATA_FILE two_februaries_csv)
  = Returned (mkframe [(PyDate (mkdate 2023 2 15), 10); (PyDate (mkdate 2024 2 14), 30)] [])
  /\ @calculate_averages spec_float Float64
       (mkframe [(PyDate (mkdate 2023 2 15), 10); (PyDate (mkdate 2024 2 14), 30)] [])
     = (mkframe [(PyDate (mkdate 2023 2 15), 10); (PyDate (mkdate 2024 2 14), 30)] [],
        Raised AttributeError).
Proof.
  split; [reflexivity | ].
  apply (calculate_averages_after_load (write no_files DATA_FILE two_februaries_csv));
    reflexivity.
Defined.

(** On a non-empty frame of timestamps the weekly average is the sum of all
    flights over the number of distinct ISO week numbers, and the monthly
    average the sum over the number of distinct month numbers: the year
    takes no part in the grouping. *)
Theorem averages_group_by_number (F : Type) (N : Number F) (data : DataFrame) :
  empty data = false ->
  forallb is_timestamp (Date data) = true ->
  let d := map stamp_date (Date data) in
  exists data' daily,
    calculate_averages data
    = (data',
       Returned
         (daily,
          fdiv (of_Z (sum (Flights data)))
               (of_Z (Z.of_nat (List.length (distinct Z.eqb (map isoweek d))))),
          fdiv (of_Z (sum (Flights data)))
               (of_Z (Z.of_nat (List.length (distinct Z.eqb (map month d))))))).
Proof.
  intros Hempty Hstamps d.
  rewrite (calculate_averages_returns data Hempty Hstamps).
  assert (Hlen : forall f : date -> Z,
             List.length (map f d) = List.length (Flights data)).
  { intros f. subst d. rewrite !length_map. apply length_Date_Flights. }
  fold d.
  rewrite (mean_groupby_sum Z.eqb (map isoweek d)) by (exact Z.eqb_eq || apply Hlen).
  rewrite (mean_groupby_sum Z.eqb (map month d)) by (exact Z.eqb_eq || apply Hlen).
  do 2 eexists. reflexivity.
Qed.

(** February 2023 and February 2024 make one week and one month: both
    averages are the 40 flights of the two entries over one group. *)
Lemma averages_group_by_number_witness :
  map year (map stamp_date (Date two_februaries)) = [2023; 2024]
  /\ exists data' daily,
       @calculate_averages Q Exact two_februaries
       = (data', Returned (daily, (inject_Z 40 / inject_Z 1)%Q, (inject_Z 40 / inject_Z 1)%Q)).
Proof.
  split; [reflexivity | ].
  apply (averages_group_by_number Q Exact two_februaries); reflexivity.
Defined.

End AverageClaims.

(** ** Binary64: how the operations round *)

Section Binary64Rounding.


Lemma fexp_eq (e : Z) : SpecFloat.fexp Binary64.prec Binary64.emax e = Z.max (e - 53) (-1074).
Proof. reflexivity. Qed.

Lemma digits2_size (p : positive) : digits2_pos p = Pos.size p.
Proof. induction p; cbn; congruence. Qed.

(** The number of binary digits of a positive number. *)
Lemma digits2_bounds (p : positive) :
  2 ^ (Zpos (digits2_pos p) - 1) <= Zpos p < 2 ^ Zpos (digits2_pos p).
Proof.
  rewrite digits2_size. split.
  - assert (H := Pos.size_le p).
    assert (H' : 2 ^ Zpos (Pos.size p) <= 2 * Zpos p).
    { rewrite <- Pos2Z.inj_pow. change (2 * Zpos p) with (Zpos p~0). exact H. }
    replace (Zpos (Pos.size p)) with (Z.succ (Zpos (Pos.size p) - 1)) in H' by lia.
    rewrite Z.pow_succ_r in H' by lia. lia.
  - assert (H := Pos.size_gt p). rewrite <- Pos2Z.inj_pow. exact H.
Qed.

Lemma Zdigits2_bounds (m : Z) :
  0 < m -> 0 < Zdigits2 m /\ 2 ^ (Zdigits2 m - 1) <= m < 2 ^ Zdigits2 m.
Proof.
  destruct m as [| p | p]; try lia. intros _. cbn [Zdigits2].
  split; [lia | apply digits2_bounds].
Qed.

Lemma Zdigits2_nonneg (m : Z) : 0 <= Zdigits2 m.
Proof. destruct m; cbn; lia. Qed.

Lemma Zdigits2_below (m k : Z) : 0 <= k -> 0 <= m < 2 ^ k -> Zdigits2 m <= k.
Proof.
  intros Hk [Hm Hlt]. destruct (Z.eq_dec m 0) as [-> | Hne]; [cbn; lia | ].
  destruct (Zdigits2_bounds m) as (Hd & Hlo & _); [lia | ].
  destruct (Z_le_gt_dec (Zdigits2 m) k) as [ | Hgt]; [assumption | exfalso].
  assert (2 ^ k <= 2 ^ (Zdigits2 m - 1)) by (apply Z.pow_le_mono_r; lia). lia.
Qed.

Lemma Zdigits2_above (m k : Z) : 0 <= k -> 2 ^ k <= m -> k < Zdigits2 m.
Proof.
  intros Hk Hle.
  assert (0 < 2 ^ k) by (apply Z.pow_pos_nonneg; lia).
  destruct (Zdigits2_bounds m) as (Hd & _ & Hhi); [lia | ].
  destruct (Z_lt_le_dec k (Zdigits2 m)) as [ | Hge]; [assumption | exfalso].
  assert (2 ^ Zdigits2 m <= 2 ^ k) by (apply Z.pow_le_mono_r; lia). lia.
Qed.


(** *** Shifting a mantissa right *)

Lemma shr_1_located (M D n : Z) (mrs : shr_record) :
  0 <= n -> 0 < D -> located M D n mrs -> located M D (n + 1) (shr_1 mrs).
Proof.
  intros Hn HD. destruct mrs as [m r s]. unfold located. cbn [shr_m shr_r shr_s].
  intros (Hm & Hb & Hx).
  replace (2 ^ (n + 1) * D) with (2 * (2 ^ n * D)) by (rewrite Z.pow_add_r by lia; change (2 ^ 1) with 2; ring).
  assert (HP : 0 < 2 ^ n * D) by (apply Z.mul_pos_pos; [apply Z.pow_pos_nonneg; lia | lia]).
  set (P := 2 ^ n * D) in *. clearbody P.
  assert (Hbits : orb r s = false <-> M = m * P).
  { rewrite orb_false_iff. exact Hx. }
  destruct m as [| [p | p |] | p]; try lia; cbn [shr_1 shr_m shr_r shr_s].
  - (* 0 *)
    split; [lia | ]. split; [lia | ].
    split; [intros [_ Hs]; apply Hbits; exact Hs
           | intros HM; split; [reflexivity | apply Hbits; exact HM]].
  - (* 2p + 1 *)
    change (Zpos p~1) with (2 * Zpos p + 1) in *.
    set (X := Zpos p * P) in *.
    replace ((2 * Zpos p + 1) * P) with (2 * X + P) in * by (unfold X; ring).
    replace ((2 * Zpos p + 1 + 1) * P) with (2 * X + 2 * P) in * by (unfold X; ring).
    replace (Zpos p * (2 * P)) with (2 * X) by (unfold X; ring).
    replace ((Zpos p + 1) * (2 * P)) with (2 * X + 2 * P) by (unfold X; ring).
    split; [lia | ]. split; [lia | ]. split; [intros [Habs _]; discriminate | lia].
  - (* 2p *)
    change (Zpos p~0) with (2 * Zpos p) in *.
    set (X := Zpos p * P) in *.
    replace (2 * Zpos p * P) with (2 * X) in * by (unfold X; ring).
    replace ((2 * Zpos p + 1) * P) with (2 * X + P) in * by (unfold X; ring).
    replace (Zpos p * (2 * P)) with (2 * X) by (unfold X; ring).
    replace ((Zpos p + 1) * (2 * P)) with (2 * X + 2 * P) by (unfold X; ring).
    split; [lia | ]. split; [lia | ].
    split; [intros [_ Hs]; apply Hbits; exact Hs
           | intros HM; split; [reflexivity | apply Hbits; exact HM]].
  - (* 1 *)
    rewrite Z.mul_1_l in *.
    split; [lia | ]. split; [lia | ]. split; [intros [Habs _]; discriminate | lia].
Qed.

Lemma iter_shr_1_located (M D : Z) (p : positive) :
  0 < D ->
  forall (n : Z) (mrs : shr_record),
    0 <= n -> located M D n mrs -> located M D (n + Zpos p) (iter_pos shr_1 p mrs).
Proof.
  intros HD. induction p as [p IH | p IH |]; intros n mrs Hn Hloc; cbn [iter_pos].
  - replace (n + Zpos p~1) with (n + 1 + Zpos p + Zpos p) by lia.
    apply IH; [lia | ]. apply IH; [lia | ]. apply shr_1_located; assumption.
  - replace (n + Zpos p~0) with (n + Zpos p + Zpos p) by lia.
    apply IH; [lia | ]. apply IH; assumption.
  - apply shr_1_located; assumption.
Qed.

Lemma shr_record_of_loc_m (m : Z) (l : location) : shr_m (shr_record_of_loc m l) = m.
Proof. destruct l as [| []]; reflexivity. Qed.

Lemma shr_fexp_located (M D m e : Z) (l : location) :
  0 < D ->
  located M D 0 (shr_record_of_loc m l) ->
  exists mrs, shr_fexp Binary64.prec Binary64.emax m e l = (mrs, e + shift m e)
              /\ located M D (shift m e) mrs.
Proof.
  intros HD Hloc. unfold shr_fexp, shr, shift.
  destruct (SpecFloat.fexp Binary64.prec Binary64.emax (Zdigits2 m + e) - e) as [| p | p] eqn:E.
  - exists (shr_record_of_loc m l). rewrite Z.add_0_r. split; [reflexivity | exact Hloc].
  - exists (iter_pos shr_1 p (shr_record_of_loc m l)).
    replace (Z.max 0 (Zpos p)) with (Zpos p) by lia. split; [reflexivity | ].
    apply (iter_shr_1_located M D p HD 0); [lia | exact Hloc].
  - exists (shr_record_of_loc m l).
    replace (Z.max 0 (Zneg p)) with 0 by lia. rewrite Z.add_0_r.
    split; [reflexivity | exact Hloc].
Qed.


Lemma located_exact (m : Z) (l : location) (M D : Z) :
  0 <= m -> 0 < D ->
  m * D <= M < (m + 1) * D ->
  (l = loc_Exact <-> M = m * D) ->
  located M D 0 (shr_record_of_loc m l).
Proof.
  intros Hm HD Hb Hl. unfold located. rewrite shr_record_of_loc_m.
  change (2 ^ 0) with 1. rewrite Z.mul_1_l.
  split; [assumption | ]. split; [assumption | ].
  rewrite <- Hl.
  destruct l as [| []]; cbn; split; intros H; try discriminate;
    try (destruct H; discriminate); auto.
Qed.

Lemma Zdigits2_pow2 (k : Z) : 0 <= k -> Zdigits2 (2 ^ k) = k + 1.
Proof.
  intros Hk.
  assert (H1 := Zdigits2_above (2 ^ k) k Hk (Z.le_refl _)).
  assert (H2 : Zdigits2 (2 ^ k) <= k + 1).
  { apply Zdigits2_below; [lia | ]. split; [apply Z.pow_nonneg; lia | ].
    apply Z.pow_lt_mono_r; lia. }
  lia.
Qed.

Lemma Zdigits2_mono (a b : Z) : 0 <= a <= b -> Zdigits2 a <= Zdigits2 b.
Proof.
  intros [Ha Hab]. destruct (Z.eq_dec b 0) as [-> | Hb].
  - replace a with 0 by lia. lia.
  - destruct (Zdigits2_bounds b) as (Hd & _ & Hhi); [lia | ].
    apply Zdigits2_below; lia.
Qed.

Lemma fexp_mono (a b : Z) :
  a <= b ->
  SpecFloat.fexp Binary64.prec Binary64.emax a <= SpecFloat.fexp Binary64.prec Binary64.emax b.
Proof. rewrite !fexp_eq. lia. Qed.

(** The mantissa a shift leaves has lost as many digits as were shifted. *)
Lemma shifted_digits (M D m m' n : Z) :
  0 < D -> 0 <= n -> 0 <= m ->
  m * D <= M < (m + 1) * D ->
  0 <= m' ->
  m' * (2 ^ n * D) <= M < (m' + 1) * (2 ^ n * D) ->
  m' * 2 ^ n <= m < (m' + 1) * 2 ^ n
  /\ Zdigits2 m' <= Z.max 0 (Zdigits2 m - n).
Proof.
  intros HD Hn Hm Hb Hm' Hb'.
  assert (HP : 0 < 2 ^ n) by (apply Z.pow_pos_nonneg; lia).
  assert (Hlo : m' * 2 ^ n <= m) by nia.
  assert (Hhi : m < (m' + 1) * 2 ^ n) by nia.
  split; [lia | ].
  destruct (Z.eq_dec m' 0) as [-> | Hne]; [cbn; lia | ].
  destruct (Z.eq_dec m 0) as [-> | Hm0]; [nia | ].
  destruct (Zdigits2_bounds m) as (Hd & _ & Hdhi); [lia | ].
  destruct (Z_lt_le_dec (Zdigits2 m) n) as [Hsmall | Hbig].
  - exfalso. assert (2 ^ Zdigits2 m <= 2 ^ n) by (apply Z.pow_le_mono_r; lia). nia.
  - replace (Z.max 0 (Zdigits2 m - n)) with (Zdigits2 m - n) by lia.
    apply Zdigits2_below; [lia | ]. split; [lia | ].
    replace (Zdigits2 m) with (Zdigits2 m - n + n) in Hdhi by lia.
    rewrite Z.pow_add_r in Hdhi by lia. nia.
Qed.

(** After the first shift the exponent is the one of the format. *)
Lemma fexp_shifted (m m' e : Z) :
  Zdigits2 m' <= Z.max 0 (Zdigits2 m - shift m e) ->
  (shift m e = 0 -> m' = m) ->
  SpecFloat.fexp Binary64.prec Binary64.emax (Zdigits2 m' + (e + shift m e)) <= e + shift m e
  /\ -1074 <= e + shift m e.
Proof.
  intros Hd H0. assert (Hm := Zdigits2_nonneg m). assert (Hm' := Zdigits2_nonneg m').
  unfold shift in *. rewrite !fexp_eq in *.
  destruct (Z_le_gt_dec (Z.max (Zdigits2 m + e - 53) (-1074) - e) 0) as [Hle | Hgt].
  - replace (Z.max 0 (Z.max (Zdigits2 m + e - 53) (-1074) - e)) with 0 in * by lia.
    rewrite (H0 eq_refl). lia.
  - lia.
Qed.

(** The second shift of [binary_round_aux] drops at most one bit, a zero. *)
Lemma shift_rounded (m' R e1 : Z) :
  0 <= m' ->
  SpecFloat.fexp Binary64.prec Binary64.emax (Zdigits2 m' + e1) <= e1 ->
  -1074 <= e1 ->
  R = m' \/ R = m' + 1 ->
  shift R e1 = 0 \/ (shift R e1 = 1 /\ exists h, R = 2 * h /\ 0 < h).
Proof.
  intros Hm' HA He1 HR. unfold shift. rewrite fexp_eq in *.
  destruct HR as [-> | ->]; [left; lia | ].
  assert (Hlt : m' < 2 ^ Zdigits2 m').
  { destruct (Z.eq_dec m' 0) as [-> | Hne]; [reflexivity | ].
    apply (Zdigits2_bounds m'). lia. }
  assert (Hd := Zdigits2_nonneg m').
  destruct (Z.eq_dec (m' + 1) (2 ^ Zdigits2 m')) as [Hpow | Hnot].
  - rewrite Hpow, Zdigits2_pow2 by lia.
    destruct (Z.eq_dec (Zdigits2 m') 0) as [Hz | Hnz]; [left; lia | ].
    destruct (Z_le_gt_dec (Z.max (Zdigits2 m' + 1 + e1 - 53) (-1074) - e1) 0);
      [left; lia | right].
    split; [lia | ]. exists (2 ^ (Zdigits2 m' - 1)).
    split.
    + replace (Zdigits2 m') with (Z.succ (Zdigits2 m' - 1)) at 1 by lia.
      rewrite Z.pow_succ_r by lia. reflexivity.
    + apply Z.pow_pos_nonneg; lia.
  - left. assert (Zdigits2 (m' + 1) <= Zdigits2 m') by (apply Zdigits2_below; lia). lia.
Qed.

(** [binary_round_aux] rounds faithfully: the real [M / D * 2^e], of which
    [m] is the integer part at the exponent [e], becomes [R * 2^(e + n)]
    for the shift [n] of the format, where [R] is the integer just below
    [M / D / 2^n], or the one just above when [M / D / 2^n] is no
    integer. *)
Theorem binary_round_aux_faithful (s : bool) (m e : Z) (l : location) (M D : Z) :
  0 <= m -> 0 < D ->
  m * D <= M < (m + 1) * D ->
  (l = loc_Exact <-> M = m * D) ->
  exists m' R,
    0 <= m'
    /\ m' * (2 ^ shift m e * D) <= M < (m' + 1) * (2 ^ shift m e * D)
    /\ (R = m' \/ (R = m' + 1 /\ m' * (2 ^ shift m e * D) < M))
    /\ rounded s R (e + shift m e) (binary_round_aux Binary64.prec Binary64.emax s m e l).
Proof.
  intros Hm HD Hb Hl.
  assert (Hloc := located_exact m l M D Hm HD Hb Hl).
  destruct (shr_fexp_located M D m e l HD Hloc) as (mrs & Hshr & Hm' & Hb' & Hx').
  set (n := shift m e) in *.
  assert (Hn : 0 <= n) by (unfold n, shift; lia).
  set (R := round_nearest_even (shr_m mrs) (loc_of_shr_record mrs)).
  assert (HR : R = shr_m mrs \/ (R = shr_m mrs + 1 /\ shr_m mrs * (2 ^ n * D) < M)).
  { unfold R. destruct mrs as [m' r' s']. cbn [shr_m shr_r shr_s] in *.
    assert (Hup : r' = true -> m' * (2 ^ n * D) < M).
    { intros ->. destruct (Z.eq_dec M (m' * (2 ^ n * D))) as [Heq | Hne]; [ | lia].
      apply Hx' in Heq. destruct Heq; discriminate. }
    destruct r', s'; cbn [loc_of_shr_record round_nearest_even]; auto.
    destruct (Z.even m'); auto. }
  exists (shr_m mrs), R. split; [assumption | ]. split; [assumption | ].
  split; [assumption | ].
  destruct (shifted_digits M D m (shr_m mrs) n HD Hn Hm Hb Hm' Hb') as [Hdiv Hdig].
  assert (H0 : n = 0 -> shr_m mrs = m).
  { intros Hz. rewrite Hz in Hdiv. change (2 ^ 0) with 1 in Hdiv. lia. }
  destruct (fexp_shifted m (shr_m mrs) e Hdig H0) as [HA He1]. fold n in HA, He1.
  assert (HR' : R = shr_m mrs \/ R = shr_m mrs + 1) by tauto.
  assert (HR0 : 0 <= R) by lia.
  assert (Hloc2 : located R 1 0 (shr_record_of_loc R loc_Exact)).
  { apply located_exact; try lia. split; intros _; [ring | reflexivity]. }
  destruct (shr_fexp_located R 1 R (e + n) loc_Exact Z.lt_0_1 Hloc2)
    as (mrs2 & Hshr2 & Hm2 & Hb2 & Hx2).
  unfold binary_round_aux. rewrite Hshr. fold R. rewrite Hshr2.
  destruct (shift_rounded (shr_m mrs) R (e + n) Hm' HA He1 HR') as [Hs0 | [Hs1 (h & Hh & Hhpos)]].
  - rewrite Hs0 in Hb2 |- *. change (2 ^ 0 * 1) with 1 in Hb2. rewrite Z.add_0_r.
    assert (Heq : shr_m mrs2 = R) by lia. rewrite Heq.
    destruct R as [| p | p] eqn:ER; cbn [rounded]; [auto | | lia].
    destruct (Z.leb_spec (e + n) (Binary64.emax - Binary64.prec)) as [Hle | Hgt];
      cbn [rounded]; change (Binary64.emax - Binary64.prec) with 971 in *.
    + split; [reflexivity | ]. split; [assumption | ]. left. auto.
    + split; [reflexivity | ]. split; lia.
  - rewrite Hs1 in Hb2 |- *. change (2 ^ 1 * 1) with 2 in Hb2.
    assert (Heq : shr_m mrs2 = h) by lia. rewrite Heq.
    destruct h as [| p | p]; try lia.
    destruct (Z.leb_spec (e + n + 1) (Binary64.emax - Binary64.prec)) as [Hle | Hgt];
      cbn [rounded]; change (Binary64.emax - Binary64.prec) with 971 in *.
    + split; [reflexivity | ]. split; [assumption | ]. right. split; [assumption | lia].
    + split; [reflexivity | ]. split; lia.
Qed.

End Binary64Rounding.

Section Operations.

Lemma Zdigits2_unique (m d : Z) : 2 ^ (d - 1) <= m < 2 ^ d -> 0 < d -> Zdigits2 m = d.
Proof.
  intros [Hlo Hhi] Hd.
  assert (H1 : d - 1 < Zdigits2 m) by (apply Zdigits2_above; lia).
  assert (H2 : Zdigits2 m <= d).
  { apply Zdigits2_below; [lia | ]. split; [ | assumption].
    assert (0 < 2 ^ (d - 1)) by (apply Z.pow_pos_nonneg; lia). lia. }
  lia.
Qed.

Lemma Zdigits2_shift (m k : Z) : 0 < m -> 0 <= k -> Zdigits2 (m * 2 ^ k) = Zdigits2 m + k.
Proof.
  intros Hm Hk. destruct (Zdigits2_bounds m Hm) as (Hd & Hlo & Hhi).
  assert (HP : 0 < 2 ^ k) by (apply Z.pow_pos_nonneg; lia).
  apply Zdigits2_unique; [ | lia].
  replace (Zdigits2 m + k - 1) with (Zdigits2 m - 1 + k) by lia.
  rewrite !Z.pow_add_r by lia. nia.
Qed.

Lemma iter_xO (p d : positive) : Zpos (Pos.iter xO p d) = Zpos p * 2 ^ Zpos d.
Proof.
  induction d as [| d IH] using Pos.peano_ind.
  - cbn [Pos.iter]. change (2 ^ 1) with 2. lia.
  - rewrite Pos.iter_succ, Pos2Z.inj_succ, Z.pow_succ_r by lia.
    change (Zpos (Pos.iter xO p d)~0) with (2 * Zpos (Pos.iter xO p d)). rewrite IH. ring.
Qed.

(** [shl_align] keeps the value: the mantissa grows as the exponent
    falls. *)
Lemma shl_align_value (m : positive) (e e' : Z) :
  exists m2 e2,
    shl_align m e e' = (m2, e2)
    /\ e2 = Z.min e e' /\ Zpos m2 = Zpos m * 2 ^ (e - e2).
Proof.
  unfold shl_align. destruct (e' - e) as [| d | d] eqn:E.
  - exists m, e. split; [reflexivity | ]. split; [lia | ].
    rewrite Z.sub_diag. change (2 ^ 0) with 1. lia.
  - exists m, e. split; [reflexivity | ]. split; [lia | ].
    rewrite Z.sub_diag. change (2 ^ 0) with 1. lia.
  - exists (Pos.iter xO m d), e'. split; [reflexivity | ]. split; [lia | ].
    rewrite iter_xO. replace (e - e') with (Zpos d) by lia. reflexivity.
Qed.

(** A mantissa that fits the format at its exponent is kept as it is. *)
Lemma binary_round_aux_fits (s : bool) (p : positive) (e : Z) :
  shift (Zpos p) e = 0 -> e <= 971 ->
  binary_round_aux Binary64.prec Binary64.emax s (Zpos p) e loc_Exact = S754_finite s p e.
Proof.
  intros Hshift He. unfold shift in Hshift.
  assert (Hstep : shr_fexp Binary64.prec Binary64.emax (Zpos p) e loc_Exact
                  = (Build_shr_record (Zpos p) false false, e)).
  { unfold shr_fexp, shr. cbn [shr_record_of_loc].
    destruct (SpecFloat.fexp Binary64.prec Binary64.emax (Zdigits2 (Zpos p) + e) - e);
      [reflexivity | lia | reflexivity]. }
  unfold binary_round_aux. rewrite Hstep. cbn [shr_m loc_of_shr_record round_nearest_even].
  rewrite Hstep. cbn [shr_m].
  destruct (Z.leb_spec e (Binary64.emax - Binary64.prec)) as [ | Hgt]; [reflexivity | ].
  change (Binary64.emax - Binary64.prec) with 971 in Hgt. lia.
Qed.

(** An integer below 2^53 is a float: [of_int] returns it with a mantissa
    of 53 bits. *)
Lemma of_int_finite (a : Z) :
  0 < Z.abs a < 2 ^ 53 ->
  exists p,
    Binary64.of_int a = S754_finite (a <? 0) p (Zdigits2 a - 53)
    /\ Zpos p = Z.abs a * 2 ^ (53 - Zdigits2 a)
    /\ Zdigits2 (Zpos p) = 53
    /\ 1 <= Zdigits2 a <= 53.
Proof.
  intros Ha.
  assert (Hgen : forall (s : bool) (q : positive),
             Zpos q < 2 ^ 53 ->
             exists p,
               binary_round Binary64.prec Binary64.emax s q 0
               = S754_finite s p (Zpos (digits2_pos q) - 53)
               /\ Zpos p = Zpos q * 2 ^ (53 - Zpos (digits2_pos q))
               /\ Zdigits2 (Zpos p) = 53
               /\ 1 <= Zpos (digits2_pos q) <= 53).
  { intros s q Hq.
    assert (Hd : Zdigits2 (Zpos q) <= 53) by (apply Zdigits2_below; lia).
    cbn [Zdigits2] in Hd. set (d := Zpos (digits2_pos q)) in *.
    assert (Hd1 : 1 <= d) by (unfold d; lia).
    unfold binary_round. fold d. rewrite fexp_eq.
    replace (Z.max (d + 0 - 53) (-1074)) with (d - 53) by lia.
    destruct (shl_align_value q 0 (d - 53)) as (m2 & e2 & Halign & He2 & Hm2).
    rewrite Halign. replace e2 with (d - 53) in * by lia.
    replace (0 - (d - 53)) with (53 - d) in Hm2 by lia.
    assert (Hdig : Zdigits2 (Zpos m2) = 53).
    { rewrite Hm2, Zdigits2_shift by lia. cbn [Zdigits2]. fold d. lia. }
    exists m2. split; [ | auto].
    apply binary_round_aux_fits; [ | lia].
    unfold shift. rewrite Hdig, fexp_eq. lia. }
  destruct a as [| q | q]; cbn [Z.abs] in Ha; [lia | | ].
  - destruct (Hgen false q) as (p & Hp); [lia | ]. exists p. exact Hp.
  - destruct (Hgen true q) as (p & Hp); [lia | ]. exists p. exact Hp.
Qed.


(** The quotient and the remainder that [SFdiv] rounds. *)
Lemma SFdiv_core_located (m1 e1 m2 e2 : Z) :
  0 < m1 -> 0 < m2 ->
  let e' := Z.min (SpecFloat.fexp Binary64.prec Binary64.emax
                     (Zdigits2 m1 + e1 - (Zdigits2 m2 + e2))) (e1 - e2) in
  exists q l,
    SFdiv_core_binary Binary64.prec Binary64.emax m1 e1 m2 e2 = (q, e', l)
    /\ 0 <= q
    /\ q * m2 <= m1 * 2 ^ (e1 - e2 - e') < (q + 1) * m2
    /\ (l = loc_Exact <-> m1 * 2 ^ (e1 - e2 - e') = q * m2).
Proof.
  intros H1 H2 e'. unfold SFdiv_core_binary. fold e'.
  assert (Hs : 0 <= e1 - e2 - e') by (unfold e'; lia).
  set (s := e1 - e2 - e') in *.
  assert (Hm' : match s with Zpos _ => Z.shiftl m1 s | Z0 => m1 | Zneg _ => 0 end
                = m1 * 2 ^ s).
  { destruct s as [| p | p]; [change (2 ^ 0) with 1; lia | | lia].
    apply Z.shiftl_mul_pow2. lia. }
  rewrite Hm'. set (M := m1 * 2 ^ s).
  assert (Hdiv := Z.div_eucl_eq M m2 ltac:(lia)).
  assert (Hmod := Z.mod_pos_bound M m2 H2).
  unfold Z.modulo, Z.div in *.
  destruct (Z.div_eucl M m2) as [q r]. cbn [fst snd] in *.
  assert (HM : 0 <= M).
  { unfold M. apply Z.mul_nonneg_nonneg; [lia | apply Z.pow_nonneg; lia]. }
  assert (Hq : 0 <= q) by nia.
  exists q, (new_location m2 r). split; [reflexivity | ]. split; [assumption | ].
  split; [nia | ].
  unfold new_location, new_location_even, new_location_odd.
  destruct (Z.even m2); destruct (Z.eqb_spec r 0) as [-> | Hr];
    split; intros H; try reflexivity; try discriminate; try lia; exfalso; nia.
Qed.

(** The float quotient of two integers below 2^53 is neither rounded to
    zero nor to an infinity: it is a finite float with the sign of the
    dividend, at an exponent of -105 or more. *)
Lemma Float64_mean_finite (a n : Z) :
  0 < Z.abs a < 2 ^ 53 -> 0 < n < 2 ^ 53 ->
  exists p e,
    SFdiv Binary64.prec Binary64.emax (Binary64.of_int a) (Binary64.of_int n)
    = S754_finite (a <? 0) p e
    /\ -105 <= e.
Proof.
  intros Ha Hn.
  destruct (of_int_finite n) as (pn & Hofn & Hpn & Hdn & Hn53); [lia | ].
  rewrite Hofn. replace (n <? 0) with false by (symmetry; apply Z.ltb_ge; lia).
  destruct (of_int_finite a) as (pa & Hofa & Hpa & Hda & Ha53); [lia | ].
  rewrite Hofa. cbn [SFdiv].
  destruct (SFdiv_core_located (Zpos pa) (Zdigits2 a - 53) (Zpos pn) (Zdigits2 n - 53))
    as (q & l & Hcore & Hq & Hb & Hl); [lia | lia | ].
  rewrite Hda, Hdn, fexp_eq in Hcore, Hb, Hl.
  replace (Z.min (Z.max (53 + (Zdigits2 a - 53) - (53 + (Zdigits2 n - 53)) - 53) (-1074))
                 (Zdigits2 a - 53 - (Zdigits2 n - 53)))
    with (Zdigits2 a - Zdigits2 n - 53) in * by lia.
  replace (Zdigits2 a - 53 - (Zdigits2 n - 53) - (Zdigits2 a - Zdigits2 n - 53))
    with 53 in * by lia.
  rewrite Hcore.
  assert (Hpa52 : 2 ^ 52 <= Zpos pa < 2 ^ 53).
  { destruct (Zdigits2_bounds (Zpos pa)) as (_ & Hlo & Hhi); [lia | ].
    rewrite Hda in Hlo, Hhi. exact (conj Hlo Hhi). }
  assert (Hpn52 : 2 ^ 52 <= Zpos pn < 2 ^ 53).
  { destruct (Zdigits2_bounds (Zpos pn)) as (_ & Hlo & Hhi); [lia | ].
    rewrite Hdn in Hlo, Hhi. exact (conj Hlo Hhi). }
  assert (Hq52 : 2 ^ 52 <= q < 2 ^ 54) by (change (2 ^ 52) with 4503599627370496 in *;
      change (2 ^ 53) with 9007199254740992 in *;
      change (2 ^ 54) with 18014398509481984; nia).
  set (e' := Zdigits2 a - Zdigits2 n - 53) in *.
  destruct (binary_round_aux_faithful (xorb (a <? 0) false) q e' l (Zpos pa * 2 ^ 53) (Zpos pn))
    as (m' & R & Hm' & Hb' & HR & Hrounded); [lia | lia | exact Hb | exact Hl | ].
  assert (Hdq : 53 <= Zdigits2 q <= 54).
  { assert (52 < Zdigits2 q) by (apply Zdigits2_above; lia).
    assert (Zdigits2 q <= 54) by (apply Zdigits2_below; lia). lia. }
  assert (Hshift : 0 <= shift q e' <= 1).
  { unfold shift. rewrite fexp_eq. unfold e'. lia. }
  assert (HP : 2 ^ shift q e' <= 2).
  { change 2 with (2 ^ 1) at 2. apply Z.pow_le_mono_r; lia. }
  assert (HP0 : 0 < 2 ^ shift q e') by (apply Z.pow_pos_nonneg; lia).
  assert (HR0 : 0 < R).
  { assert (Hm0 : m' <> 0).
    { intros ->. rewrite Z.mul_1_l in Hb'.
      change (2 ^ 52) with 4503599627370496 in *.
      change (2 ^ 53) with 9007199254740992 in *. nia. }
    lia. }
  destruct (binary_round_aux Binary64.prec Binary64.emax (xorb (a <? 0) false) q e' l)
    as [s' | s' | | s' p e2]; cbn [rounded] in Hrounded.
  - lia.
  - unfold e' in *. lia.
  - contradiction.
  - destruct Hrounded as (-> & _ & Hexp). rewrite xorb_false_r.
    exists p, e2. split; [reflexivity | ]. unfold e' in *. lia.
Qed.

(** The mean of flights per date is positive exactly when flights are. *)
Lemma Float64_mean_sign (a n : Z) :
  Z.abs a < 2 ^ 53 -> 0 < n < 2 ^ 53 ->
  @gt0 spec_float Float64 (fdiv (of_Z a) (of_Z n)) = (0 <? a).
Proof.
  intros Ha Hn. cbn [gt0 fdiv of_Z Float64].
  destruct (Z.eq_dec a 0) as [-> | Hne].
  { destruct (of_int_finite n) as (pn & Hofn & _); [lia | ]. rewrite Hofn. reflexivity. }
  destruct (Float64_mean_finite a n) as (p & e & Hmean & _); [lia | lia | ].
  rewrite Hmean.
  destruct (Z.ltb_spec a 0) as [Hneg | Hpos]; cbn.
  - symmetry. apply Z.ltb_ge. lia.
  - symmetry. apply Z.ltb_lt. lia.
Qed.


(** Whatever [binary_round_aux] returns bears the sign it was given. *)
Lemma binary_round_aux_sign (s : bool) (m e : Z) (l : location) :
  match binary_round_aux Binary64.prec Binary64.emax s m e l with
  | S754_zero s' | S754_infinity s' | S754_finite s' _ _ => s' = s
  | S754_nan => True
  end.
Proof.
  unfold binary_round_aux.
  destruct (shr_fexp Binary64.prec Binary64.emax m e l) as [mrs' e'].
  destruct (shr_fexp Binary64.prec Binary64.emax _ e' loc_Exact) as [mrs'' e''].
  destruct (shr_m mrs''); [reflexivity | | exact I].
  destruct (e'' <=? Binary64.emax - Binary64.prec); reflexivity.
Qed.

(** A number that is not zero, at an exponent of the format and short of
    the largest float, rounds to a finite float that is not zero. *)
Lemma binary_round_finite (s : bool) (p : positive) (e : Z) :
  -1074 <= e < 971 -> Zpos (digits2_pos p) + e < 1024 ->
  exists p' e',
    binary_round Binary64.prec Binary64.emax s p e = S754_finite s p' e'
    /\ Zdigits2 (Zpos p') <= Z.max (Zpos (digits2_pos p)) 53 + 1
    /\ e' <= Z.max (Zpos (digits2_pos p) + e - 53) (-1074) + 1.
Proof.
  intros He Hd. unfold binary_round.
  set (d := Zpos (digits2_pos p)) in *.
  assert (Hd1 : 1 <= d) by (unfold d; lia).
  destruct (shl_align_value p e (SpecFloat.fexp Binary64.prec Binary64.emax (d + e)))
    as (mz & ez & Halign & Hez & Hmz).
  rewrite Halign. rewrite fexp_eq in Hez.
  assert (Hpow : 0 < 2 ^ (e - ez)) by (apply Z.pow_pos_nonneg; lia).
  assert (Hdz : Zdigits2 (Zpos mz) = d + (e - ez)).
  { rewrite Hmz, Zdigits2_shift by lia. reflexivity. }
  destruct (binary_round_aux_faithful s (Zpos mz) ez loc_Exact (Zpos mz) 1)
    as (m' & R & Hm' & Hb' & HR & Hrounded); [lia | lia | lia | | ].
  { split; intros _; [ring | reflexivity]. }
  assert (Hshift : shift (Zpos mz) ez = Z.max 0 (d - 53) /\ (0 < d - 53 -> ez = e)).
  { unfold shift. rewrite Hdz, fexp_eq. lia. }
  destruct Hshift as [Hshift Hez']. rewrite Hshift in *.
  assert (HR0 : 0 < R).
  { assert (Hm0 : m' <> 0); [ | lia].
    intros ->. rewrite Z.mul_1_l, Z.mul_1_r in Hb'.
    destruct (Z_le_gt_dec (d - 53) 0) as [Hle | Hgt].
    - replace (Z.max 0 (d - 53)) with 0 in Hb' by lia. change (2 ^ 0) with 1 in Hb'. lia.
    - replace (Z.max 0 (d - 53)) with (d - 53) in Hb' by lia.
      rewrite (Hez' ltac:(lia)), Z.sub_diag in Hmz. change (2 ^ 0) with 1 in Hmz.
      assert (Hlo := proj1 (digits2_bounds p)). fold d in Hlo.
      assert (2 ^ (d - 53) <= 2 ^ (d - 1)) by (apply Z.pow_le_mono_r; lia). lia. }
  destruct (binary_round_aux Binary64.prec Binary64.emax s (Zpos mz) ez loc_Exact)
    as [s' | s' | | s' p' e']; cbn [rounded] in Hrounded.
  - lia.
  - lia.
  - contradiction.
  - destruct Hrounded as (-> & _ & Hexp). exists p', e'. split; [reflexivity | ].
    assert (HP : 0 < 2 ^ Z.max 0 (d - 53)) by (apply Z.pow_pos_nonneg; lia).
    assert (Hle : m' <= Zpos mz) by nia.
    destruct (Zdigits2_bounds (Zpos mz)) as (_ & _ & Hhi); [lia | ].
    rewrite Hdz in Hhi.
    split; [ | lia].
    apply Zdigits2_below; [lia | ]. split; [lia | ].
    apply Z.lt_le_trans with (2 ^ (d + (e - ez) + 1)).
    + rewrite Z.pow_add_r by lia. change (2 ^ 1) with 2. lia.
    + apply Z.pow_le_mono_r; lia.
Qed.

Local Open Scope Q_scope.

(** A finite float is negative or positive as its sign bit says. *)
Lemma to_Q_finite (s : bool) (p : positive) (e : Z) :
  exists v, Binary64.to_Q (S754_finite s p e) = Returned v
            /\ (s = true -> v < 0) /\ (s = false -> 0 < v).
Proof.
  cbn [Binary64.to_Q].
  assert (Hmag : 0 < inject_Z (Zpos p) * Qpower 2 e).
  { apply Qmult_lt_0_compat; [reflexivity | apply Qpower_0_lt; reflexivity]. }
  eexists. split; [reflexivity | ].
  split; intros ->; [ | assumption].
  apply Qopp_lt_compat in Hmag. exact Hmag.
Qed.

Local Close Scope Q_scope.

Lemma Float64_target :
  @TOTAL_FLIGHTS_KINABALU spec_float Float64 = S754_finite false 7385969359585280 (-42).
Proof. vm_compute. reflexivity. Qed.

(** The flights that remain to the target are a finite float that is not
    zero, positive up to 1679 flights climbed and negative from 1680 on, of
    at most 107 binary digits at an exponent of 2 or less. *)
Lemma Float64_remaining_finite (a : Z) :
  0 <= a < 2 ^ 53 ->
  exists p e,
    SFsub Binary64.prec Binary64.emax
          (@TOTAL_FLIGHTS_KINABALU spec_float Float64) (Binary64.of_int a)
    = S754_finite (1680 <=? a) p e
    /\ Zdigits2 (Zpos p) <= 107 /\ e <= 2.
Proof.
  intros Ha. rewrite Float64_target.
  destruct (Z.eq_dec a 0) as [-> | Hne].
  { exists 7385969359585280%positive, (-42). split; [reflexivity | ].
    split; [vm_compute; discriminate | lia]. }
  destruct (of_int_finite a) as (pa & Hofa & Hpa & Hda & Ha53); [lia | ].
  rewrite Hofa. replace (a <? 0) with false by (symmetry; apply Z.ltb_ge; lia).
  cbn [SFsub cond_Zopp].
  set (ea := Zdigits2 a - 53) in *. set (ez := Z.min (-42) ea).
  destruct (shl_align_value 7385969359585280 (-42) ez) as (mT & eT & HalignT & HeT & HmT).
  destruct (shl_align_value pa ea ez) as (ma & ea' & Haligna & Hea' & Hma).
  rewrite HalignT, Haligna. cbn [fst].
  replace eT with ez in * by lia. replace ea' with ez in * by lia.
  set (k := -3 - ez).
  assert (Hk : 0 <= k <= 49) by (unfold k, ez, ea; lia).
  assert (HP : 0 < 2 ^ k) by (apply Z.pow_pos_nonneg; lia).
  assert (HT : Zpos mT = 13435 * 2 ^ k).
  { rewrite HmT. change 7385969359585280%Z with (13435 * 2 ^ 39).
    rewrite <- Z.mul_assoc, <- Z.pow_add_r by lia. f_equal. f_equal. unfold k. lia. }
  assert (HA : Zpos ma = 8 * a * 2 ^ k).
  { rewrite Hma, Hpa. rewrite Z.abs_eq by lia.
    rewrite <- Z.mul_assoc, <- Z.pow_add_r by (unfold ea, ez; lia).
    change 8 with (2 ^ 3). rewrite (Z.mul_comm (2 ^ 3)), <- Z.mul_assoc, <- Z.pow_add_r by lia.
    f_equal. f_equal. unfold k, ea, ez. lia. }
  rewrite HT, HA.
  replace (13435 * 2 ^ k - 8 * a * 2 ^ k) with ((13435 - 8 * a) * 2 ^ k) by ring.
  assert (Hdig : forall c : Z, 0 < c < 2 ^ 57 -> Zdigits2 (c * 2 ^ k) <= 57 + k).
  { intros c Hc. rewrite Zdigits2_shift by lia.
    assert (Zdigits2 c <= 57) by (apply Zdigits2_below; lia). lia. }
  assert (Hez : -1074 <= ez < 971) by (unfold ez, ea; lia).
  assert (Hround : forall (s : bool) (p : positive),
             Zdigits2 (Zpos p) <= 57 + k ->
             exists p' e',
               binary_round Binary64.prec Binary64.emax s p ez = S754_finite s p' e'
               /\ Zdigits2 (Zpos p') <= 107 /\ e' <= 2).
  { intros s p Hp. cbn [Zdigits2] in Hp.
    destruct (binary_round_finite s p ez Hez) as (p' & e' & Hround & Hd' & He');
      [unfold k in *; lia | ].
    exists p', e'. split; [exact Hround | ]. unfold k in *. lia. }
  destruct (Z.leb_spec 1680 a) as [Hgt | Hle].
  - assert (Hc : 0 < 8 * a - 13435 < 2 ^ 57) by lia.
    specialize (Hdig _ Hc).
    destruct ((13435 - 8 * a) * 2 ^ k) as [| p | p] eqn:E; try nia.
    cbn [binary_normalize].
    assert (Hp : Zpos p = (8 * a - 13435) * 2 ^ k) by lia.
    rewrite <- Hp in Hdig. exact (Hround true p Hdig).
  - assert (Hc : 0 < 13435 - 8 * a < 2 ^ 57) by lia.
    specialize (Hdig _ Hc).
    destruct ((13435 - 8 * a) * 2 ^ k) as [| p | p] eqn:E; try nia.
    cbn [binary_normalize]. exact (Hround false p Hdig).
Qed.

(** The sign of the flights that remain. *)
Lemma Float64_remaining_sign (a : Z) :
  0 <= a < 2 ^ 53 ->
  exists r, @value spec_float Float64 (fsub TOTAL_FLIGHTS_KINABALU (of_Z a)) = Returned r
            /\ (a <= 1679 -> (0 < r)%Q) /\ (1680 <= a -> (r < 0)%Q).
Proof.
  intros Ha. cbn [value fsub of_Z Float64].
  destruct (Float64_remaining_finite a Ha) as (p & e & Hsub & _).
  rewrite Hsub.
  destruct (to_Q_finite (1680 <=? a) p e) as (v & Hv & Hneg & Hpos).
  exists v. split; [exact Hv | ].
  split; intros H; [apply Hpos; apply Z.leb_gt | apply Hneg; apply Z.leb_le]; lia.
Qed.

(** A quotient of finite floats is finite or zero when the exponents and
    the digits of the dividend leave room below the largest float. *)
Lemma SFdiv_finite (s1 s2 : bool) (m1 m2 : positive) (e1 e2 : Z) :
  e1 - e2 < 971 -> Zdigits2 (Zpos m1) + e1 - e2 - 53 < 971 ->
  exists q, Binary64.to_Q (SFdiv Binary64.prec Binary64.emax
                                 (S754_finite s1 m1 e1) (S754_finite s2 m2 e2))
            = Returned q.
Proof.
  intros He Hd. cbn [SFdiv].
  destruct (SFdiv_core_located (Zpos m1) e1 (Zpos m2) e2) as (q & l & Hcore & Hq & Hb & Hl);
    [lia | lia | ].
  rewrite Hcore.
  set (e' := Z.min (SpecFloat.fexp Binary64.prec Binary64.emax
                      (Zdigits2 (Zpos m1) + e1 - (Zdigits2 (Zpos m2) + e2))) (e1 - e2)) in *.
  assert (He' : e' <= e1 - e2) by (unfold e'; lia).
  set (k := e1 - e2 - e') in *.
  assert (Hk : 0 <= k) by (unfold k; lia).
  destruct (binary_round_aux_faithful (xorb s1 s2) q e' l (Zpos m1 * 2 ^ k) (Zpos m2))
    as (m' & R & Hm' & Hb' & HR & Hrounded); [lia | lia | exact Hb | exact Hl | ].
  assert (Hdq : Zdigits2 q <= Zdigits2 (Zpos m1) + k).
  { rewrite <- Zdigits2_shift by lia. apply Zdigits2_mono. nia. }
  assert (Hroom : e' + shift q e' < 971).
  { unfold shift. rewrite fexp_eq. unfold k in Hdq. lia. }
  destruct (binary_round_aux Binary64.prec Binary64.emax (xorb s1 s2) q e' l)
    as [s' | s' | | s' p e]; cbn [rounded] in Hrounded.
  - exists 0%Q. reflexivity.
  - lia.
  - contradiction.
  - cbn [Binary64.to_Q]. eexists. reflexivity.
Qed.

(** The quotient of the projection is a finite number: the flights that
    remain, over the mean of flights per date, for sums and counts below
    2^53. *)
Lemma Float64_projection_finite (a n : Z) :
  0 < a < 2 ^ 53 -> 0 < n < 2 ^ 53 ->
  exists q, @value spec_float Float64
                   (fdiv (fsub TOTAL_FLIGHTS_KINABALU (of_Z a)) (fdiv (of_Z a) (of_Z n)))
            = Returned q.
Proof.
  intros Ha Hn. cbn [value fdiv fsub of_Z Float64].
  destruct (Float64_remaining_finite a) as (p1 & e1 & Hsub & Hd1 & He1); [lia | ].
  destruct (Float64_mean_finite a n) as (p2 & e2 & Hmean & He2); [lia | lia | ].
  rewrite Hsub, Hmean. apply SFdiv_finite; lia.
Qed.

(** A quotient by a positive float keeps the sign of the dividend. *)
Lemma Float64_quotient_sign (x y : spec_float) (a q : Q) :
  @value spec_float Float64 x = Returned a ->
  @gt0 spec_float Float64 y = true ->
  @value spec_float Float64 (fdiv x y) = Returned q ->
  ((a <= 0)%Q -> (q <= 0)%Q) /\ ((0 <= a)%Q -> (0 <= q)%Q).
Proof.
  cbn [value gt0 fdiv Float64]. intros Hx Hy Hq.
  assert (Hzero : forall s, Binary64.to_Q (S754_zero s) = Returned q ->
                            ((a <= 0)%Q -> (q <= 0)%Q) /\ ((0 <= a)%Q -> (0 <= q)%Q)).
  { intros s [= <-]. split; intros _; apply Qle_refl. }
  destruct y as [sy | sy | | sy my ey]; try discriminate;
    destruct sy; try discriminate;
    destruct x as [sx | sx | | sx mx ex]; try discriminate; cbn [SFdiv] in Hq;
    try (eapply Hzero; eassumption).
  destruct (SFdiv_core_binary Binary64.prec Binary64.emax (Zpos mx) ex (Zpos my) ey)
    as [[mz ez] lz].
  assert (Hsign := binary_round_aux_sign (xorb sx false) mz ez lz).
  rewrite xorb_false_r in *.
  destruct (binary_round_aux Binary64.prec Binary64.emax sx mz ez lz)
    as [s' | s' | | s' p' e']; try discriminate; [eapply Hzero; eassumption | ].
  subst s'.
  destruct (to_Q_finite sx mx ex) as (va & Hva & Hneg & Hpos).
  destruct (to_Q_finite sx p' e') as (vq & Hvq & Hneg' & Hpos').
  rewrite Hva in Hx. rewrite Hvq in Hq.
  injection Hx as <-. injection Hq as <-.
  destruct sx.
  - specialize (Hneg' eq_refl). specialize (Hneg eq_refl).
    split; intros H; [apply Qlt_le_weak; assumption | ].
    exfalso. apply (Qlt_irrefl 0). apply Qle_lt_trans with va; assumption.
  - specialize (Hpos' eq_refl). specialize (Hpos eq_refl).
    split; intros H; [ | apply Qlt_le_weak; assumption].
    exfalso. apply (Qlt_irrefl 0). apply Qlt_le_trans with va; assumption.
Qed.

End Operations.

Section Values.

Local Open Scope Q_scope.

Lemma Qtruncate_comp (x y : Q) : x == y -> Qtruncate x = Qtruncate y.
Proof.
  intros Heq. destruct (Qlt_le_dec x 0) as [Hneg | Hpos].
  - rewrite !Qtruncate_nonpos; [apply Qceiling_comp; assumption | | ].
    + rewrite <- Heq. apply Qlt_le_weak. assumption.
    + apply Qlt_le_weak. assumption.
  - rewrite !Qtruncate_nonneg; [apply Qfloor_comp; assumption | | assumption].
    rewrite <- Heq. assumption.
Qed.

(** The integer part of [N / D]. *)
Lemma Qtruncate_scaled (q : Q) (N D : Z) :
  (0 < D)%Z -> q * inject_Z D == inject_Z N -> Qtruncate q = Z.quot N D.
Proof.
  intros HD Hq.
  assert (Heq : q == N # Z.to_pos D).
  { unfold Qeq in *. cbn in *. rewrite Z2Pos.id by assumption.
    rewrite Pos.mul_1_r in Hq. lia. }
  rewrite (Qtruncate_comp _ _ Heq). unfold Qtruncate. cbn [Qnum Qden].
  rewrite Z2Pos.id by assumption. reflexivity.
Qed.

Lemma Qpower2_scaled (e j : Z) :
  (0 <= j)%Z -> (0 <= e + j)%Z -> Qpower 2 e * inject_Z (2 ^ j) == inject_Z (2 ^ (e + j)).
Proof.
  intros Hj Hej. rewrite !Zpower_Qpower by assumption. change (inject_Z 2) with 2.
  rewrite Qpower_plus by discriminate. reflexivity.
Qed.

(** The value of a finite float, scaled to an integer. *)
Lemma to_Q_scaled (s : bool) (p : positive) (e j : Z) :
  (0 <= j)%Z -> (0 <= e + j)%Z ->
  exists v, Binary64.to_Q (S754_finite s p e) = Returned v
            /\ v * inject_Z (2 ^ j) == inject_Z (cond_Zopp s (Zpos p * 2 ^ (e + j))).
Proof.
  intros Hj Hej. cbn [Binary64.to_Q]. eexists. split; [reflexivity | ].
  assert (H := Qpower2_scaled e j Hj Hej).
  destruct s; cbn [cond_Zopp].
  - rewrite inject_Z_opp, inject_Z_mult, <- H. ring.
  - rewrite inject_Z_mult, <- H. ring.
Qed.


(** The fraction of [N / D] is what the division leaves. *)
Lemma fraction_scaled (q f : Q) (N D : Z) :
  (0 < D)%Z ->
  q * inject_Z D == inject_Z N ->
  f * inject_Z D == inject_Z (Z.rem N D) ->
  f == q - inject_Z (Qtruncate q).
Proof.
  intros HD Hq Hf. rewrite (Qtruncate_scaled q N D HD Hq).
  apply (Qmult_inj_r _ _ (inject_Z D)).
  - intros Hzero. unfold Qeq in Hzero. cbn in Hzero. lia.
  - rewrite Hf.
    setoid_replace ((q - inject_Z (N ÷ D)) * inject_Z D)
      with (q * inject_Z D - inject_Z (N ÷ D) * inject_Z D) by ring.
    rewrite Hq, <- inject_Z_mult.
    unfold Qminus. rewrite <- inject_Z_opp, <- inject_Z_plus.
    assert (Hrem := Z.quot_rem' N D).
    replace (N + - (N ÷ D * D))%Z with (Z.rem N D) by lia. reflexivity.
Qed.

Lemma rem_cond_Zopp (s : bool) (m D : Z) :
  (0 <= m)%Z -> (0 < D)%Z -> Z.rem (cond_Zopp s m) D = cond_Zopp s (m mod D).
Proof.
  intros Hm HD. destruct s; cbn [cond_Zopp].
  - rewrite Z.rem_opp_l by lia. rewrite Z.rem_mod_nonneg by lia. reflexivity.
  - apply Z.rem_mod_nonneg; lia.
Qed.

(** [modf] splits a float exactly. *)
Lemma Float64_fraction_value (x : spec_float) (q : Q) :
  @value spec_float Float64 x = Returned q ->
  exists f, @value spec_float Float64 (fraction x) = Returned f
            /\ f == q - inject_Z (Qtruncate q).
Proof.
  cbn [value fraction Float64]. intros Hx.
  destruct x as [s | s | | s m e]; try discriminate.
  - injection Hx as <-. exists 0. split; reflexivity.
  - assert (Hwhole : forall e', (0 <= e')%Z -> e = e' ->
                                exists f, Binary64.to_Q (S754_zero s) = Returned f
                                          /\ f == q - inject_Z (Qtruncate q)).
    { intros e' He' ->.
      destruct (to_Q_scaled s m e' 0) as (v & Hv & Hscaled); [lia | lia | ].
      rewrite Hv in Hx. injection Hx as ->. change (2 ^ 0)%Z with 1%Z in Hscaled.
      exists 0. split; [reflexivity | ].
      apply (fraction_scaled q 0 _ 1 Z.lt_0_1 Hscaled).
      rewrite Z.rem_1_r. reflexivity. }
    destruct e as [| pe | k]; cbn [Binary64.modf_fraction].
    + apply (Hwhole 0%Z); [lia | reflexivity].
    + apply (Hwhole (Zpos pe)); [lia | reflexivity].
    + assert (HD : (0 < 2 ^ Zpos k)%Z) by (apply Z.pow_pos_nonneg; lia).
      destruct (to_Q_scaled s m (Zneg k) (Zpos k)) as (v & Hv & Hscaled); [lia | lia | ].
      rewrite Hv in Hx. injection Hx as ->.
      replace (Zneg k + Zpos k)%Z with 0%Z in * by lia.
      change (2 ^ 0)%Z with 1%Z in Hscaled. rewrite Z.mul_1_r in Hscaled.
      assert (Hmod := Z.mod_pos_bound (Zpos m) (2 ^ Zpos k) HD).
      destruct (Zpos m mod 2 ^ Zpos k)%Z as [| r | r] eqn:Er; [ | | lia].
      * exists 0. split; [reflexivity | ].
        apply (fraction_scaled q 0 _ _ HD Hscaled).
        rewrite rem_cond_Zopp, Er by lia. destruct s; reflexivity.
      * destruct (to_Q_scaled s r (Zneg k) (Zpos k)) as (f & Hf & Hfscaled); [lia | lia | ].
        replace (Zneg k + Zpos k)%Z with 0%Z in * by lia.
        change (2 ^ 0)%Z with 1%Z in Hfscaled. rewrite Z.mul_1_r in Hfscaled.
        exists f. split; [exact Hf | ].
        apply (fraction_scaled q f _ _ HD Hscaled).
        rewrite rem_cond_Zopp, Er by lia. exact Hfscaled.
Qed.


(** Comparing a scaled value with an integer. *)
Lemma scaled_bounds (v : Q) (N B j : Z) :
  (0 <= j)%Z ->
  v * inject_Z (2 ^ j) == inject_Z N ->
  ((N <= B * 2 ^ j)%Z -> v <= inject_Z B) /\ ((B * 2 ^ j <= N)%Z -> inject_Z B <= v)
  /\ ((N < B * 2 ^ j)%Z -> v < inject_Z B) /\ ((B * 2 ^ j < N)%Z -> inject_Z B < v).
Proof.
  intros Hj Hv.
  assert (HP : (0 < 2 ^ j)%Z) by (apply Z.pow_pos_nonneg; lia).
  assert (Hz : 0 < inject_Z (2 ^ j)).
  { change 0 with (inject_Z 0). rewrite <- Zlt_Qlt. assumption. }
  repeat split; intros H.
  - apply (Qmult_le_r _ _ _ Hz). rewrite Hv, <- inject_Z_mult, <- Zle_Qle. assumption.
  - apply (Qmult_le_r _ _ _ Hz). rewrite Hv, <- inject_Z_mult, <- Zle_Qle. assumption.
  - apply (Qmult_lt_r _ _ _ Hz). rewrite Hv, <- inject_Z_mult, <- Zlt_Qlt. assumption.
  - apply (Qmult_lt_r _ _ _ Hz). rewrite Hv, <- inject_Z_mult, <- Zlt_Qlt. assumption.
Qed.

Lemma Float64_day :
  @of_Z spec_float Float64 US_PER_DAY = S754_finite false 5662310400000000 (-16).
Proof. vm_compute. reflexivity. Qed.

(** A float below one in magnitude has a negative exponent and a mantissa
    shorter than it. *)
Lemma below_one (s : bool) (m : positive) (e : Z) (f : Q) :
  Binary64.to_Q (S754_finite s m e) = Returned f ->
  - (1) < f -> f < 1 ->
  exists k, e = Zneg k /\ (Zpos m < 2 ^ Zpos k)%Z
            /\ f * inject_Z (2 ^ Zpos k) == inject_Z (cond_Zopp s (Zpos m)).
Proof.
  intros Hf Hlo Hhi.
  assert (Hwhole : forall e', (0 <= e')%Z -> e = e' -> False).
  { intros e' He' ->.
    destruct (to_Q_scaled s m e' 0) as (v & Hv & Hscaled); [lia | lia | ].
    rewrite Hv in Hf. injection Hf as ->.
    destruct (scaled_bounds f _ 1 0 (Z.le_refl 0) Hscaled) as (_ & H1 & _ & _).
    destruct (scaled_bounds f _ (-1) 0 (Z.le_refl 0) Hscaled) as (H2 & _ & _ & _).
    assert (HP : (0 < 2 ^ (e' + 0))%Z) by (apply Z.pow_pos_nonneg; lia).
    change (2 ^ 0)%Z with 1%Z in *.
    destruct s; cbn [cond_Zopp] in *.
    - apply (Qlt_irrefl f). apply Qle_lt_trans with (inject_Z (-1)); [ | exact Hlo].
      apply H2. nia.
    - apply (Qlt_irrefl f). apply Qlt_le_trans with (inject_Z 1); [exact Hhi | ].
      apply H1. nia. }
  destruct e as [| pe | k]; [exfalso; apply (Hwhole 0%Z); [lia | reflexivity]
                           | exfalso; apply (Hwhole (Zpos pe)); [lia | reflexivity] | ].
  exists k. split; [reflexivity | ].
  destruct (to_Q_scaled s m (Zneg k) (Zpos k)) as (v & Hv & Hscaled); [lia | lia | ].
  rewrite Hv in Hf. injection Hf as ->.
  replace (Zneg k + Zpos k)%Z with 0%Z in * by lia.
  change (2 ^ 0)%Z with 1%Z in Hscaled. rewrite Z.mul_1_r in Hscaled.
  split; [ | exact Hscaled].
  destruct (scaled_bounds f _ 1 (Zpos k) ltac:(lia) Hscaled) as (_ & H1 & _ & _).
  destruct (scaled_bounds f _ (-1) (Zpos k) ltac:(lia) Hscaled) as (H2 & _ & _ & _).
  destruct (Z_lt_le_dec (Zpos m) (2 ^ Zpos k)) as [ | Hbig]; [assumption | exfalso].
  destruct s; cbn [cond_Zopp] in *.
  - apply (Qlt_irrefl f). apply Qle_lt_trans with (inject_Z (-1)); [ | exact Hlo].
    apply H2. lia.
  - apply (Qlt_irrefl f). apply Qlt_le_trans with (inject_Z 1); [exact Hhi | ].
    apply H1. lia.
Qed.

(** A fraction of a day, times 86400000000.0, is at most a day's worth of
    microseconds, and of the sign of the fraction. *)
Lemma Float64_day_fraction (x : spec_float) (f : Q) :
  @value spec_float Float64 x = Returned f -> - (1) < f -> f < 1 ->
  exists us, @value spec_float Float64 (fmul (of_Z US_PER_DAY) x) = Returned us
             /\ (0 <= f -> 0 <= us /\ us <= inject_Z US_PER_DAY)
             /\ (f <= 0 -> - inject_Z US_PER_DAY <= us /\ us <= 0).
Proof.
  intros Hx Hlo Hhi. rewrite Float64_day. cbn [value fmul Float64] in *.
  assert (Hzero : exists us, Binary64.to_Q (S754_zero false) = Returned us
                             /\ (0 <= f -> 0 <= us /\ us <= inject_Z US_PER_DAY)
                             /\ (f <= 0 -> - inject_Z US_PER_DAY <= us /\ us <= 0)).
  { exists 0. split; [reflexivity | ]. split; intros _; split; discriminate. }
  destruct x as [s | s | | s m e]; try discriminate.
  { cbn [SFmul]. destruct s; exact Hzero. }
  destruct (below_one s m e f Hx Hlo Hhi) as (k & -> & Hm & Hf).
  cbn [SFmul xorb].
  set (M := Zpos (5662310400000000 * m)). set (e0 := (-16 + Zneg k)%Z).
  destruct (binary_round_aux_faithful s M e0 loc_Exact M 1)
    as (m' & R & Hm' & Hb' & HR & Hrounded); [lia | lia | lia | | ].
  { split; intros _; [ring | reflexivity]. }
  assert (HM : (0 < M < 2 ^ 53 * 2 ^ Zpos k)%Z).
  { unfold M. rewrite Pos2Z.inj_mul. change (2 ^ 53)%Z with 9007199254740992%Z. nia. }
  assert (HdM : (Zdigits2 M <= 53 + Zpos k)%Z).
  { apply Zdigits2_below; [lia | ]. rewrite Z.pow_add_r by lia. lia. }
  assert (Hn : (0 <= shift M e0 <= Zpos k)%Z).
  { unfold shift. rewrite fexp_eq. unfold e0. lia. }
  set (n := shift M e0) in *.
  set (j := (Zpos k - n + 16)%Z).
  assert (HE : (e0 + n = - j)%Z) by (unfold e0, j; lia).
  assert (HPn : (0 < 2 ^ n)%Z) by (apply Z.pow_pos_nonneg; lia).
  assert (HRbound : (0 <= R <= 86400000000 * 2 ^ j)%Z).
  { split; [lia | ].
    assert (Hsplit : (2 ^ j = 2 ^ (Zpos k - n) * 2 ^ 16)%Z).
    { unfold j. rewrite Z.pow_add_r by lia. reflexivity. }
    assert (Hk : (2 ^ Zpos k = 2 ^ (Zpos k - n) * 2 ^ n)%Z).
    { rewrite <- Z.pow_add_r by lia. f_equal. lia. }
    assert (HPk : (0 < 2 ^ (Zpos k - n))%Z) by (apply Z.pow_pos_nonneg; lia).
    rewrite Hsplit. change (2 ^ 16)%Z with 65536%Z.
    assert (HMU : (M < 5662310400000000 * (2 ^ (Zpos k - n) * 2 ^ n))%Z).
    { unfold M. rewrite Pos2Z.inj_mul, <- Hk. nia. }
    rewrite Z.mul_1_r in Hb'.
    assert (m' < 5662310400000000 * 2 ^ (Zpos k - n))%Z by nia.
    lia. }
  assert (Hsign : (0 <= f -> s = false) /\ (f <= 0 -> s = true)).
  { destruct (scaled_bounds f _ 0 (Zpos k) ltac:(lia) Hf) as (_ & _ & Hneg & Hpos).
    destruct s; cbn [cond_Zopp] in *; split; intros H; try reflexivity; exfalso.
    - apply (Qlt_irrefl f). apply Qlt_le_trans with (inject_Z 0); [apply Hneg; lia | exact H].
    - apply (Qlt_irrefl f). apply Qle_lt_trans with (inject_Z 0); [exact H | apply Hpos; lia]. }
  rewrite HE in Hrounded.
  destruct (binary_round_aux Binary64.prec Binary64.emax s M e0 loc_Exact)
    as [s' | s' | | s' p2 e2]; cbn [rounded] in Hrounded.
  - destruct s'; exact Hzero.
  - lia.
  - contradiction.
  - destruct Hrounded as (-> & _ & Hcase).
    assert (Hj : (0 <= j)%Z) by (unfold j; lia).
    destruct (to_Q_scaled s p2 e2 j) as (us & Hus & Hscaled); [lia | lia | ].
    assert (Hval : (Zpos p2 * 2 ^ (e2 + j) = R)%Z).
    { destruct Hcase as [(_ & -> & <-) | (_ & -> & <-)].
      - replace (- j + j)%Z with 0%Z by lia. change (2 ^ 0)%Z with 1%Z. lia.
      - replace (- j + 1 + j)%Z with 1%Z by lia. change (2 ^ 1)%Z with 2%Z. lia. }
    rewrite Hval in Hscaled.
    exists us. split; [exact Hus | ].
    destruct (scaled_bounds us _ 0 j Hj Hscaled) as (Hle0 & Hge0 & _ & _).
    destruct (scaled_bounds us _ US_PER_DAY j Hj Hscaled) as (HleU & _ & _ & _).
    destruct (scaled_bounds us _ (- US_PER_DAY) j Hj Hscaled) as (_ & HgeU & _ & _).
    rewrite inject_Z_opp in HgeU. unfold US_PER_DAY in *.
    split; intros H.
    + rewrite (proj1 Hsign H) in *. cbn [cond_Zopp] in *.
      split; [apply Hge0; lia | apply HleU; lia].
    + rewrite (proj2 Hsign H) in *. cbn [cond_Zopp] in *.
      split; [apply HgeU; lia | apply Hle0; lia].
Qed.

End Values.

(** ** The two arithmetics have the laws *)

Section Arithmetics.

Local Open Scope Q_scope.

Lemma gt0_exact (x : Q) : @gt0 Q Exact x = true <-> 0 < x.
Proof.
  cbn [gt0 Exact]. rewrite negb_true_iff.
  split.
  - intros Hle. apply Qnot_le_lt. intros Hle'.
    apply Qle_bool_iff in Hle'. congruence.
  - intros Hlt. destruct (Qle_bool x 0) eqn:E; [ | reflexivity].
    apply Qle_bool_iff in E. apply Qlt_not_le in Hlt. contradiction.
Qed.

Lemma inject_Z_positive (n : Z) : (0 < n)%Z -> 0 < inject_Z n.
Proof. intros Hn. change 0 with (inject_Z 0). rewrite <- Zlt_Qlt. assumption. Qed.

(** Binary64 has the laws of [Rounding]. *)
Lemma Float64_rounding : @Rounding spec_float Float64.
Proof.
  split.
  - exact Float64_fraction_value.
  - exact Float64_day_fraction.
  - exact Float64_mean_sign.
  - exact Float64_remaining_sign.
  - exact Float64_quotient_sign.
  - exact Float64_projection_finite.
Qed.

(** So have the exact rationals. *)
Lemma Exact_rounding : @Rounding Q Exact.
Proof.
  split; cbn [value fraction fmul fdiv fsub of_Z Exact].
  - intros x q [= ->]. eexists. split; reflexivity.
  - intros x f [= ->] Hlo Hhi. eexists. split; [reflexivity | ].
    assert (Hday : 0 < inject_Z US_PER_DAY) by reflexivity.
    split; intros Hf; split.
    + apply Qmult_le_0_compat; [apply Qlt_le_weak; assumption | assumption].
    + setoid_replace (inject_Z US_PER_DAY) with (inject_Z US_PER_DAY * 1) at 2 by ring.
      apply Qmult_le_l; [assumption | apply Qlt_le_weak; assumption].
    + setoid_replace (- inject_Z US_PER_DAY) with (inject_Z US_PER_DAY * - (1)) by ring.
      apply Qmult_le_l; [assumption | apply Qlt_le_weak; assumption].
    + setoid_replace 0 with (inject_Z US_PER_DAY * 0) by ring.
      apply Qmult_le_l; assumption.
  - intros a n Ha Hn.
    assert (Hnq := inject_Z_positive n (proj1 Hn)).
    destruct (Z.ltb_spec 0 a) as [Hpos | Hneg].
    + apply gt0_exact. apply Qlt_shift_div_l; [assumption | ].
      rewrite Qmult_0_l. apply inject_Z_positive. assumption.
    + destruct (@gt0 Q Exact (inject_Z a / inject_Z n)) eqn:E; [ | reflexivity].
      apply gt0_exact in E. exfalso. apply (Qlt_irrefl 0).
      apply Qlt_le_trans with (inject_Z a / inject_Z n); [assumption | ].
      apply Qle_shift_div_r; [assumption | ]. rewrite Qmult_0_l.
      change 0 with (inject_Z 0). rewrite <- Zle_Qle. assumption.
  - intros a Ha. eexists. split; [reflexivity | ].
    change (@TOTAL_FLIGHTS_KINABALU Q Exact) with (inject_Z 13435 / inject_Z 8).
    unfold Qlt, Qminus, Qplus, Qdiv, Qmult, Qinv, Qopp, inject_Z. cbn [Qnum Qden].
    split; intros H; lia.
  - intros x y a q [= ->] Hy [= <-]. apply gt0_exact in Hy. split; intros Ha.
    + apply Qle_shift_div_r; [assumption | ]. rewrite Qmult_0_l. assumption.
    + apply Qle_shift_div_l; [assumption | ]. rewrite Qmult_0_l. assumption.
  - intros a n _ _. eexists. reflexivity.
Qed.

End Arithmetics.

(** ** Durations: [timedelta(days=x)] *)

Section Timedelta.

Context {F : Type} {N : Number F} {L : Rounding F}.

Local Open Scope Q_scope.

(** What [modf] splits off lies within one of zero, on the side of [q]. *)
Lemma fraction_range (q : Q) :
  - (1) < q - inject_Z (Qtruncate q) /\ q - inject_Z (Qtruncate q) < 1
  /\ (0 <= q -> 0 <= q - inject_Z (Qtruncate q))
  /\ (q <= 0 -> q - inject_Z (Qtruncate q) <= 0).
Proof.
  destruct (Qtruncate_towards_zero q) as [Hpos Hneg].
  set (t := inject_Z (Qtruncate q)) in *.
  assert (Hup : 0 <= q -> 0 <= q - t /\ q - t < 1).
  { intros Hq. destruct (Hpos Hq) as [H1 H2]. rewrite inject_Z_plus in H2. fold t in H2.
    split.
    - apply (Qplus_le_l _ _ t). setoid_replace (q - t + t) with q by ring.
      rewrite Qplus_0_l. exact H1.
    - apply (Qplus_lt_l _ _ t). setoid_replace (q - t + t) with q by ring.
      setoid_replace (1 + t) with (t + inject_Z 1) by ring. exact H2. }
  assert (Hdown : q <= 0 -> - (1) < q - t /\ q - t <= 0).
  { intros Hq. destruct (Hneg Hq) as [H1 H2].
    unfold Z.sub in H1. rewrite inject_Z_plus in H1. fold t in H1. split.
    - apply (Qplus_lt_l _ _ t). setoid_replace (q - t + t) with q by ring.
      setoid_replace (- (1) + t) with (t + inject_Z (-1)) by ring. exact H1.
    - apply (Qplus_le_l _ _ t). setoid_replace (q - t + t) with q by ring.
      rewrite Qplus_0_l. exact H2. }
  destruct (Qlt_le_dec q 0) as [Hq | Hq].
  - destruct (Hdown (Qlt_le_weak _ _ Hq)) as [H1 H2].
    split; [assumption | ]. split; [apply Qle_lt_trans with 0; [assumption | reflexivity] | ].
    split; [ | auto]. intros Hq'. exfalso. apply (Qlt_irrefl q).
    apply Qlt_le_trans with 0; assumption.
  - destruct (Hup Hq) as [H1 H2].
    split; [apply Qlt_le_trans with 0; [reflexivity | assumption] | ].
    split; [assumption | ]. split; [auto | ]. intros Hq'. apply Hdown. assumption.
Qed.

(** [timedelta(days=x)] returns for a day count within the calendar's
    span: between the floor of [x] and one more, in microseconds, and on
    the side of the whole days where [x] lies. *)
Lemma timedelta_returns (x : F) (q : Q) :
  value x = Returned q ->
  (- MAXORDINAL <= Qfloor q <= MAXORDINAL)%Z ->
  exists us,
    timedelta x = Returned us
    /\ (Qfloor q * US_PER_DAY <= us <= (Qfloor q + 1) * US_PER_DAY)%Z
    /\ (0 <= q -> (Qtruncate q * US_PER_DAY <= us)%Z)
    /\ (q <= 0 -> (us <= Qtruncate q * US_PER_DAY)%Z).
Proof.
  intros Hx Hrange. unfold timedelta, py_int. rewrite Hx. cbn [bind].
  destruct (fraction_value x q Hx) as (f & Hf & Hfeq).
  destruct (fraction_range q) as (Hlo & Hhi & Hpos & Hneg).
  rewrite <- Hfeq in Hlo, Hhi, Hpos, Hneg.
  destruct (day_fraction (fraction x) f Hf Hlo Hhi) as (y & Hy & Hypos & Hyneg).
  rewrite Hy. cbn [bind].
  set (r := round_half_even y).
  assert (Hrpos : 0 <= f -> (0 <= r <= US_PER_DAY)%Z).
  { intros H. destruct (Hypos H). apply round_half_even_between; assumption. }
  assert (Hrneg : f <= 0 -> (- US_PER_DAY <= r <= 0)%Z).
  { intros H. destruct (Hyneg H) as [H1 H2].
    apply round_half_even_between; [rewrite inject_Z_opp | ]; assumption. }
  assert (Hbounds : (Qfloor q * US_PER_DAY <= Qtruncate q * US_PER_DAY + r
                     <= (Qfloor q + 1) * US_PER_DAY)%Z).
  { destruct (Qlt_le_dec q 0) as [Hq | Hq].
    - assert (Hq' := Qlt_le_weak _ _ Hq).
      destruct (Hrneg (Hneg Hq')) as [Hr1 Hr2].
      rewrite (Qtruncate_nonpos q Hq') in *.
      assert (Hfl := Qfloor_le q). assert (Hce := Qle_ceiling q).
      assert (Hce' := Qceiling_lt q). assert (Hfl' := Qlt_floor q).
      assert (Hfc : (Qfloor q <= Qceiling q)%Z).
      { rewrite Zle_Qle. apply Qle_trans with q; assumption. }
      assert (Hcf : (Qceiling q - 1 < Qfloor q + 1)%Z).
      { rewrite Zlt_Qlt. apply Qlt_trans with q; assumption. }
      destruct (Z.eq_dec (Qfloor q) (Qceiling q)) as [Heq | Hne].
      + assert (H0 : 0 <= f).
        { rewrite Hfeq. apply (Qplus_le_l _ _ (inject_Z (Qceiling q))). ring_simplify.
          rewrite <- Heq. assumption. }
        destruct (Hrpos H0). unfold US_PER_DAY in *. lia.
      + unfold US_PER_DAY in *. lia.
    - destruct (Hrpos (Hpos Hq)) as [Hr1 Hr2].
      rewrite (Qtruncate_nonneg q Hq) in *. unfold US_PER_DAY in *. lia. }
  assert (Hdays : (Z.abs ((Qtruncate q * US_PER_DAY + r) / US_PER_DAY) <=? MAX_DELTA_DAYS)%Z
                  = true).
  { apply Z.leb_le. unfold MAX_DELTA_DAYS, MAXORDINAL, US_PER_DAY in *.
    Z.to_euclidean_division_equations. lia. }
  unfold microseconds_to_delta. rewrite Hdays.
  eexists. split; [reflexivity | ]. split; [exact Hbounds | ].
  split; intros Hq.
  - destruct (Hrpos (Hpos Hq)). lia.
  - destruct (Hrneg (Hneg Hq)). lia.
Qed.

End Timedelta.

(** ** The projection: [predict_completion_date] *)

Section Projection.

Context {F : Type} {N : Number F}.

(** No projection exactly on an empty collection or a daily average that
    is not positive. *)
Lemma predict_completion_date_none (data : DataFrame) (now : datetime) :
  predict_completion_date data now = Returned None
  <-> empty data = true \/ gt0 (dailyAvg data) = false.
Proof.
  unfold predict_completion_date.
  change (mean (map snd (groupby_sum cell_eqb (Date data) (Flights data))))
    with (dailyAvg data).
  destruct (empty data); cbn [negb].
  - split; auto.
  - destruct (gt0 (dailyAvg data)).
    + split.
      * destruct (timedelta _) as [delta | e]; cbn [bind]; [ | discriminate].
        destruct (datetime_add now delta) as [t | e]; cbn [bind]; [ | discriminate].
        destruct (py_int _) as [k | e]; cbn [bind]; discriminate.
      * intros [Habs | Habs]; discriminate.
    + split; auto.
Qed.

(** A projection that is returned, step by step. *)
Lemma predict_completion_date_steps (data : DataFrame) (now t : datetime) (q : Q) (us : Z) :
  empty data = false ->
  gt0 (dailyAvg data) = true ->
  value (quotient data) = Returned q ->
  timedelta (quotient data) = Returned us ->
  datetime_add now us = Returned t ->
  predict_completion_date data now = Returned (Some (strftime t, Qtruncate q)).
Proof.
  intros Hempty Hpos Hq Hdelta Hadd. unfold predict_completion_date.
  change (mean (map snd (groupby_sum cell_eqb (Date data) (Flights data))))
    with (dailyAvg data).
  rewrite Hempty, Hpos. cbn [negb].
  change (fdiv (fsub TOTAL_FLIGHTS_KINABALU (of_Z (sum (Flights data)))) (dailyAvg data))
    with (quotient data).
  rewrite Hdelta. cbn [bind]. rewrite Hadd. cbn [bind].
  unfold py_int. rewrite Hq. reflexivity.
Qed.

Lemma valid_datetime_range (now : datetime) :
  valid_datetime now = true ->
  1 <= ordinal now <= MAXORDINAL /\ 0 <= micro now < US_PER_DAY.
Proof.
  unfold valid_datetime. intros Hnow.
  repeat (apply andb_prop in Hnow; destruct Hnow as [Hnow ?]). lia.
Qed.

Lemma length_distinct_le {K : Type} (eqb : K -> K -> bool) (keys : list K) :
  (List.length (distinct eqb keys) <= List.length keys)%nat.
Proof.
  induction keys as [| k keys IH]; cbn [distinct List.length]; [lia | ].
  assert (Hfilter := filter_length_le (fun k' => negb (eqb k k')) (distinct eqb keys)). lia.
Qed.

Lemma distinct_dates_le_rows (data : DataFrame) :
  distinct_dates data <= Z.of_nat (List.length (rows data)).
Proof.
  unfold distinct_dates. assert (H := length_distinct_le cell_eqb (Date data)).
  unfold Date in H at 2. rewrite length_map in H. lia.
Qed.

Context {L : Rounding F}.

(** With a positive daily average and a quotient [q] whose date the
    calendar holds, the projection is the date of [now] plus the duration
    [timedelta] makes of the quotient, and the whole days of [q]. *)
Lemma predict_completion_date_returns (data : DataFrame) (now : datetime) (q : Q) :
  valid_datetime now = true ->
  empty data = false ->
  gt0 (dailyAvg data) = true ->
  value (quotient data) = Returned q ->
  1 <= ordinal now + Qfloor q ->
  ordinal now + Qfloor q + 1 <= MAXORDINAL ->
  exists us t,
    timedelta (quotient data) = Returned us
    /\ datetime_add now us = Returned t
    /\ predict_completion_date data now = Returned (Some (strftime t, Qtruncate q))
    /\ ordinal now + Qfloor q <= ordinal t <= ordinal now + Qfloor q + 1.
Proof.
  intros Hnow Hempty Hpos Hq Hlo Hhi.
  destruct (valid_datetime_range now Hnow) as [Hrange _].
  destruct (timedelta_returns (quotient data) q Hq) as (us & Hdelta & Hus & _);
    [unfold MAXORDINAL in *; lia | ].
  destruct (datetime_add_returns now us (Qfloor q) Hnow Hus Hlo Hhi) as (t & Hadd & Hday).
  exists us, t. split; [assumption | ]. split; [assumption | ]. split; [ | assumption].
  apply (predict_completion_date_steps data now t q us); assumption.
Qed.

(** The daily average is positive exactly when flights were climbed. *)
Lemma dailyAvg_sign (data : DataFrame) :
  empty data = false ->
  Z.abs (sum (Flights data)) < 2 ^ 53 ->
  Z.of_nat (List.length (rows data)) < 2 ^ 53 ->
  gt0 (dailyAvg data) = (0 <? sum (Flights data)).
Proof.
  intros Hempty Hsum Hrows. rewrite dailyAvg_quotient. apply mean_sign; [assumption | ].
  assert (H1 := distinct_dates_positive data Hempty).
  assert (H2 := distinct_dates_le_rows data). lia.
Qed.

(** With flights on record the quotient of the projection is a number,
    neither an infinity nor a NaN. *)
Lemma quotient_finite (data : DataFrame) :
  0 < sum (Flights data) < 2 ^ 53 ->
  Z.of_nat (List.length (rows data)) < 2 ^ 53 ->
  exists q, value (quotient data) = Returned q.
Proof.
  intros Hsum Hrows.
  assert (Hempty : empty data = false).
  { unfold empty, Flights in *. destruct (rows data); [cbn in Hsum; lia | reflexivity]. }
  unfold quotient. rewrite dailyAvg_quotient. apply projection_finite; [assumption | ].
  assert (H1 := distinct_dates_positive data Hempty).
  assert (H2 := distinct_dates_le_rows data). lia.
Qed.

End Projection.

(** Going back at most [k] days lands on today or on one of the [k] days
    before. *)
Lemma datetime_add_back (now : datetime) (us k : Z) :
  valid_datetime now = true ->
  k * US_PER_DAY <= us <= 0 ->
  1 <= ordinal now + k ->
  exists t, datetime_add now us = Returned t
            /\ ordinal now + k <= ordinal t <= ordinal now.
Proof.
  intros Hnow Hus Hlo.
  destruct (valid_datetime_range now Hnow) as [Hday Hmicro].
  unfold datetime_add.
  set (total := ordinal now * US_PER_DAY + micro now + us).
  assert (Hdiv : ordinal now + k <= total / US_PER_DAY <= ordinal now).
  { subst total. unfold US_PER_DAY in *. Z.to_euclidean_division_equations. lia. }
  assert (Hin : ((0 <? total / US_PER_DAY) && (total / US_PER_DAY <=? MAXORDINAL)) = true).
  { apply andb_true_intro. split; [apply Z.ltb_lt | apply Z.leb_le]; lia. }
  rewrite Hin. eexists. split; [reflexivity | ]. cbn [ordinal]. exact Hdiv.
Qed.

(** ** The claims about the projection *)

Section ProjectionClaims.

Local Open Scope string_scope.

(** C1, as the code has it. There is no projection exactly when the
    collection is empty or the daily average is not positive; the daily
    average is the sum of all flights over the number of distinct dates;
    otherwise, for a quotient [q = (target - total) / dailyAvg] whose
    date the calendar holds, the days returned are [q] cut to an integer,
    and the date returned is the date of [now] plus the duration that
    [timedelta] makes of [q], which lands on today plus the whole days of
    [q] or on the day after; and the quotient is such a number [q], never
    an infinity, whenever the flights sum to more than zero and that sum
    and the number of records are such as a float holds exactly. *)
Theorem predict_completion_date_spec (F : Type) (N : Number F) (L : Rounding F)
        (data : DataFrame) (now : datetime) :
  valid_datetime now = true ->
  (predict_completion_date data now = Returned None
   <-> empty data = true \/ gt0 (dailyAvg data) = false)
  /\ dailyAvg data = fdiv (of_Z (sum (Flights data))) (of_Z (distinct_dates data))
  /\ (forall q : Q,
       empty data = false ->
       gt0 (dailyAvg data) = true ->
       value (quotient data) = Returned q ->
       1 <= ordinal now + Qfloor q ->
       ordinal now + Qfloor q + 1 <= MAXORDINAL ->
       exists us t,
         timedelta (quotient data) = Returned us
         /\ datetime_add now us = Returned t
         /\ predict_completion_date data now = Returned (Some (strftime t, Qtruncate q))
         /\ ordinal now + Qfloor q <= ordinal t <= ordinal now + Qfloor q + 1)
  /\ (0 < sum (Flights data) < 2 ^ 53 ->
      Z.of_nat (List.length (rows data)) < 2 ^ 53 ->
      exists q : Q, value (quotient data) = Returned q).
Proof.
  intros Hnow. split; [apply predict_completion_date_none | ].
  split; [apply dailyAvg_quotient | ].
  split; [ | apply quotient_finite].
  intros q Hempty Hpos Hq Hlo Hhi.
  apply predict_completion_date_returns; assumption.
Qed.

(** In binary64: no projection on the empty collection; and 73 days with
    929 flights, projected at 00:52:07.233584, give 58 days and a duration
    of 5094472766416 microseconds, which ends on the stroke of midnight of
    2024-07-30. *)
Lemma predict_completion_date_spec_witness :
  @predict_completion_date spec_float Float64 new_frame june_1st = Returned None
  /\ @timedelta spec_float Float64 (quotient seventy_three_days) = Returned 5094472766416
  /\ @predict_completion_date spec_float Float64 seventy_three_days after_midnight
     = Returned (Some ("2024-07-30", 58))
  /\ exists us t,
       @timedelta spec_float Float64 (quotient seventy_three_days) = Returned us
       /\ datetime_add after_midnight us = Returned t
       /\ @predict_completion_date spec_float Float64 seventy_three_days after_midnight
          = Returned (Some (strftime t, Qtruncate (8298417843054827 # 140737488355328)))
       /\ ordinal after_midnight + Qfloor (8298417843054827 # 140737488355328) <= ordinal t
          <= ordinal after_midnight + Qfloor (8298417843054827 # 140737488355328) + 1.
Proof.
  split.
  - apply (predict_completion_date_spec spec_float Float64 Float64_rounding
                                        new_frame june_1st eq_refl).
    left. reflexivity.
  - split; [vm_compute; reflexivity | ]. split; [vm_compute; reflexivity | ].
    apply (predict_completion_date_spec spec_float Float64 Float64_rounding
                                        seventy_three_days after_midnight eq_refl);
      try reflexivity; vm_compute; discriminate.
Defined.

(** C1, as the claim has it, fails: with 100 flights on one day the
    quotient is 1579.375 / 100, and the days returned are 15; and with one
    flight in 2000 days on record the daily average is positive, the
    quotient is 3356750 days, and the call raises, the date being past the
    year 9999. *)
Lemma days_remaining_is_not_the_quotient :
  @predict_completion_date spec_float Float64 (one_day 100) june_1st
  = Returned (Some ("2024-06-17", 15))
  /\ value (@quotient spec_float Float64 (one_day 100))
     = Returned (8891090826847846 # 562949953421312)
  /\ (inject_Z 15 < 8891090826847846 # 562949953421312)%Q
  /\ @predict_completion_date Q Exact (one_day 100) june_1st
     = Returned (Some ("2024-06-17", 15))
  /\ (@quotient Q Exact (one_day 100) == 1579375 # 100000)%Q
  /\ @gt0 spec_float Float64 (dailyAvg idle_years) = true
  /\ @predict_completion_date spec_float Float64 idle_years june_1st
     = Raised OverflowError.
Proof. vm_compute. repeat split. Qed.

(** C10. The days returned are the quotient with its fraction dropped:
    rounded down when the quotient is positive, rounded up, to one more
    than the floor, when it is negative with a fraction. *)
Theorem days_remaining_truncates (F : Type) (N : Number F) (L : Rounding F)
        (data : DataFrame) (now : datetime) (q : Q) :
  valid_datetime now = true ->
  empty data = false ->
  gt0 (dailyAvg data) = true ->
  value (quotient data) = Returned q ->
  1 <= ordinal now + Qfloor q ->
  ordinal now + Qfloor q + 1 <= MAXORDINAL ->
  exists s k,
    predict_completion_date data now = Returned (Some (s, k))
    /\ k = Qtruncate q
    /\ ((0 <= q)%Q -> (inject_Z k <= q)%Q /\ (q < inject_Z (k + 1))%Q)
    /\ ((q <= 0)%Q -> (inject_Z (k - 1) < q)%Q /\ (q <= inject_Z k)%Q)
    /\ ((0 <= q)%Q -> k = Qfloor q)
    /\ ((q < 0)%Q -> ~ (q == inject_Z (Qfloor q))%Q -> k = Qfloor q + 1).
Proof.
  intros Hnow Hempty Hpos Hq Hlo Hhi.
  destruct (predict_completion_date_returns data now q Hnow Hempty Hpos Hq Hlo Hhi)
    as (us & t & _ & _ & Hreturns & _).
  exists (strftime t), (Qtruncate q).
  split; [assumption | ]. split; [reflexivity | ].
  split; [apply Qtruncate_towards_zero | ].
  split; [apply Qtruncate_towards_zero | ].
  split; [apply Qtruncate_nonneg | apply Qtruncate_not_floor].
Qed.

Lemma days_remaining_truncates_witness :
  Qtruncate (- 21 # 2) = -10
  /\ Qfloor (- 21 # 2) = -11
  /\ Qtruncate (19 # 10) = 1
  /\ @predict_completion_date Q Exact twelve_days june_1st
     = Returned (Some ("2024-05-22", -10))
  /\ (@quotient Q Exact twelve_days == - 21 # 2)%Q
  /\ @predict_completion_date spec_float Float64 twelve_days june_1st
     = Returned (Some ("2024-05-22", -10))
  /\ exists s k,
       @predict_completion_date Q Exact twelve_days june_1st = Returned (Some (s, k))
       /\ k = Qtruncate (@quotient Q Exact twelve_days)
       /\ ((0 <= @quotient Q Exact twelve_days)%Q ->
           (inject_Z k <= @quotient Q Exact twelve_days)%Q
           /\ (@quotient Q Exact twelve_days < inject_Z (k + 1))%Q)
       /\ ((@quotient Q Exact twelve_days <= 0)%Q ->
           (inject_Z (k - 1) < @quotient Q Exact twelve_days)%Q
           /\ (@quotient Q Exact twelve_days <= inject_Z k)%Q)
       /\ ((0 <= @quotient Q Exact twelve_days)%Q ->
           k = Qfloor (@quotient Q Exact twelve_days))
       /\ ((@quotient Q Exact twelve_days < 0)%Q ->
           ~ (@quotient Q Exact twelve_days
              == inject_Z (Qfloor (@quotient Q Exact twelve_days)))%Q ->
           k = Qfloor (@quotient Q Exact twelve_days) + 1).
Proof.
  do 5 (split; [reflexivity | ]). split; [vm_compute; reflexivity | ].
  apply (days_remaining_truncates Q Exact Exact_rounding twelve_days june_1st
                                  (@quotient Q Exact twelve_days));
    try reflexivity; vm_compute; discriminate.
Defined.

(** C4, as the code has it. Past the target, from 1680 flights on, the
    projection is still computed, with no clamping: the flights that
    remain are negative, the quotient is a number that is zero or
    negative, and unless the date projected falls before the year 1 the
    projection is returned: the days are the quotient cut towards zero, so
    zero or less, and the date is today or earlier; from a quotient of a
    day or more below zero the days are negative and the date is before
    today. The sum of the flights and the number of records are such as a
    float holds exactly. *)
Theorem predict_past_target (F : Type) (N : Number F) (L : Rounding F)
        (data : DataFrame) (now : datetime) :
  valid_datetime now = true ->
  1680 <= sum (Flights data) < 2 ^ 53 ->
  Z.of_nat (List.length (rows data)) < 2 ^ 53 ->
  exists remaining q : Q,
    value (fsub TOTAL_FLIGHTS_KINABALU (of_Z (sum (Flights data)))) = Returned remaining
    /\ (remaining < 0)%Q
    /\ value (quotient data) = Returned q
    /\ (q <= 0)%Q
    /\ (1 <= ordinal now + Qfloor q ->
        exists t,
          predict_completion_date data now = Returned (Some (strftime t, Qtruncate q))
          /\ Qtruncate q <= 0
          /\ ordinal t <= ordinal now
          /\ ((q <= - (1))%Q -> Qtruncate q < 0 /\ ordinal t < ordinal now)).
Proof.
  intros Hnow Htotal Hrows.
  assert (Hempty : empty data = false).
  { unfold empty, Flights in *. destruct (rows data); [cbn in Htotal; lia | reflexivity]. }
  assert (Hpos : gt0 (dailyAvg data) = true).
  { rewrite dailyAvg_sign by (assumption || lia). apply Z.ltb_lt. lia. }
  destruct (remaining_sign (sum (Flights data))) as (r & Hr & _ & Hneg); [lia | ].
  specialize (Hneg ltac:(lia)).
  destruct (quotient_finite data) as (q & Hq); [lia | assumption | ].
  assert (Hq0 : (q <= 0)%Q).
  { apply (quotient_sign _ _ r q Hr Hpos Hq). apply Qlt_le_weak. assumption. }
  exists r, q. do 4 (split; [assumption | ]). intros Hlo.
  destruct (valid_datetime_range now Hnow) as [Hrange _].
  assert (Hfloor : Qfloor q <= 0).
  { rewrite Zle_Qle. apply Qle_trans with q; [apply Qfloor_le | assumption]. }
  destruct (timedelta_returns (quotient data) q Hq) as (us & Hdelta & Hus & _ & Hback);
    [unfold MAXORDINAL in *; lia | ].
  specialize (Hback Hq0).
  assert (Hcut := proj2 (Qtruncate_towards_zero q) Hq0). destruct Hcut as [Hcut _].
  assert (Hk : Qtruncate q <= 0).
  { assert (Qtruncate q - 1 < 0); [ | lia].
    rewrite Zlt_Qlt. apply Qlt_le_trans with q; assumption. }
  destruct (datetime_add_back now us (Qfloor q) Hnow) as (t & Hadd & Hday);
    [unfold US_PER_DAY in *; lia | assumption | ].
  exists t.
  split; [apply (predict_completion_date_steps data now t q us); assumption | ].
  split; [assumption | ]. split; [lia | ].
  intros Hday_or_more.
  assert (Hk' : Qtruncate q < 0).
  { assert (Qtruncate q - 1 < -1); [ | lia].
    rewrite Zlt_Qlt. apply Qlt_le_trans with q; assumption. }
  split; [assumption | ].
  apply (datetime_add_earlier now t us); [assumption | | assumption].
  unfold US_PER_DAY in *. lia.
Qed.

(** In binary64, at noon of 2024-06-01: twelve days with 13435 flights
    give the quotient -10.5, so 10 days back, on 2024-05-22; and 104 days
    with 13435 flights give -90.99999999999999, which is 90 days, where the
    exact quotient is -91. *)
Lemma predict_past_target_witness :
  @predict_completion_date spec_float Float64 twelve_days june_1st
  = Returned (Some ("2024-05-22", -10))
  /\ value (@quotient spec_float Float64 twelve_days)
     = Returned (- 5910974510923776 # 562949953421312)
  /\ (- 5910974510923776 # 562949953421312 == - 21 # 2)%Q
  /\ 1 <= ordinal june_1st + Qfloor (- 5910974510923776 # 562949953421312)
  /\ @predict_completion_date spec_float Float64 hundred_and_four_days june_1st
     = Returned (Some ("2024-03-02", -90))
  /\ (@quotient Q Exact hundred_and_four_days == - (91))%Q
  /\ exists remaining q : Q,
       value (fsub (@TOTAL_FLIGHTS_KINABALU spec_float Float64)
                   (of_Z (sum (Flights twelve_days)))) = Returned remaining
       /\ (remaining < 0)%Q
       /\ value (@quotient spec_float Float64 twelve_days) = Returned q
       /\ (q <= 0)%Q
       /\ (1 <= ordinal june_1st + Qfloor q ->
           exists t,
             @predict_completion_date spec_float Float64 twelve_days june_1st
             = Returned (Some (strftime t, Qtruncate q))
             /\ Qtruncate q <= 0
             /\ ordinal t <= ordinal june_1st
             /\ ((q <= - (1))%Q -> Qtruncate q < 0 /\ ordinal t < ordinal june_1st)).
Proof.
  split; [vm_compute; reflexivity | ]. split; [vm_compute; reflexivity | ].
  split; [reflexivity | ]. split; [vm_compute; discriminate | ].
  split; [vm_compute; reflexivity | ]. split; [reflexivity | ].
  apply (predict_past_target spec_float Float64 Float64_rounding twelve_days june_1st).
  - reflexivity.
  - vm_compute. split; congruence.
  - reflexivity.
Defined.

(** C4, as the claim has it, fails: with 2000 flights on one day, past
    the target of 1679.375, the days returned are 0, which is not
    negative, and the date returned is today's. *)
Lemma days_remaining_zero_past_target :
  SFltb (@TOTAL_FLIGHTS_KINABALU spec_float Float64)
        (of_Z (sum (Flights (one_day 2000)))) = true
  /\ @predict_completion_date spec_float Float64 (one_day 2000) june_1st
     = Returned (Some ("2024-06-01", 0))
  /\ strftime june_1st = "2024-06-01"
  /\ @predict_completion_date Q Exact (one_day 2000) june_1st
     = Returned (Some ("2024-06-01", 0)).
Proof. vm_compute. repeat split. Qed.

End ProjectionClaims.

(** * Further properties *)

(** ** More on [Add Entry] *)

Section AddEntry.

Local Open Scope string_scope.

Lemma well_formed_intro (data : DataFrame) :
  forallb is_record_cell (Date data) = true -> others data = [] ->
  well_formed data = true.
Proof. intros Hcells Hothers. unfold well_formed. rewrite Hcells, Hothers. reflexivity. Qed.

(** The two outcomes of [Add Entry] on a record collection. *)
Lemma add_entry_cases (data : DataFrame) (fs : files) (picked : date) (flights : Z) :
  well_formed data = true -> record_date picked = true ->
  let data' := mkframe (rows data ++ [(PyDate picked, flights)]) [] in
  add_entry data fs picked flights
  = if existsb (String.eqb (strftime_Ymd picked)) (map astype_str (Date data))
    then Returned (data, fs, warning "You've already added data for today.")
    else Returned (data', write fs DATA_FILE (to_csv data'), success "Entry added!").
Proof.
  intros Hwf Hpicked data'. destruct (record_date_valid picked Hpicked) as [Hv Hb].
  destruct (well_formed_cells data Hwf) as [Hcells Hothers].
  unfold add_entry.
  destruct (existsb (String.eqb (strftime_Ymd picked)) (map astype_str (Date data)));
    [reflexivity | ].
  unfold save_data, concat. cbn [rows others].
  unfold Date at 1. cbn [rows]. rewrite map_app. cbn [map fst].
  unfold to_datetime.
  rewrite (traverse_app _ _ _ (map stamp_date (Date data)) [picked]).
  - cbn [bind fst snd].
    match goal with
    | |- context [set_Date ?fr ?col] => assert (Hset : set_Date fr col = data')
    end.
    { unfold set_Date, dt_date, Flights. cbn [rows others].
      rewrite !map_app. cbn [map snd].
      rewrite record_cells_dates by assumption.
      rewrite combine_append by (unfold Date; rewrite !length_map; reflexivity).
      unfold Date. rewrite combine_fst_snd. rewrite Hothers. reflexivity. }
    rewrite Hset. reflexivity.
  - apply to_datetime_record_cells. assumption.
  - cbn [traverse to_datetime1]. unfold strftime_Ymd.
    rewrite parse_timestamp_isoformat by assumption. reflexivity.
Qed.

Lemma well_formed_append (data : DataFrame) (picked : date) (flights : Z) :
  well_formed data = true -> record_date picked = true ->
  well_formed (mkframe (rows data ++ [(PyDate picked, flights)]) []) = true.
Proof.
  intros Hwf Hpicked. destruct (well_formed_cells data Hwf) as [Hcells _].
  apply well_formed_intro; [ | reflexivity].
  unfold Date in *. cbn [rows]. rewrite map_app, forallb_app, Hcells.
  cbn. rewrite Hpicked. reflexivity.
Qed.

Lemma date_off_record (data : DataFrame) (picked : date) :
  well_formed data = true -> record_date picked = true ->
  existsb (String.eqb (strftime_Ymd picked)) (map astype_str (Date data)) = false ->
  ~ In (PyDate picked) (Date data).
Proof.
  intros Hwf Hpicked Hfound Hin.
  unfold Date in Hin. apply in_map_iff in Hin. destruct Hin as ([c f] & Hc & Hin).
  cbn [fst] in Hc. subst c.
  assert (Hon : existsb (String.eqb (strftime_Ymd picked)) (map astype_str (Date data))
                = true).
  { apply (date_on_record data picked Hwf Hpicked). exists f. assumption. }
  congruence.
Qed.

(** [Add Entry] keeps the rule of one record per date: on a record
    collection whose dates are pairwise distinct it returns, refused or
    not, a record collection whose dates are pairwise distinct. *)
Theorem add_entry_keeps_dates_distinct
        (data : DataFrame) (fs : files) (picked : date) (flights : Z) :
  well_formed data = true -> record_date picked = true ->
  NoDup (Date data) ->
  exists data' fs' shown,
    add_entry data fs picked flights = Returned (data', fs', shown)
    /\ well_formed data' = true
    /\ NoDup (Date data').
Proof.
  intros Hwf Hpicked Hnodup.
  rewrite (add_entry_cases data fs picked flights Hwf Hpicked).
  destruct (existsb (String.eqb (strftime_Ymd picked)) (map astype_str (Date data)))
    eqn:Hfound.
  - do 3 eexists. split; [reflexivity | ]. split; assumption.
  - do 3 eexists. split; [reflexivity | ].
    split; [apply well_formed_append; assumption | ].
    unfold Date. cbn [rows]. rewrite map_app. cbn [map fst].
    apply NoDup_app; [exact Hnodup | repeat constructor; intros [] | ].
    intros c Hc [<- | []].
    exact (date_off_record data picked Hwf Hpicked Hfound Hc).
Qed.

Lemma add_entry_keeps_dates_distinct_witness :
  exists data' fs' shown,
    add_entry stored_week no_files (mkdate 2024 1 8) 6 = Returned (data', fs', shown)
    /\ well_formed data' = true
    /\ NoDup (Date data').
Proof.
  apply (add_entry_keeps_dates_distinct stored_week no_files (mkdate 2024 1 8) 6);
    try reflexivity.
  repeat (constructor; [cbn; intuition discriminate | ]). constructor.
Defined.

(** An entry that was added is on disk as it is in memory, counts its
    flights once in the total, and bars a second entry for its date. *)
Theorem add_entry_then_again
        (data : DataFrame) (fs : files) (picked : date) (flights again : Z) :
  well_formed data = true -> record_date picked = true ->
  (forall f, ~ In (PyDate picked, f) (rows data)) ->
  exists data' fs',
    add_entry data fs picked flights = Returned (data', fs', success "Entry added!")
    /\ load_data fs' = Returned data'
    /\ total_flights data' = total_flights data + flights
    /\ add_entry data' fs' picked again
       = Returned (data', fs', warning "You've already added data for today.").
Proof.
  intros Hwf Hpicked Hoff.
  assert (Hwf' := well_formed_append data picked flights Hwf Hpicked).
  rewrite (add_entry_cases data fs picked flights Hwf Hpicked).
  destruct (existsb (String.eqb (strftime_Ymd picked)) (map astype_str (Date data)))
    eqn:Hfound.
  - apply (date_on_record data picked Hwf Hpicked) in Hfound.
    destruct Hfound as (f & Hin). elim (Hoff f Hin).
  - do 2 eexists. split; [reflexivity | ].
    split; [apply load_data_written; assumption | ].
    split.
    + unfold total_flights, Flights. cbn [rows]. rewrite map_app.
      cbn [map snd]. clear. induction (map snd (rows data)) as [| x l IH].
      * cbn. lia.
      * rewrite <- app_comm_cons, !sum_cons, IH. lia.
    + rewrite (add_entry_cases _ _ picked again Hwf' Hpicked).
      assert (Hon : existsb (String.eqb (strftime_Ymd picked))
                            (map astype_str
                                 (Date (mkframe (rows data ++ [(PyDate picked, flights)]) [])))
                    = true).
      { apply (date_on_record _ picked Hwf' Hpicked). exists flights.
        cbn [rows]. apply in_or_app. right. left. reflexivity. }
      rewrite Hon. reflexivity.
Qed.

Lemma add_entry_then_again_witness :
  exists data' fs',
    add_entry stored_week no_files (mkdate 2024 1 8) 6
    = Returned (data', fs', success "Entry added!")
    /\ load_data fs' = Returned data'
    /\ total_flights data' = total_flights stored_week + 6
    /\ add_entry data' fs' (mkdate 2024 1 8) 11
       = Returned (data', fs', warning "You've already added data for today.").
Proof.
  apply (add_entry_then_again stored_week no_files (mkdate 2024 1 8) 6 11);
    try reflexivity.
  intros f Hin. cbn in Hin. intuition discriminate.
Defined.

End AddEntry.

(** ** Edit and Delete: [modify_data] *)

Section ModifyData.

Local Open Scope string_scope.

(** On record dates the comparison of dates as text is the comparison of
    the dates. *)
Lemma is_date_record_cells (c c' : cell) :
  is_record_cell c = true -> is_record_cell c' = true ->
  is_date (astype_str c) c' = cell_eqb c' c.
Proof.
  intros Hc Hc'.
  destruct (record_cell_inv c Hc) as (d & -> & Hv & _).
  destruct (record_cell_inv c' Hc') as (d' & -> & Hv' & _).
  unfold is_date. cbn [astype_str cell_eqb].
  destruct (date_eqb d' d) eqn:E.
  - apply date_eqb_eq in E. subst d'. apply String.eqb_refl.
  - apply String.eqb_neq. intros Heq.
    apply isoformat_inj in Heq; [ | assumption | assumption]. subst d'.
    assert (Hrefl : date_eqb d d = true) by (apply date_eqb_eq; reflexivity).
    congruence.
Qed.

(** The select box returns the text of the date at the chosen row. *)
Lemma selectbox_date (data : DataFrame) (choice : nat) (c : cell) :
  nth_error (Date data) choice = Some c ->
  selectbox (map astype_str (Date data)) choice = astype_str c.
Proof.
  intros Hnth. unfold selectbox.
  rewrite (nth_error_nth (map astype_str (Date data)) choice EmptyString
                         (x := astype_str c)); [reflexivity | ].
  rewrite nth_error_map, Hnth. reflexivity.
Qed.

Lemma chosen_record_cell (data : DataFrame) (choice : nat) (c : cell) :
  well_formed data = true -> nth_error (Date data) choice = Some c ->
  is_record_cell c = true.
Proof.
  intros Hwf Hnth. destruct (well_formed_cells data Hwf) as [Hcells _].
  rewrite forallb_forall in Hcells. apply Hcells.
  apply nth_error_In with choice. assumption.
Qed.

Lemma not_empty_chosen (data : DataFrame) (choice : nat) (c : cell) :
  nth_error (Date data) choice = Some c -> empty data = false.
Proof.
  unfold Date, empty. destruct (rows data); [ | reflexivity].
  destruct choice; discriminate.
Qed.

Lemma frame_filter_records (keep : cell * Z -> bool) (data : DataFrame) :
  well_formed data = true ->
  frame_filter keep data = mkframe (filter keep (rows data)) []
  /\ well_formed (mkframe (filter keep (rows data)) []) = true.
Proof.
  intros Hwf. destruct (well_formed_cells data Hwf) as [Hcells Hothers].
  split.
  - unfold frame_filter. rewrite Hothers. reflexivity.
  - apply well_formed_intro; [ | reflexivity].
    unfold Date in *. cbn [rows]. rewrite forallb_forall in *.
    intros x Hx. apply Hcells. apply in_map_iff in Hx.
    destruct Hx as (r & <- & Hr). apply filter_In in Hr.
    apply in_map. tauto.
Qed.

Lemma loc_set_records (c : cell) (v : Z) (data : DataFrame) :
  well_formed data = true ->
  let data' := mkframe (map (fun r => if cell_eqb (fst r) c then (c, v) else r)
                            (rows data)) [] in
  Date data' = Date data /\ well_formed data' = true.
Proof.
  intros Hwf data'. destruct (well_formed_cells data Hwf) as [Hcells Hothers].
  assert (Hdates : Date data' = Date data).
  { unfold data', Date. cbn [rows]. rewrite map_map. apply map_ext. intros [c' z].
    cbn [fst]. destruct (cell_eqb c' c) eqn:E; [ | reflexivity].
    apply cell_eqb_eq in E. subst c'. reflexivity. }
  split; [assumption | ].
  apply well_formed_intro; [rewrite Hdates; assumption | reflexivity].
Qed.

(** What the two buttons do to a record collection, the date of row
    [choice] selected. *)
Lemma modify_data_delete (data : DataFrame) (fs : files) (choice : nat)
      (new_flights : Z) (c : cell) :
  well_formed data = true -> nth_error (Date data) choice = Some c ->
  let data' := mkframe (filter (fun r => negb (cell_eqb (fst r) c)) (rows data)) [] in
  modify_data data fs choice false new_flights true
  = Returned (data', write fs DATA_FILE (to_csv data'))
  /\ well_formed data' = true.
Proof.
  intros Hwf Hnth data'.
  assert (Hc := chosen_record_cell data choice c Hwf Hnth).
  destruct (well_formed_cells data Hwf) as [Hcells Hothers].
  unfold modify_data.
  rewrite (not_empty_chosen data choice c Hnth). cbn [negb].
  rewrite (selectbox_date data choice c Hnth).
  destruct (record_cell_inv c Hc) as (d & Hcd & _).
  assert (Hnb : nonblank (astype_str c) = true) by (rewrite Hcd; reflexivity).
  rewrite Hnb. cbn [bind fst snd].
  destruct (frame_filter_records (fun r => negb (is_date (astype_str c) (fst r))) data Hwf)
    as [Hfilter _].
  rewrite Hfilter.
  assert (Hsame : filter (fun r => negb (is_date (astype_str c) (fst r))) (rows data)
                  = filter (fun r => negb (cell_eqb (fst r) c)) (rows data)).
  { apply filter_ext_in. intros r Hr. f_equal.
    apply is_date_record_cells; [assumption | ].
    rewrite forallb_forall in Hcells. apply Hcells. unfold Date. apply in_map. assumption. }
  rewrite Hsame.
  destruct (frame_filter_records (fun r => negb (cell_eqb (fst r) c)) data Hwf)
    as [_ Hwf'].
  split; [apply save_data_well_formed; assumption | assumption].
Qed.

Lemma modify_data_edit (data : DataFrame) (fs : files) (choice : nat)
      (new_flights : Z) (c : cell) :
  well_formed data = true -> nth_error (Date data) choice = Some c ->
  let data' := mkframe (map (fun r => if cell_eqb (fst r) c then (c, new_flights) else r)
                            (rows data)) [] in
  modify_data data fs choice true new_flights false
  = Returned (data', write fs DATA_FILE (to_csv data')).
Proof.
  intros Hwf Hnth data'.
  assert (Hc := chosen_record_cell data choice c Hwf Hnth).
  destruct (well_formed_cells data Hwf) as [Hcells Hothers].
  unfold modify_data.
  rewrite (not_empty_chosen data choice c Hnth). cbn [negb].
  rewrite (selectbox_date data choice c Hnth).
  destruct (record_cell_inv c Hc) as (d & Hcd & _).
  assert (Hnb : nonblank (astype_str c) = true) by (rewrite Hcd; reflexivity).
  rewrite Hnb.
  assert (Hset : loc_set_Flights (is_date (astype_str c)) new_flights data = data').
  { unfold loc_set_Flights. rewrite Hothers. unfold data'. f_equal.
    apply map_ext_in. intros [c' z] Hr. cbn [fst].
    rewrite is_date_record_cells.
    - destruct (cell_eqb c' c) eqn:E; [ | reflexivity].
      apply cell_eqb_eq in E. subst c'. reflexivity.
    - assumption.
    - rewrite forallb_forall in Hcells. apply Hcells.
      unfold Date. apply in_map_iff. exists (c', z). auto. }
  rewrite Hset.
  rewrite save_data_well_formed by (apply (loc_set_records c new_flights data Hwf)).
  reflexivity.
Qed.

Lemma value_of_distinct_key {K V : Type} (l : list (K * V)) (k : K) (v v' : V) :
  NoDup (map fst l) -> In (k, v) l -> In (k, v') l -> v = v'.
Proof.
  induction l as [| [k0 v0] l IH]; cbn [map fst In]; intros Hnd Hv Hv'; [contradiction | ].
  inversion Hnd as [| ? ? Hnotin Hnd']; subst.
  destruct Hv as [Hv | Hv]; destruct Hv' as [Hv' | Hv'].
  - congruence.
  - assert (k0 = k) by congruence. subst k0.
    elim Hnotin. apply in_map_iff. exists (k, v'). auto.
  - assert (k0 = k) by congruence. subst k0.
    elim Hnotin. apply in_map_iff. exists (k, v). auto.
  - apply IH; assumption.
Qed.

Lemma replace_absent (c : cell) (v : Z) (l : list (cell * Z)) :
  ~ In c (map fst l) ->
  map (fun r => if cell_eqb (fst r) c then (c, v) else r) l = l.
Proof.
  intros Hnotin. rewrite <- (map_id l) at 2. apply map_ext_in.
  intros [c' z] Hin. cbn [fst]. destruct (cell_eqb c' c) eqn:E; [ | reflexivity].
  apply cell_eqb_eq in E. subst c'. elim Hnotin.
  apply in_map_iff. exists (c, z). auto.
Qed.

Lemma sum_replace (c : cell) (old v : Z) (l : list (cell * Z)) :
  NoDup (map fst l) -> In (c, old) l ->
  sum (map snd (map (fun r => if cell_eqb (fst r) c then (c, v) else r) l))
  = sum (map snd l) - old + v.
Proof.
  induction l as [| [c0 z0] l IH]; intros Hnd Hin; [contradiction | ].
  inversion Hnd as [| ? ? Hnotin Hnd']; subst.
  cbn [map fst snd]. rewrite !sum_cons.
  destruct (cell_eqb c0 c) eqn:E.
  - apply cell_eqb_eq in E. subst c0.
    assert (Hz : z0 = old).
    { apply (value_of_distinct_key ((c, z0) :: l) c z0 old Hnd); [left; reflexivity | assumption]. }
    subst z0. rewrite replace_absent by assumption. cbn [snd]. lia.
  - destruct Hin as [Hin | Hin].
    + injection Hin as -> ->.
      assert (Hrefl : cell_eqb c c = true) by (apply cell_eqb_eq; reflexivity). congruence.
    + cbn [snd]. rewrite (IH Hnd' Hin). lia.
Qed.

Lemma filter_absent (c : cell) (l : list (cell * Z)) :
  ~ In c (map fst l) -> filter (fun r => cell_eqb (fst r) c) l = [].
Proof.
  induction l as [| [c0 z0] l IH]; intros Hnotin; [reflexivity | ].
  cbn [filter fst]. destruct (cell_eqb c0 c) eqn:E.
  - apply cell_eqb_eq in E. subst c0. elim Hnotin. left. reflexivity.
  - apply IH. intros Hc. apply Hnotin. right. assumption.
Qed.

Lemma filter_distinct_key (c : cell) (old : Z) (l : list (cell * Z)) :
  NoDup (map fst l) -> In (c, old) l ->
  filter (fun r => cell_eqb (fst r) c) l = [(c, old)].
Proof.
  induction l as [| [c0 z0] l IH]; intros Hnd Hin; [contradiction | ].
  inversion Hnd as [| ? ? Hnotin Hnd']; subst.
  cbn [filter fst].
  destruct (cell_eqb c0 c) eqn:E.
  - apply cell_eqb_eq in E. subst c0.
    assert (Hz : z0 = old).
    { apply (value_of_distinct_key ((c, z0) :: l) c z0 old Hnd);
        [left; reflexivity | assumption]. }
    subst z0. rewrite filter_absent by assumption. reflexivity.
  - destruct Hin as [Hin | Hin].
    + injection Hin as -> ->.
      assert (Hrefl : cell_eqb c c = true) by (apply cell_eqb_eq; reflexivity). congruence.
    + apply IH; assumption.
Qed.

Lemma chosen_row_date (data : DataFrame) (choice : nat) (c : cell) (old : Z) :
  nth_error (rows data) choice = Some (c, old) ->
  nth_error (Date data) choice = Some c /\ In (c, old) (rows data).
Proof.
  intros Hnth. split.
  - unfold Date. rewrite nth_error_map, Hnth. reflexivity.
  - apply nth_error_In with choice. assumption.
Qed.

(** [Delete Data] removes the records of the selected date and no other,
    keeps the rest in their order and saves them: the date is off the
    record, the table on disk loads as the collection returned, and the
    date can be entered again. *)
Theorem delete_removes_the_date (data : DataFrame) (fs : files) (choice : nat)
        (new_flights : Z) (d : date) :
  well_formed data = true ->
  nth_error (Date data) choice = Some (PyDate d) ->
  exists data' fs',
    modify_data data fs choice false new_flights true = Returned (data', fs')
    /\ rows data' = filter (fun r => negb (cell_eqb (fst r) (PyDate d))) (rows data)
    /\ ~ In (PyDate d) (Date data')
    /\ load_data fs' = Returned data'
    /\ forall flights,
         exists fs'',
           add_entry data' fs' d flights
           = Returned (mkframe (rows data' ++ [(PyDate d, flights)]) [], fs'',
                       success "Entry added!").
Proof.
  intros Hwf Hnth.
  destruct (modify_data_delete data fs choice new_flights (PyDate d) Hwf Hnth)
    as [Hdel Hwf'].
  assert (Hd : record_date d = true)
    by exact (chosen_record_cell data choice (PyDate d) Hwf Hnth).
  do 2 eexists. split; [exact Hdel | ]. cbn [rows].
  split; [reflexivity | ].
  assert (Hoff : ~ In (PyDate d)
                   (Date (mkframe (filter (fun r => negb (cell_eqb (fst r) (PyDate d)))
                                          (rows data)) []))).
  { unfold Date. cbn [rows]. intros Hin. apply in_map_iff in Hin.
    destruct Hin as ([c z] & Hc & Hin). cbn [fst] in Hc. subst c.
    apply filter_In in Hin. destruct Hin as [_ Hne]. cbn [fst] in Hne.
    assert (Hrefl : cell_eqb (PyDate d) (PyDate d) = true)
      by (apply cell_eqb_eq; reflexivity).
    rewrite Hrefl in Hne. discriminate. }
  split; [exact Hoff | ].
  split; [apply load_data_written; assumption | ].
  intros flights. eexists.
  rewrite (add_entry_cases _ _ d flights Hwf' Hd).
  destruct (existsb (String.eqb (strftime_Ymd d)) _) eqn:Hfound; [ | reflexivity].
  apply (date_on_record _ d Hwf' Hd) in Hfound. destruct Hfound as (f & Hin).
  elim Hoff. unfold Date. apply in_map_iff. exists (PyDate d, f). auto.
Qed.

Lemma delete_removes_the_date_witness :
  exists data' fs',
    modify_data stored_week no_files 2 false 0 true = Returned (data', fs')
    /\ rows data'
       = filter (fun r => negb (cell_eqb (fst r) (PyDate (mkdate 2024 1 3))))
                (rows stored_week)
    /\ ~ In (PyDate (mkdate 2024 1 3)) (Date data')
    /\ load_data fs' = Returned data'
    /\ forall flights,
         exists fs'',
           add_entry data' fs' (mkdate 2024 1 3) flights
           = Returned (mkframe (rows data' ++ [(PyDate (mkdate 2024 1 3), flights)]) [],
                       fs'', success "Entry added!").
Proof.
  apply (delete_removes_the_date stored_week no_files 2 0 (mkdate 2024 1 3));
    reflexivity.
Defined.

(** [Edit Data] sets the flights of the selected date to the number
    entered, leaves every date and every other record as it was, and saves
    the table; where the dates are pairwise distinct, the total moves by
    the difference between the new and the old count. *)
Theorem edit_sets_the_flights (data : DataFrame) (fs : files) (choice : nat)
        (new_flights old : Z) (c : cell) :
  well_formed data = true ->
  nth_error (rows data) choice = Some (c, old) ->
  exists data' fs',
    modify_data data fs choice true new_flights false = Returned (data', fs')
    /\ rows data'
       = map (fun r => if cell_eqb (fst r) c then (c, new_flights) else r) (rows data)
    /\ Date data' = Date data
    /\ load_data fs' = Returned data'
    /\ (NoDup (Date data) ->
        total_flights data' = total_flights data - old + new_flights).
Proof.
  intros Hwf Hrow. destruct (chosen_row_date data choice c old Hrow) as [Hnth Hin].
  destruct (loc_set_records c new_flights data Hwf) as [Hdates Hwf'].
  do 2 eexists.
  split; [exact (modify_data_edit data fs choice new_flights c Hwf Hnth) | ].
  cbn [rows]. split; [reflexivity | ].
  split; [exact Hdates | ].
  split; [apply load_data_written; assumption | ].
  intros Hnodup. unfold total_flights, Flights. cbn [rows].
  apply sum_replace; assumption.
Qed.

Lemma edit_sets_the_flights_witness :
  exists data' fs',
    modify_data stored_week no_files 2 true 9 false = Returned (data', fs')
    /\ rows data'
       = map (fun r => if cell_eqb (fst r) (PyDate (mkdate 2024 1 3))
                       then (PyDate (mkdate 2024 1 3), 9) else r) (rows stored_week)
    /\ Date data' = Date stored_week
    /\ load_data fs' = Returned data'
    /\ (NoDup (Date stored_week) ->
        total_flights data' = total_flights stored_week - 5 + 9).
Proof.
  apply (edit_sets_the_flights stored_week no_files 2 9 5 (PyDate (mkdate 2024 1 3)));
    reflexivity.
Defined.

(** The number input of [Edit Data] starts at the flights on record for
    the selected date; entered back unchanged, on a collection with one
    record per date, the edit leaves the collection as it is and saves
    it. *)
Theorem edit_with_the_default (data : DataFrame) (fs : files) (choice : nat)
        (old : Z) (c : cell) :
  well_formed data = true ->
  NoDup (Date data) ->
  nth_error (rows data) choice = Some (c, old) ->
  current_flights data
                  (selectbox (map astype_str (Date data)) choice) = old
  /\ modify_data data fs choice true old false
     = Returned (data, write fs DATA_FILE (to_csv data)).
Proof.
  intros Hwf Hnodup Hrow.
  destruct (chosen_row_date data choice c old Hrow) as [Hnth Hin].
  destruct (well_formed_cells data Hwf) as [Hcells Hothers].
  assert (Hc := chosen_record_cell data choice c Hwf Hnth).
  split.
  - rewrite (selectbox_date data choice c Hnth). unfold current_flights.
    destruct (frame_filter_records (fun r => is_date (astype_str c) (fst r)) data Hwf)
      as [Hfilter _].
    rewrite Hfilter. unfold Flights. cbn [rows].
    rewrite (filter_ext_in (fun r => is_date (astype_str c) (fst r))
                           (fun r => cell_eqb (fst r) c)).
    + rewrite (filter_distinct_key c old) by assumption. reflexivity.
    + intros r Hr. apply is_date_record_cells; [assumption | ].
      rewrite forallb_forall in Hcells. apply Hcells. unfold Date. apply in_map. assumption.
  - rewrite (modify_data_edit data fs choice old c Hwf Hnth).
    assert (Hsame : map (fun r => if cell_eqb (fst r) c then (c, old) else r) (rows data)
                    = rows data).
    { rewrite <- (map_id (rows data)) at 2. apply map_ext_in.
      intros [c' z] Hr. cbn [fst]. destruct (cell_eqb c' c) eqn:E; [ | reflexivity].
      apply cell_eqb_eq in E. subst c'. f_equal.
      exact (value_of_distinct_key (rows data) c old z Hnodup Hin Hr). }
    rewrite Hsame. rewrite <- Hothers. destruct data; reflexivity.
Qed.

Lemma edit_with_the_default_witness :
  current_flights stored_week
                  (selectbox (map astype_str (Date stored_week)) 3) = 3
  /\ modify_data stored_week no_files 3 true 3 false
     = Returned (stored_week, write no_files DATA_FILE (to_csv stored_week)).
Proof.
  apply (edit_with_the_default stored_week no_files 3 3 (PyDate (mkdate 2024 1 4)));
    try reflexivity.
  repeat (constructor; [cbn; intuition discriminate | ]). constructor.
Defined.

End ModifyData.

(** ** More on the averages *)

Section MoreAverages.

Local Open Scope string_scope.

Lemma lookup_assign_known (name : string) (col : list Z) (cols : list (string * list Z)) :
  lookup name cols = Some col -> assign name col cols = cols.
Proof.
  induction cols as [| [n c] cols IH]; cbn [lookup assign]; [discriminate | ].
  destruct (String.eqb n name); [intros [= ->]; reflexivity | ].
  intros Hl. rewrite (IH Hl). reflexivity.
Qed.

(** A second call of [calculate_averages] on the frame the first call
    left leaves that frame again and ends as the first did, with the same
    averages or the same exception: the columns [Week] and [Month] are
    assigned over, not added once more. *)
Theorem calculate_averages_again (F : Type) (N : Number F)
        (data data' : DataFrame) (result : outcome (F * F * F)) :
  calculate_averages data = (data', result) ->
  calculate_averages data' = (data', result).
Proof.
  intros Hfirst. destruct (empty data) eqn:Hempty.
  - unfold calculate_averages in Hfirst. rewrite Hempty in Hfirst. cbn [negb] in Hfirst.
    injection Hfirst as <- <-.
    unfold calculate_averages. rewrite Hempty. reflexivity.
  - destruct (forallb is_timestamp (Date data)) eqn:Hstamps.
    + rewrite (calculate_averages_returns data Hempty Hstamps) in Hfirst.
      injection Hfirst as <- <-.
      match goal with
      | |- calculate_averages ?fr = _ =>
          rewrite (calculate_averages_returns fr Hempty Hstamps)
      end.
      cbn [rows others]. unfold Date, Flights. cbn [rows].
      fold (Date data). fold (Flights data).
      rewrite (lookup_assign_known "Week")
        by (rewrite lookup_assign_other by discriminate; apply lookup_assign_same).
      rewrite (lookup_assign_known "Month") by apply lookup_assign_same.
      reflexivity.
    + unfold calculate_averages, dt in Hfirst.
      rewrite Hempty, Hstamps in Hfirst. cbn [negb] in Hfirst.
      injection Hfirst as <- <-.
      unfold calculate_averages, dt. rewrite Hempty, Hstamps. reflexivity.
Qed.

Lemma calculate_averages_again_witness :
  @calculate_averages spec_float Float64
     (mkframe (rows two_februaries) [("Week", [7; 7]); ("Month", [2; 2])])
  = (mkframe (rows two_februaries) [("Week", [7; 7]); ("Month", [2; 2])],
     Returned (S754_finite false 5629499534213120 (-48),
               S754_finite false 5629499534213120 (-47),
               S754_finite false 5629499534213120 (-47))).
Proof.
  apply (calculate_averages_again spec_float Float64 two_februaries). reflexivity.
Defined.

End MoreAverages.

(** ** More on the projection *)

Section MoreProjection.

Lemma sum_nonnegative (l : list Z) :
  Forall (fun f => 0 <= f) l ->
  0 <= sum l /\ (sum l = 0 <-> Forall (fun f => f = 0) l).
Proof.
  induction 1 as [| x l Hx Hl [IHpos IHzero]].
  - split; [cbn; lia | ]. split; [constructor | reflexivity].
  - rewrite sum_cons. split; [lia | ]. split.
    + intros Hsum. constructor; [lia | ]. apply IHzero. lia.
    + intros Hall. inversion Hall; subst. apply IHzero in H2. lia.
Qed.

(** On a collection with no negative count there is no projection exactly
    when no flight is on record: the collection is empty or every record
    counts zero flights. The sum of the flights and the number of records
    are such as a float holds exactly. *)
Theorem no_projection_without_flights (F : Type) (N : Number F) (L : Rounding F)
        (data : DataFrame) (now : datetime) :
  Forall (fun f => 0 <= f) (Flights data) ->
  sum (Flights data) < 2 ^ 53 ->
  Z.of_nat (List.length (rows data)) < 2 ^ 53 ->
  (predict_completion_date data now = Returned None
   <-> Forall (fun f => f = 0) (Flights data)).
Proof.
  intros Hnonneg Hsum Hrows.
  destruct (sum_nonnegative (Flights data) Hnonneg) as [Hpos Hzero].
  rewrite predict_completion_date_none. rewrite <- Hzero.
  destruct (empty data) eqn:Hempty.
  - split; [intros _ | auto].
    unfold empty in Hempty. unfold Flights.
    destruct (rows data); [reflexivity | discriminate].
  - rewrite (dailyAvg_sign data Hempty) by (assumption || lia).
    rewrite Z.ltb_ge. split; [intros [Habs | Hle]; [discriminate | lia] | intros ->; right; lia].
Qed.

(** In binary64: a day of no flights gives no projection, a day of one
    flight gives one. *)
Lemma no_projection_without_flights_witness :
  (@predict_completion_date spec_float Float64 (one_day 0) june_1st = Returned None
   <-> Forall (fun f => f = 0) (Flights (one_day 0)))
  /\ @predict_completion_date spec_float Float64 (one_day 0) june_1st = Returned None
  /\ @predict_completion_date spec_float Float64 (one_day 1) june_1st
     = Returned (Some ("2029-01-04"%string, 1678)).
Proof.
  split; [ | split; vm_compute; reflexivity].
  apply (no_projection_without_flights spec_float Float64 Float64_rounding
                                       (one_day 0) june_1st).
  - repeat constructor. discriminate.
  - reflexivity.
  - reflexivity.
Defined.

(** Short of the target, up to 1679 flights, and with flights on record,
    the flights that remain are positive and the quotient is a number that
    is zero or more; and unless the date projected falls past the year
    9999 the projection is returned: the days are the floor of the
    quotient, and the date is today or later. *)
Theorem predict_before_target (F : Type) (N : Number F) (L : Rounding F)
        (data : DataFrame) (now : datetime) :
  valid_datetime now = true ->
  0 < sum (Flights data) <= 1679 ->
  Z.of_nat (List.length (rows data)) < 2 ^ 53 ->
  exists remaining q : Q,
    value (fsub TOTAL_FLIGHTS_KINABALU (of_Z (sum (Flights data)))) = Returned remaining
    /\ (0 < remaining)%Q
    /\ value (quotient data) = Returned q
    /\ (0 <= q)%Q
    /\ (ordinal now + Qfloor q + 1 <= MAXORDINAL ->
        exists t,
          predict_completion_date data now = Returned (Some (strftime t, Qfloor q))
          /\ 0 <= Qfloor q
          /\ ordinal now <= ordinal t).
Proof.
  intros Hnow Htotal Hrows.
  assert (Hempty : empty data = false).
  { unfold empty, Flights in *. destruct (rows data); [cbn in Htotal; lia | reflexivity]. }
  assert (Hpos : gt0 (dailyAvg data) = true).
  { rewrite dailyAvg_sign by (assumption || lia). apply Z.ltb_lt. lia. }
  destruct (remaining_sign (sum (Flights data))) as (r & Hr & Hshort & _); [lia | ].
  specialize (Hshort ltac:(lia)).
  destruct (quotient_finite data) as (q & Hq); [lia | assumption | ].
  assert (Hq0 : (0 <= q)%Q).
  { apply (quotient_sign _ _ r q Hr Hpos Hq). apply Qlt_le_weak. assumption. }
  exists r, q. do 4 (split; [assumption | ]). intros Hrange.
  assert (Hfloor : 0 <= Qfloor q).
  { rewrite <- (Qfloor_Z 0). apply Qfloor_resp_le. assumption. }
  destruct (valid_datetime_range now Hnow) as [Hord _].
  destruct (predict_completion_date_returns data now q Hnow Hempty Hpos Hq)
    as (us & t & _ & _ & Hreturns & Hday); [lia | assumption | ].
  exists t. rewrite Hreturns. rewrite Qtruncate_nonneg by assumption.
  split; [reflexivity | ]. split; lia.
Qed.

(** In binary64, at noon of 2024-06-01: 600 days with one flight give the
    quotient 1007024.9999999999 and so 1007024 days, where the exact
    quotient is 1007025. *)
Lemma predict_before_target_witness :
  @predict_completion_date spec_float Float64 six_hundred_days june_1st
  = Returned (Some ("4781-07-23"%string, 1007024))
  /\ value (@quotient spec_float Float64 six_hundred_days)
     = Returned (8650278882508799 # 8589934592)
  /\ ordinal june_1st + Qfloor (8650278882508799 # 8589934592) + 1 <= MAXORDINAL
  /\ (@quotient Q Exact six_hundred_days == inject_Z 1007025)%Q
  /\ exists remaining q : Q,
       value (fsub (@TOTAL_FLIGHTS_KINABALU spec_float Float64)
                   (of_Z (sum (Flights six_hundred_days)))) = Returned remaining
       /\ (0 < remaining)%Q
       /\ value (@quotient spec_float Float64 six_hundred_days) = Returned q
       /\ (0 <= q)%Q
       /\ (ordinal june_1st + Qfloor q + 1 <= MAXORDINAL ->
           exists t,
             @predict_completion_date spec_float Float64 six_hundred_days june_1st
             = Returned (Some (strftime t, Qfloor q))
             /\ 0 <= Qfloor q
             /\ ordinal june_1st <= ordinal t).
Proof.
  split; [vm_compute; reflexivity | ]. split; [vm_compute; reflexivity | ].
  split; [vm_compute; discriminate | ]. split; [reflexivity | ].
  apply (predict_before_target spec_float Float64 Float64_rounding
                               six_hundred_days june_1st).
  - reflexivity.
  - vm_compute. split; congruence.
  - reflexivity.
Defined.

End MoreProjection.

(** ** The Dashboard page *)

Section DashboardPage.

Local Open Scope string_scope.

(** On every table with records that [load_data] returns, the Dashboard
    stops at its call of [calculate_averages], line 147: it has shown the
    header and the chart that compares the height climbed, 8 feet a
    flight, with the 13435 feet of the mountain, and it shows no average,
    no progress and no projection; the frame is as it was loaded. *)
Theorem dashboard_stops_at_the_averages (F : Type) (N : Number F)
        (fs : files) (data : DataFrame) (now : datetime) :
  load_data fs = Returned data ->
  empty data = false ->
  dashboard now (mksession data [])
  = (mksession data
       [st_header "Dashboard";
        st_subheader "Progress";
        bar_chart "Comparison: Your Climb vs Gunung Kinabalu"
                  [("Your Progress", 8 * total_flights data); ("Gunung Kinabalu", 13435)];
        st_subheader "Averages Over Time"],
     Raised AttributeError).
Proof.
  intros Hload Hempty.
  unfold dashboard, then_, show, the_data, averages. cbn [frame shown app].
  rewrite (calculate_averages_object_dates data (load_data_object_dates fs data Hload)).
  rewrite Hempty. cbn [fst snd]. unfold height_climbed, HEIGHT_PER_FLIGHT.
  rewrite Z.mul_comm. reflexivity.
Qed.

(** A week on record: 29 flights, 232 feet, and the page stops. *)
Lemma dashboard_stops_at_the_averages_witness :
  load_data (write no_files DATA_FILE (to_csv stored_week)) = Returned stored_week
  /\ @dashboard spec_float Float64 june_1st (mksession stored_week [])
     = (mksession stored_week
          [st_header "Dashboard";
           st_subheader "Progress";
           bar_chart "Comparison: Your Climb vs Gunung Kinabalu"
                     [("Your Progress", 8 * total_flights stored_week);
                      ("Gunung Kinabalu", 13435)];
           st_subheader "Averages Over Time"],
        Raised AttributeError)
  /\ 8 * total_flights stored_week = 232.
Proof.
  split; [reflexivity | ]. split; [ | reflexivity].
  apply (dashboard_stops_at_the_averages
           spec_float Float64 (write no_files DATA_FILE (to_csv stored_week)));
    reflexivity.
Defined.

(** On an empty table, the first run or a table after the reset, the
    Dashboard runs to its end in binary64: every count and average shows
    zero, the progress bar stands at 0.0, a value [st.progress] accepts,
    and both prediction cards show N/A. *)
Theorem dashboard_of_an_empty_table (data : DataFrame) (now : datetime) :
  empty data = true ->
  @dashboard spec_float Float64 now (mksession data [])
  = (mksession data
       [st_header "Dashboard";
        st_subheader "Progress";
        bar_chart "Comparison: Your Climb vs Gunung Kinabalu"
                  [("Your Progress", 0); ("Gunung Kinabalu", 13435)];
        st_subheader "Averages Over Time";
        st_subheader "Progress";
        card "Flights Climbed" (as_int 0) (Some "flights");
        card "Height Climbed" (int_2f 0) (Some "feet");
        card "Progress" (percent_2f (S754_zero false)) None;
        progress_bar (S754_zero false);
        st_subheader "Predictions";
        card "Estimated Completion Date" (as_text "N/A") None;
        card "Days Remaining" (as_text "N/A") (Some "days");
        st_subheader "Averages";
        card "Daily Average" (float_2f (S754_zero false)) (Some "flights");
        card "Weekly Average" (float_2f (S754_zero false)) (Some "flights");
        card "Monthly Average" (float_2f (S754_zero false)) (Some "flights")],
     Returned tt).
Proof.
  destruct data as [rs cols]. unfold empty. cbn [rows].
  destruct rs as [| r rs]; [intros _ | discriminate].
  vm_compute. reflexivity.
Qed.

(** The first run, with no file, and the table the reset leaves. *)
Lemma dashboard_of_an_empty_table_witness :
  load_data no_files = Returned new_frame
  /\ (exists fs, reset_data no_files
                 = Returned (new_frame, fs, warning "All data has been reset.")
                 /\ load_data fs = Returned new_frame)
  /\ snd (@dashboard spec_float Float64 june_1st (mksession new_frame [])) = Returned tt
  /\ In (progress_bar (S754_zero false))
        (shown (fst (@dashboard spec_float Float64 june_1st (mksession new_frame [])))).
Proof.
  split; [reflexivity | ].
  split; [eexists; split; reflexivity | ].
  rewrite (dashboard_of_an_empty_table new_frame june_1st eq_refl).
  split; [reflexivity | ]. cbn. tauto.
Defined.

End DashboardPage.
